(** * Voice gateway: codec, transcript capture, phone normalisation and the
      carrier/AI audio bridge

    A shallow embedding of [gateway/utils/phone.py],
    [gateway/voice/transcript.py], [gateway/voice/transcoder.py] and
    [gateway/voice/bridge.py], followed by the properties established
    about them.  Part I holds the definitions, Part II the theorems. *)

From Stdlib Require Import String Ascii.
From Stdlib.Strings Require Byte.
From Stdlib Require Import ZArith NArith List Bool Lia.
From Stdlib Require Import QArith Qabs SpecFloat.
From Equations Require Import Equations.
Import ListNotations.
Close Scope Q_scope.

Set Implicit Arguments.

(* ===================================================================== *)
(** * Part I.  Definitions                                                *)
(* ===================================================================== *)

(** ** Python text

    A Python [str] is a sequence of Unicode code points.  Literals of the
    source are ASCII and are written with [py]. *)
Module Py.

Definition char := N.
Definition str := list char.

Definition py (s : string) : str :=
  List.map N_of_ascii (list_ascii_of_string s).

Definition char_eqb (a b : char) : bool := N.eqb a b.

Fixpoint str_eqb (a b : str) : bool :=
  match a, b with
  | [], [] => true
  | x :: a', y :: b' => char_eqb x y && str_eqb a' b'
  | _, _ => false
  end.

(** [c.isspace()] for a single code point: the characters [str.strip()]
    removes when called without argument. *)
Definition isspace (c : char) : bool :=
  ((9 <=? c) && (c <=? 13) || (28 <=? c) && (c <=? 32)
   || (c =? 133) || (c =? 160) || (c =? 5760)
   || (8192 <=? c) && (c <=? 8202)
   || (c =? 8232) || (c =? 8233) || (c =? 8239) || (c =? 8287)
   || (c =? 12288))%N.

Fixpoint lstrip (s : str) : str :=
  match s with
  | [] => []
  | c :: r => if isspace c then lstrip r else s
  end.

Definition rstrip (s : str) : str := rev (lstrip (rev s)).

(** [s.strip()] *)
Definition strip (s : str) : str := rstrip (lstrip s).

(** [s.startswith(p)] *)
Fixpoint startswith (s p : str) {struct p} : bool :=
  match p, s with
  | [], _ => true
  | x :: p', y :: s' => char_eqb x y && startswith s' p'
  | _ :: _, [] => false
  end.

(** [''.join(parts)] *)
Definition join (parts : list str) : str := List.concat parts.

(** Truthiness of a [str]: non-empty. *)
Definition truthy (s : str) : bool :=
  match s with [] => false | _ :: _ => true end.

End Py.

(** ** [gateway/utils/phone.py] *)
Module Phone.
Import Py.

Definition ascii_digit (c : char) : bool := ((48 <=? c) && (c <=? 57))%N.

Section Normalize.

(** The regular-expression class [\d] on [str] patterns matches every
    Unicode decimal digit.  The ASCII digits are written out; membership
    of the other code points in category Nd comes from the interpreter's
    Unicode database and is a parameter. *)
Variable unicode_Nd : char -> bool.

Definition re_digit (c : char) : bool := ascii_digit c || unicode_Nd c.

(** [re.sub(r"[^\d+]", "", s)]: every character that is neither a digit
    nor ['+'] is deleted. *)
Definition keep (c : char) : bool := re_digit c || char_eqb c 43%N.

Definition re_sub_non_digit_plus (s : str) : str := filter keep s.

Definition normalize_e164 (phone : str) : str :=
  let digits := re_sub_non_digit_plus (strip phone) in
  if startswith digits (py "+") then digits
  else if Nat.eqb (length digits) 10 then py "+1" ++ digits
  else if Nat.eqb (length digits) 11 && startswith digits (py "1")
       then py "+" ++ digits
  else py "+" ++ digits.

End Normalize.

(** The Arabic-Indic digits U+0660..U+0669, a sample of category Nd. *)
Definition arabic_indic_digit (c : char) : bool :=
  ((1632 <=? c) && (c <=? 1641))%N.

End Phone.

(** ** [gateway/voice/transcript.py] *)
Module Transcript.
Import Py.

(** A turn is the dict [{"role": ..., "content": ...}]. *)
Record turn := Turn { role : str; content : str }.

(** The three attributes of [TranscriptCapture]. *)
Record TranscriptCapture := Capture {
  _tokens : list str;
  _assistant_text : list str;
  _turns : list turn
}.

(** [__init__] *)
Definition init : TranscriptCapture := Capture [] [] [].

Definition add_token (self : TranscriptCapture) (text : str)
  : TranscriptCapture :=
  Capture (_tokens self ++ [text]) (_assistant_text self ++ [text])
          (_turns self).

Definition end_turn (self : TranscriptCapture) : TranscriptCapture :=
  match _assistant_text self with
  | [] => self
  | _ :: _ =>
      let full_text := strip (join (_assistant_text self)) in
      let turns' :=
        if truthy full_text
        then _turns self ++ [Turn (py "assistant") full_text]
        else _turns self in
      Capture (_tokens self) [] turns'
  end.

Definition add_user_note (self : TranscriptCapture) (note : str)
  : TranscriptCapture :=
  if truthy (strip note)
  then Capture (_tokens self) (_assistant_text self)
               (_turns self ++ [Turn (py "user") (strip note)])
  else self.

(** [get_transcript] flushes the open turn and returns a copy of the turn
    list; the capture is mutated by the flush. *)
Definition get_transcript (self : TranscriptCapture)
  : TranscriptCapture * list turn :=
  let self' := end_turn self in (self', _turns self').

Definition get_full_text (self : TranscriptCapture) : str :=
  join (_tokens self).

(** The operations a caller can apply to a capture before extraction. *)
Inductive op :=
| AddToken (text : str)
| EndTurn
| AddUserNote (note : str).

Definition apply_op (self : TranscriptCapture) (o : op) : TranscriptCapture :=
  match o with
  | AddToken t => add_token self t
  | EndTurn => end_turn self
  | AddUserNote n => add_user_note self n
  end.

Definition run (ops : list op) (self : TranscriptCapture) : TranscriptCapture :=
  fold_left apply_op ops self.

(** The invariant of the data model: trimmed and non-empty content. *)
Definition turn_ok (t : turn) : Prop :=
  content t = strip (content t) /\ content t <> [].

End Transcript.

(** ** [gateway/voice/transcoder.py] *)
Module Transcoder.
Local Open Scope Z_scope.

(** A Python [bytes] value. *)
Definition bytes := list Byte.byte.

Definition byte_to_Z (b : Byte.byte) : Z := Z.of_N (Byte.to_N b).

(** Storing an integer of the range 0..255 into a [uint8] cell. *)
Definition byte_of_Z (z : Z) : Byte.byte :=
  match Byte.of_N (Z.to_N z) with
  | Some b => b
  | None => Byte.x00
  end.

(** *** IEEE 754 numbers

    NumPy's [float32] is binary32 and Python's [float] is binary64.  Both
    are taken from the Standard Library's executable specification of
    IEEE 754 arithmetic, with round-to-nearest-even. *)
Definition float32 := spec_float.
Definition float64 := spec_float.

Definition prec32 : Z := 24.
Definition emax32 : Z := 128.
Definition prec64 : Z := 53.
Definition emax64 : Z := 1024.

(** [float(n)] for a Python integer. *)
Definition int_to_f64 (n : Z) : float64 :=
  binary_normalize prec64 emax64 n 0 false.

(** The integer [n] as a [float32] scalar. *)
Definition int_to_f32 (n : Z) : float32 :=
  binary_normalize prec32 emax32 n 0 false.

(** Storing a Python [float] into a [float32] array rounds it to
    binary32. *)
Definition f64_to_f32 (x : float64) : float32 :=
  match x with
  | S754_finite s m e =>
      binary_normalize prec32 emax32 (cond_Zopp s (Zpos m)) e s
  | _ => x
  end.

(** The real number a float denotes; infinities and NaN denote none. *)
Definition float_value (x : spec_float) : option Q :=
  match x with
  | S754_zero _ => Some 0%Q
  | S754_finite s m e =>
      Some (match e with
            | Zneg p => Qmake (cond_Zopp s (Zpos m)) (Pos.pow 2 p)
            | _ => inject_Z (cond_Zopp s (Zpos m) * 2 ^ e)
            end)
  | _ => None
  end.

Definition TWILIO_RATE : Z := 8000.
Definition PERSONAPLEX_RATE : Z := 24000.

Definition _MULAW_BIAS : Z := 0x84.
Definition _MULAW_CLIP : Z := 32635.

(** [range(n)] *)
Fixpoint range_from (start : Z) (n : nat) : list Z :=
  match n with
  | O => []
  | S k => start :: range_from (start + 1) k
  end.

Definition range (n : nat) : list Z := range_from 0 n.

(** The body of the loop that fills the decode table, up to the integer
    sample [_sample] it computes for the index [_i]. *)
Definition decode_sample (_i : Z) : Z :=
  let _val := Z.land (Z.lnot _i) 0xFF in
  let _sign := Z.land _val 0x80 in
  let _exponent := Z.land (Z.shiftr _val 4) 0x07 in
  let _mantissa := Z.land _val 0x0F in
  let _sample := Z.shiftl (Z.shiftl _mantissa 3 + _MULAW_BIAS) _exponent in
  let _sample := _sample - _MULAW_BIAS in
  if Z.eqb _sign 0 then _sample else - _sample.

(** [_sample / 32768.0], stored into the [float32] table. *)
Definition decode_entry (_i : Z) : float32 :=
  f64_to_f32 (SFdiv prec64 emax64 (int_to_f64 (decode_sample _i))
                                  (int_to_f64 32768)).

Definition _MULAW_DECODE_TABLE : list float32 :=
  List.map decode_entry (range 256).

(** [_MULAW_DECODE_TABLE[indices].copy()] with
    [indices = np.frombuffer(data, dtype=np.uint8)]. *)
Definition mulaw_to_pcm (data : bytes) : list float32 :=
  List.map (fun b => nth (Byte.to_nat b) _MULAW_DECODE_TABLE S754_nan) data.

(** The [for e in range(7, 0, -1)] loop with its [else] branch: the
    exponent is the first [e] whose mask bit is set, 0 when none is. *)
Fixpoint find_exponent (es : list Z) (mask sample : Z) : Z :=
  match es with
  | [] => 0
  | e :: es' =>
      if negb (Z.eqb (Z.land sample mask) 0) then e
      else find_exponent es' (Z.shiftr mask 1) sample
  end.

Definition _encode_mulaw_sample (sample : Z) : Z :=
  let sign := if Z.ltb sample 0 then 0x80 else 0 in
  let sample := if Z.ltb sample 0 then - sample else sample in
  let sample := if Z.gtb sample _MULAW_CLIP then _MULAW_CLIP else sample in
  let sample := sample + _MULAW_BIAS in
  let exponent := find_exponent [7; 6; 5; 4; 3; 2; 1] 0x4000 sample in
  let mantissa := Z.land (Z.shiftr sample (exponent + 3)) 0x0F in
  Z.land (Z.lnot (Z.lor (Z.lor sign (Z.shiftl exponent 4)) mantissa)) 0xFF.

(** The index [_u] read as a signed 16-bit integer. *)
Definition as_int16 (_u : Z) : Z := if Z.ltb _u 32768 then _u else _u - 65536.

Definition _MULAW_ENCODE_TABLE : list Z :=
  List.map (fun _u => _encode_mulaw_sample (as_int16 _u))
           (range (Z.to_nat 65536)).

(** [np.clip(x, -1.0, 1.0)] on one element; NaN stays NaN. *)
Definition clip (x : float32) : float32 :=
  match x with
  | S754_nan => S754_nan
  | _ =>
      if SFltb x (int_to_f32 (-1)) then int_to_f32 (-1)
      else if SFltb (int_to_f32 1) x then int_to_f32 1
      else x
  end.

(** [.astype(np.int16)] on one element: the C conversion, which truncates
    towards zero.  The conversion of NaN is left to the platform and gives
    0 on the x86-64 and AArch64 builds; values beyond the 16-bit range
    cannot occur after [clip] and are wrapped. *)
Definition astype_int16 (x : float32) : Z :=
  match x with
  | S754_finite s m e =>
      let t := match e with
               | Zneg p => Z.quot (cond_Zopp s (Zpos m)) (Zpos (Pos.pow 2 p))
               | _ => cond_Zopp s (Zpos m) * 2 ^ e
               end in
      as_int16 (t mod 65536)
  | _ => 0
  end.

(** [.view(np.uint16)]: the same 16 bits read as unsigned. *)
Definition view_uint16 (s : Z) : Z := s mod 65536.

Definition pcm_to_mulaw_sample (x : float32) : Byte.byte :=
  let pcm_clipped := clip x in
  let int16_data := astype_int16 (SFmul prec32 emax32 pcm_clipped
                                        (int_to_f32 32767)) in
  let uint16_view := view_uint16 int16_data in
  byte_of_Z (nth (Z.to_nat uint16_view) _MULAW_ENCODE_TABLE 0).

Definition pcm_to_mulaw (pcm : list float32) : bytes :=
  List.map pcm_to_mulaw_sample pcm.

(** *** Table-free readings, used to reason about the tables

    What a table lookup returns, written without the table: the decode
    entry of a byte, and the encoding of one sample. *)
Definition decode_byte (b : Byte.byte) : float32 :=
  decode_entry (Z.of_nat (Byte.to_nat b)).

Definition encode_direct (x : float32) : Byte.byte :=
  byte_of_Z (_encode_mulaw_sample
               (as_int16 (view_uint16
                  (astype_int16 (SFmul prec32 emax32 (clip x)
                                       (int_to_f32 32767)))))).

(** *** The decoder as the specification words it

    ITU-T G.711 decoding of one byte, written with arithmetic instead of
    bit operations: invert the byte, take the sign (bit 7), the exponent
    (bits 6-4) and the mantissa (bits 3-0), compute
    [((mantissa << 3) + 0x84) << exponent - 0x84], apply the sign and
    divide by 32768. *)
Definition g711_decode_spec (b : Byte.byte) : Q :=
  let inverted := 255 - byte_to_Z b in
  let negative := 128 <=? inverted in
  let exponent := (inverted / 16) mod 8 in
  let mantissa := inverted mod 16 in
  let sample := (mantissa * 8 + 132) * 2 ^ exponent - 132 in
  Qmake (if negative then - sample else sample) 32768.

(** The two facts checked for each of the 256 table entries. *)
Definition decode_entry_ok (b : Byte.byte) : bool :=
  match float_value (decode_byte b) with
  | Some q => valid_binary prec32 emax32 (decode_byte b)
              && Qeq_bool q (g711_decode_spec b)
              && Qle_bool (-1) q && Qle_bool q 1
  | None => false
  end.

Definition is_finite (x : spec_float) : bool :=
  match x with
  | S754_zero _ | S754_finite _ _ _ => true
  | _ => false
  end.

(** Decoding, encoding and decoding again gives back the very same
    float, for one byte. *)
Definition roundtrip_entry_ok (b : Byte.byte) : bool :=
  match decode_byte b, decode_byte (encode_direct (decode_byte b)) with
  | S754_zero s1, S754_zero s2 => Bool.eqb s1 s2
  | S754_finite s1 m1 e1, S754_finite s2 m2 e2 =>
      Bool.eqb s1 s2 && Pos.eqb m1 m2 && Z.eqb e1 e2
  | _, _ => false
  end.

Section Resampling.

(** [soxr.resample(pcm, from_rate, to_rate)], the external resampler. *)
Variable soxr_resample : list float32 -> Z -> Z -> list float32.

Definition resample (pcm : list float32) (from_rate to_rate : Z)
  : list float32 :=
  if Z.eqb from_rate to_rate then pcm
  else soxr_resample pcm from_rate to_rate.

Definition mulaw_8k_to_pcm_24k (data : bytes) : list float32 :=
  let pcm_8k := mulaw_to_pcm data in
  resample pcm_8k TWILIO_RATE PERSONAPLEX_RATE.

Definition pcm_24k_to_mulaw_8k (pcm_24k : list float32) : bytes :=
  let pcm_8k := resample pcm_24k PERSONAPLEX_RATE TWILIO_RATE in
  pcm_to_mulaw pcm_8k.

End Resampling.

End Transcoder.

(** ** [gateway/voice/bridge.py] *)
Module Bridge.
Import Py Transcoder.
Local Open Scope Z_scope.

Definition PP_SAMPLE_RATE : Z := 24000.
Definition OPUS_FRAME_MS : Z := 20.
Definition OPUS_FRAME_SAMPLES : nat :=
  Z.to_nat (PP_SAMPLE_RATE * OPUS_FRAME_MS / 1000).

(** *** Values and messages *)

(** A value built by [json.loads], or handed to [json.dumps]; Python's
    [None] is [JNull]. *)
#[warnings="-register-all"]
Inductive json :=
| JNull
| JBool (b : bool)
| JInt (z : Z)
| JFloat (x : float64)
| JStr (s : str)
| JList (l : list json)
| JDict (items : list (str * json)).

(** The exceptions the loop bodies can raise.  [RecursionError] and
    [ValueError] are what [json.loads] raises, apart from
    [JSONDecodeError], on text nested too deeply and on an integer literal
    beyond the interpreter's digit limit; [ValueError] here is the plain
    one, not its subclass [JSONDecodeError]. *)
Inductive exn :=
| JSONDecodeError
| AttributeError
| KeyError
| TypeError
| BinasciiError
| IndexError
| RecursionError
| ValueError.

(** A text handed to [json.loads], represented by what [json.loads] makes
    of it: a value, a rejection of the raw text with [JSONDecodeError], or
    one of its other exceptions. *)
Inductive text :=
| Malformed (raw : str)
| Json (v : json)
| Unloadable (raw : str) (e : exn).

(** An [aiohttp] message as the loops see it: its type and, for the two
    data types, its data. *)
Inductive WSMessage :=
| TEXT (data : text)
| BINARY (data : bytes)
| PING
| PONG
| CLOSE
| CLOSING
| CLOSED
| ERROR.

(** [d.get(key)] on a dict given by its items. *)
Fixpoint dict_get (items : list (str * json)) (key : str) : option json :=
  match items with
  | [] => None
  | (k, v) :: rest => if str_eqb k key then Some v else dict_get rest key
  end.

(** [value == "literal"] for a JSON value. *)
Definition json_eq_str (v : json) (lit : str) : bool :=
  match v with
  | JStr s => str_eqb s lit
  | _ => false
  end.

(** *** The libraries the bridge calls

    Base64, UTF-8 decoding, the resampler and the native Opus library are
    not part of the repository; the bridge is modelled over them. *)
Class Externals := {
  (** [base64.b64decode(s)] on a [str]; [None] when it raises. *)
  b64decode : str -> option bytes;
  (** [base64.b64encode(b).decode("ascii")] *)
  b64encode : bytes -> str;
  (** [b.decode("utf-8", errors="replace")] *)
  utf8_decode_replace : bytes -> str;
  (** [soxr.resample] *)
  soxr_resample : list float32 -> Z -> Z -> list float32;
  (** The states of a native encoder and decoder. *)
  Encoder : Type;
  Decoder : Type;
  opus_encoder_create : Encoder;
  opus_decoder_create : Decoder;
  (** [opus_encode(enc, in_buf, 480, out_buf, 4000)]: the new encoder
      state, the returned count and the contents of [out_buf]. *)
  opus_encode : Encoder -> list Z -> Encoder * Z * bytes;
  (** [opus_decode(dec, data, len, out_buf, 480, 0)]: the new decoder
      state, the returned count and the 16-bit contents of [out_buf]. *)
  opus_decode : Decoder -> bytes -> Decoder * Z * list Z
}.

Section WithExternals.
Context {E : Externals}.

(** *** The bridge object

    The attributes of [VoiceBridge] the loops use, the two lazily created
    Opus handles, and what has gone out on each wire and to the message
    table so far. *)
Record VoiceBridge := {
  _transcript : Transcript.TranscriptCapture;
  _close : bool;
  _stream_sid : json;
  _pcm_buffer : list float32;
  _encoder : option Encoder;
  _decoder : option Decoder;
  (** binary messages sent with [self._pp_ws.send_bytes] *)
  pp_sent : list bytes;
  (** envelopes sent with [self._twilio_ws.send_str(json.dumps(...))] *)
  twilio_sent : list json;
  (** [(role, content)] of each [add_message] call *)
  db_messages : list (str * str)
}.

(** [__init__] *)
Definition init : VoiceBridge := {|
  _transcript := Transcript.init;
  _close := false;
  _stream_sid := JNull;
  _pcm_buffer := [];
  _encoder := None;
  _decoder := None;
  pp_sent := [];
  twilio_sent := [];
  db_messages := []
|}.

Definition set_transcript (self : VoiceBridge) t : VoiceBridge :=
  {| _transcript := t; _close := _close self;
     _stream_sid := _stream_sid self; _pcm_buffer := _pcm_buffer self;
     _encoder := _encoder self; _decoder := _decoder self;
     pp_sent := pp_sent self; twilio_sent := twilio_sent self;
     db_messages := db_messages self |}.

Definition set_close (self : VoiceBridge) c : VoiceBridge :=
  {| _transcript := _transcript self; _close := c;
     _stream_sid := _stream_sid self; _pcm_buffer := _pcm_buffer self;
     _encoder := _encoder self; _decoder := _decoder self;
     pp_sent := pp_sent self; twilio_sent := twilio_sent self;
     db_messages := db_messages self |}.

Definition set_stream_sid (self : VoiceBridge) sid : VoiceBridge :=
  {| _transcript := _transcript self; _close := _close self;
     _stream_sid := sid; _pcm_buffer := _pcm_buffer self;
     _encoder := _encoder self; _decoder := _decoder self;
     pp_sent := pp_sent self; twilio_sent := twilio_sent self;
     db_messages := db_messages self |}.

Definition set_pcm_buffer (self : VoiceBridge) buf : VoiceBridge :=
  {| _transcript := _transcript self; _close := _close self;
     _stream_sid := _stream_sid self; _pcm_buffer := buf;
     _encoder := _encoder self; _decoder := _decoder self;
     pp_sent := pp_sent self; twilio_sent := twilio_sent self;
     db_messages := db_messages self |}.

Definition set_encoder (self : VoiceBridge) enc : VoiceBridge :=
  {| _transcript := _transcript self; _close := _close self;
     _stream_sid := _stream_sid self; _pcm_buffer := _pcm_buffer self;
     _encoder := Some enc; _decoder := _decoder self;
     pp_sent := pp_sent self; twilio_sent := twilio_sent self;
     db_messages := db_messages self |}.

Definition set_decoder (self : VoiceBridge) dec : VoiceBridge :=
  {| _transcript := _transcript self; _close := _close self;
     _stream_sid := _stream_sid self; _pcm_buffer := _pcm_buffer self;
     _encoder := _encoder self; _decoder := Some dec;
     pp_sent := pp_sent self; twilio_sent := twilio_sent self;
     db_messages := db_messages self |}.

Definition pp_send_bytes (self : VoiceBridge) (b : bytes) : VoiceBridge :=
  {| _transcript := _transcript self; _close := _close self;
     _stream_sid := _stream_sid self; _pcm_buffer := _pcm_buffer self;
     _encoder := _encoder self; _decoder := _decoder self;
     pp_sent := pp_sent self ++ [b]; twilio_sent := twilio_sent self;
     db_messages := db_messages self |}.

Definition twilio_send_str (self : VoiceBridge) (m : json) : VoiceBridge :=
  {| _transcript := _transcript self; _close := _close self;
     _stream_sid := _stream_sid self; _pcm_buffer := _pcm_buffer self;
     _encoder := _encoder self; _decoder := _decoder self;
     pp_sent := pp_sent self; twilio_sent := twilio_sent self ++ [m];
     db_messages := db_messages self |}.

Definition add_message (self : VoiceBridge) (role content : str)
  : VoiceBridge :=
  {| _transcript := _transcript self; _close := _close self;
     _stream_sid := _stream_sid self; _pcm_buffer := _pcm_buffer self;
     _encoder := _encoder self; _decoder := _decoder self;
     pp_sent := pp_sent self; twilio_sent := twilio_sent self;
     db_messages := db_messages self ++ [(role, content)] |}.

(** *** Opus *)

(** [_opus_encode]: the encoder is created on first use; a negative count
    gives [None]. *)
Definition _opus_encode (self : VoiceBridge) (pcm_frame : list float32)
  : VoiceBridge * option bytes :=
  let enc := match _encoder self with
             | Some enc => enc
             | None => opus_encoder_create
             end in
  let int16_data :=
    List.map (fun x => astype_int16 (SFmul prec32 emax32 (clip x)
                                           (int_to_f32 32767)))
             pcm_frame in
  let '(enc', n, out_buf) := opus_encode enc int16_data in
  let self' := set_encoder self enc' in
  if n <? 0 then (self', None)
  else (self', Some (firstn (Z.to_nat n) out_buf)).

(** [_opus_decode]: a negative count gives [None]; otherwise the first
    [n] samples, each divided by 32768 in [float32]. *)
Definition _opus_decode (self : VoiceBridge) (opus_data : bytes)
  : VoiceBridge * option (list float32) :=
  let dec := match _decoder self with
             | Some dec => dec
             | None => opus_decoder_create
             end in
  let '(dec', n, out_buf) := opus_decode dec opus_data in
  let self' := set_decoder self dec' in
  if n <? 0 then (self', None)
  else (self', Some (List.map (fun v => SFdiv prec32 emax32 (int_to_f32 v)
                                                    (int_to_f32 32768))
                              (firstn (Z.to_nat n) out_buf))).

(** Truthiness of [bytes | None]. *)
Definition bytes_truthy (b : option bytes) : bool :=
  match b with
  | Some (_ :: _) => true
  | _ => false
  end.

(** *** Carrier to AI *)

(** One iteration of the [while] loop of [_send_pcm_to_personaplex]: cut
    a frame off the buffer, encode it, and send it when the encoder gave
    a non-empty packet. *)
Definition drain_one (self : VoiceBridge) : VoiceBridge :=
  let frame := firstn OPUS_FRAME_SAMPLES (_pcm_buffer self) in
  let self := set_pcm_buffer self (skipn OPUS_FRAME_SAMPLES (_pcm_buffer self)) in
  let '(self, opus_bytes) := _opus_encode self frame in
  match opus_bytes with
  | Some packet =>
      if bytes_truthy opus_bytes
      then pp_send_bytes self (Byte.x01 :: packet)
      else self
  | None => self
  end.

Opaque OPUS_FRAME_SAMPLES.

(** The loop itself: [while len(self._pcm_buffer) >= OPUS_FRAME_SAMPLES]. *)
Equations? drain_frames (self : VoiceBridge) : VoiceBridge
  by wf (length (_pcm_buffer self)) lt :=
  drain_frames self with le_lt_dec OPUS_FRAME_SAMPLES
                                   (length (_pcm_buffer self)) => {
    | left _ => drain_frames (drain_one self);
    | right _ => self }.
Proof.
  assert (Hpos : (0 < OPUS_FRAME_SAMPLES)%nat) by (vm_compute; lia).
  assert (Hb : _pcm_buffer (drain_one self)
               = skipn OPUS_FRAME_SAMPLES (_pcm_buffer self)).
  { unfold drain_one, _opus_encode.
    destruct (opus_encode _ _) as [[enc' n] out_buf].
    destruct (n <? 0); [reflexivity|].
    destruct (bytes_truthy _); reflexivity. }
  rewrite Hb, length_skipn. lia.
Qed.

Transparent OPUS_FRAME_SAMPLES.

(** [_send_pcm_to_personaplex]; [pp_closed] is [self._pp_ws.closed] when
    the call is made. *)
Definition _send_pcm_to_personaplex (self : VoiceBridge)
           (pcm_24k : list float32) (pp_closed : bool) : VoiceBridge :=
  if pp_closed then self
  else drain_frames (set_pcm_buffer self (_pcm_buffer self ++ pcm_24k)).

(** What one pass through a loop body leads to: the next iteration, a
    [return], or an exception leaving the coroutine. *)
Inductive outcome :=
| Continue
| Return
| Raise (e : exn).

Definition get_or (o : option json) (default : json) : json :=
  match o with
  | Some v => v
  | None => default
  end.

(** The [TEXT] branch of [_twilio_to_personaplex], after [json.loads]
    has produced [data]. *)
Definition twilio_text (self : VoiceBridge) (data : json) (pp_closed : bool)
  : VoiceBridge * outcome :=
  match data with
  | JDict items =>
      let event := get_or (dict_get items (py "event")) JNull in
      if json_eq_str event (py "media") then
        match dict_get items (py "media") with
        | None => (self, Raise KeyError)
        | Some (JDict media) =>
            match dict_get media (py "payload") with
            | None => (self, Raise KeyError)
            | Some (JStr payload_b64) =>
                match b64decode payload_b64 with
                | None => (self, Raise BinasciiError)
                | Some mulaw_bytes =>
                    let pcm_24k :=
                      mulaw_8k_to_pcm_24k soxr_resample mulaw_bytes in
                    (_send_pcm_to_personaplex self pcm_24k pp_closed,
                     Continue)
                end
            | Some _ => (self, Raise TypeError)
            end
        | Some _ => (self, Raise TypeError)
        end
      else if json_eq_str event (py "start") then
        match get_or (dict_get items (py "start")) (JDict []) with
        | JDict start =>
            (set_stream_sid self
               (get_or (dict_get start (py "streamSid")) JNull),
             Continue)
        | _ => (self, Raise AttributeError)
        end
      else if json_eq_str event (py "stop") then (self, Return)
      else (self, Continue)
  | _ => (self, Raise AttributeError)
  end.

(** One turn of the [async for] loop of [_twilio_to_personaplex].  The
    iterator of an [aiohttp] socket ends the loop on [CLOSE], [CLOSING] and
    [CLOSED] without running the body; the body returns when [_close] is
    set and on [ERROR].  Each of these leaves the coroutine with the bridge
    as it is.  An exception of [json.loads] leaves the coroutine
    uncaught. *)
Definition twilio_step (self : VoiceBridge) (msg : WSMessage)
           (pp_closed : bool) : VoiceBridge * outcome :=
  if _close self then (self, Return)
  else match msg with
       | TEXT (Malformed _) => (self, Raise JSONDecodeError)
       | TEXT (Unloadable _ e) => (self, Raise e)
       | TEXT (Json data) => twilio_text self data pp_closed
       | CLOSE | CLOSING | CLOSED | ERROR => (self, Return)
       | _ => (self, Continue)
       end.

(** *** AI to carrier *)

(** The envelope [_send_mulaw_to_twilio] builds. *)
Definition media_envelope (stream_sid : json) (payload_b64 : str) : json :=
  JDict [(py "event", JStr (py "media"));
         (py "streamSid", stream_sid);
         (py "media", JDict [(py "payload", JStr payload_b64)])].

(** [_send_mulaw_to_twilio]; [twilio_closed] is [self._twilio_ws.closed]
    when the call is made. *)
Definition _send_mulaw_to_twilio (self : VoiceBridge) (mulaw_bytes : bytes)
           (twilio_closed : bool) : VoiceBridge :=
  if twilio_closed then self
  else
    let payload_b64 := b64encode mulaw_bytes in
    twilio_send_str self (media_envelope (_stream_sid self) payload_b64).

(** One turn of the [async for] loop of [_personaplex_to_twilio]; the
    iterator ends the loop on [CLOSE], [CLOSING] and [CLOSED] as for the
    carrier. *)
Definition personaplex_step (self : VoiceBridge) (msg : WSMessage)
           (twilio_closed : bool) : VoiceBridge * outcome :=
  if _close self then (self, Return)
  else match msg with
       | BINARY [] => (self, Continue)
       | BINARY (kind :: payload) =>
           if Byte.eqb kind Byte.x01 then
             let '(self, pcm_24k) := _opus_decode self payload in
             match pcm_24k with
             | Some pcm_24k =>
                 let mulaw_8k := pcm_24k_to_mulaw_8k soxr_resample pcm_24k in
                 (_send_mulaw_to_twilio self mulaw_8k twilio_closed, Continue)
             | None => (self, Continue)
             end
           else if Byte.eqb kind Byte.x02 then
             let text := utf8_decode_replace payload in
             (set_transcript self
                (Transcript.add_token (_transcript self) text),
              Continue)
           else (self, Continue)
       | CLOSE | CLOSING | CLOSED | ERROR => (self, Return)
       | _ => (self, Continue)
       end.

(** *** The two loops *)

(** How a loop ended: the messages given to it ran out, the loop was left
    (by the iterator or by a [return] of the body), or an exception left
    the coroutine. *)
Inductive pump_end :=
| Exhausted
| Returned
| Raised (e : exn).

(** [_twilio_to_personaplex] over the messages of the carrier socket, each
    paired with the state of the AI socket when it is handled. *)
Fixpoint _twilio_to_personaplex (msgs : list (WSMessage * bool))
         (self : VoiceBridge) : VoiceBridge * pump_end :=
  match msgs with
  | [] => (self, Exhausted)
  | (msg, pp_closed) :: rest =>
      match twilio_step self msg pp_closed with
      | (self', Continue) => _twilio_to_personaplex rest self'
      | (self', Return) => (self', Returned)
      | (self', Raise e) => (self', Raised e)
      end
  end.

(** [_personaplex_to_twilio] over the messages of the AI socket. *)
Fixpoint _personaplex_to_twilio (msgs : list (WSMessage * bool))
         (self : VoiceBridge) : VoiceBridge * pump_end :=
  match msgs with
  | [] => (self, Exhausted)
  | (msg, twilio_closed) :: rest =>
      match personaplex_step self msg twilio_closed with
      | (self', Continue) => _personaplex_to_twilio rest self'
      | (self', Return) => (self', Returned)
      | (self', Raise e) => (self', Raised e)
      end
  end.

(** *** A call

    The two loops run as tasks on one event loop and share the bridge
    object.  A call is the order in which the event loop hands their
    messages to the two tasks, up to the moment [start] resumes and cancels
    what is left; each body runs on the state the other left. *)
Inductive event :=
| FromTwilio (msg : WSMessage) (pp_closed : bool)
| FromPersonaplex (msg : WSMessage) (twilio_closed : bool).

(** The two tasks. *)
Inductive task :=
| TwilioTask
| PersonaplexTask.

Definition task_of (ev : event) : task :=
  match ev with
  | FromTwilio _ _ => TwilioTask
  | FromPersonaplex _ _ => PersonaplexTask
  end.

Definition task_eqb (a b : task) : bool :=
  match a, b with
  | TwilioTask, TwilioTask | PersonaplexTask, PersonaplexTask => true
  | _, _ => false
  end.

Definition handle (self : VoiceBridge) (ev : event) : VoiceBridge * outcome :=
  match ev with
  | FromTwilio msg pp_closed => twilio_step self msg pp_closed
  | FromPersonaplex msg twilio_closed =>
      personaplex_step self msg twilio_closed
  end.

(** Between the end of the first task and the moment [start] resumes,
    the other task still runs: it handles the messages the event loop
    hands it, with [_close] not yet set, until it is done itself or is
    cancelled at the end of [evs].  The messages of the task that is done
    are read by nobody. *)
Fixpoint wind_down (done : task) (evs : list event) (self : VoiceBridge)
  : VoiceBridge :=
  match evs with
  | [] => self
  | ev :: rest =>
      if task_eqb (task_of ev) done then wind_down done rest self
      else match handle self ev with
           | (self', Continue) => wind_down done rest self'
           | (self', _) => self'
           end
  end.

(** [asyncio.wait(tasks, return_when=FIRST_COMPLETED)] and the cancellation
    that follows it: events are handled until one of the loops is done, by
    a [return] or by an exception; the other task then winds down.  The
    result is the bridge when [start] cancels what is left, and how the
    first task ended. *)
Fixpoint run_pumps (evs : list event) (self : VoiceBridge)
  : VoiceBridge * pump_end :=
  match evs with
  | [] => (self, Exhausted)
  | ev :: rest =>
      match handle self ev with
      | (self', Continue) => run_pumps rest self'
      | (self', Return) => (wind_down (task_of ev) rest self', Returned)
      | (self', Raise e) => (wind_down (task_of ev) rest self', Raised e)
      end
  end.

(** [_on_disconnect], with the user and the conversation created during
    set-up: the transcript is saved as messages, or else the raw text as a
    single assistant message.  The fact extraction it schedules is a
    detached task and is left out. *)
Definition _on_disconnect (self : VoiceBridge) : VoiceBridge :=
  let '(capture, transcript) := Transcript.get_transcript (_transcript self) in
  let self := set_transcript self capture in
  let self :=
    fold_left (fun s turn => add_message s (Transcript.role turn)
                                           (Transcript.content turn))
              transcript self in
  let full_text := Transcript.get_full_text capture in
  match transcript with
  | [] => if truthy full_text
          then add_message self (py "assistant") (strip full_text)
          else self
  | _ :: _ => self
  end.

(** What [start] did, from the handshake on. *)
Record call := {
  (** names of the handshake log records, in order *)
  handshake_log : list str;
  (** the two tasks were created *)
  pumps_spawned : bool;
  (** how the first loop to finish ended, when they ran *)
  pumps_end : option pump_end;
  (** an exception left [start] *)
  raised : option exn;
  on_disconnect_ran : bool;
  cleanup_ran : bool;
  bridge : VoiceBridge
}.

(** [start], after the set-up and the connection to the AI have succeeded:
    [handshake_msg] is the first message received from the AI socket and
    [evs] what the sockets deliver afterwards. *)
Definition start (handshake_msg : WSMessage) (evs : list event) : call :=
  let self := init in
  match handshake_msg with
  | BINARY [] =>
      {| handshake_log := []; pumps_spawned := false; pumps_end := None;
         raised := Some IndexError; on_disconnect_ran := false;
         cleanup_ran := false; bridge := self |}
  | BINARY (kind :: _) =>
      let log := if Byte.eqb kind Byte.x00
                 then py "personaplex_handshake_received"
                 else py "unexpected_first_message" in
      let '(self, e) := run_pumps evs self in
      let self := set_close self true in
      let self := _on_disconnect self in
      {| handshake_log := [log]; pumps_spawned := true; pumps_end := Some e;
         raised := None; on_disconnect_ran := true; cleanup_ran := true;
         bridge := self |}
  | _ =>
      {| handshake_log := [py "handshake_failed"]; pumps_spawned := false;
         pumps_end := None; raised := None; on_disconnect_ran := false;
         cleanup_ran := true; bridge := self |}
  end.

(** *** Reading a call *)

(** A carrier text frame whose [event] is ["start"]. *)
Definition is_start_envelope (ev : event) : bool :=
  match ev with
  | FromTwilio (TEXT (Json (JDict items))) _ =>
      json_eq_str (get_or (dict_get items (py "event")) JNull) (py "start")
  | _ => false
  end.

(** An outbound envelope that is a media envelope with a given stream
    id. *)
Definition carries (stream_sid : json) (envelope : json) : Prop :=
  exists payload_b64, envelope = media_envelope stream_sid payload_b64.

(** The stream id kept and only media envelopes carrying it sent, from
    one state of the bridge to a later one. *)
Definition keeps_sid (self self' : VoiceBridge) : Prop :=
  _stream_sid self' = _stream_sid self /\
  exists new,
    twilio_sent self' = twilio_sent self ++ new /\
    Forall (carries (_stream_sid self)) new.

(** A sequence of send passes, each with the state of the AI socket. *)
Definition send_passes (passes : list (list float32 * bool))
           (self : VoiceBridge) : VoiceBridge :=
  fold_left (fun s pass => _send_pcm_to_personaplex s (fst pass) (snd pass))
            passes self.

End WithExternals.

End Bridge.

(** ** Stand-ins for the libraries

    Small executable instances of the external interfaces, with which the
    model can be run on concrete calls.  They fix the shape of what the
    libraries return, not the audio. *)
Module Sample.
Import Py Transcoder Bridge.
Local Open Scope Z_scope.

(** The standard Base64 alphabet. *)
Definition b64_char (sextet : Z) : char :=
  Z.to_N (if sextet <? 26 then 65 + sextet
          else if sextet <? 52 then 97 + (sextet - 26)
          else if sextet <? 62 then 48 + (sextet - 52)
          else if sextet =? 62 then 43
          else 47).

Fixpoint b64encode (b : bytes) : str :=
  match b with
  | [] => []
  | [x] =>
      let x := byte_to_Z x in
      [b64_char (Z.shiftr x 2); b64_char (Z.shiftl (Z.land x 3) 4);
       61%N; 61%N]
  | [x; y] =>
      let x := byte_to_Z x in
      let y := byte_to_Z y in
      [b64_char (Z.shiftr x 2);
       b64_char (Z.lor (Z.shiftl (Z.land x 3) 4) (Z.shiftr y 4));
       b64_char (Z.shiftl (Z.land y 15) 2); 61%N]
  | x :: y :: z :: rest =>
      let x := byte_to_Z x in
      let y := byte_to_Z y in
      let z := byte_to_Z z in
      b64_char (Z.shiftr x 2)
      :: b64_char (Z.lor (Z.shiftl (Z.land x 3) 4) (Z.shiftr y 4))
      :: b64_char (Z.lor (Z.shiftl (Z.land y 15) 2) (Z.shiftr z 6))
      :: b64_char (Z.land z 63)
      :: b64encode rest
  end.

Definition b64_sextet (c : char) : option Z :=
  let c := Z.of_N c in
  if (65 <=? c) && (c <=? 90) then Some (c - 65)
  else if (97 <=? c) && (c <=? 122) then Some (c - 97 + 26)
  else if (48 <=? c) && (c <=? 57) then Some (c - 48 + 52)
  else if c =? 43 then Some 62
  else if c =? 47 then Some 63
  else None.

(** Decoding of canonical Base64 text: whole groups of four characters,
    padding in the last group only.  Anything else is refused. *)
Fixpoint b64decode (s : str) : option bytes :=
  match s with
  | [] => Some []
  | a :: b :: c :: d :: rest =>
      match b64_sextet a, b64_sextet b with
      | Some a, Some b =>
          let x := byte_of_Z (Z.lor (Z.shiftl a 2) (Z.shiftr b 4)) in
          match b64_sextet c, b64_sextet d, rest with
          | Some c, Some d, _ =>
              let y := byte_of_Z (Z.lor (Z.shiftl (Z.land b 15) 4)
                                        (Z.shiftr c 2)) in
              let z := byte_of_Z (Z.lor (Z.shiftl (Z.land c 3) 6) d) in
              option_map (fun t => x :: y :: z :: t) (b64decode rest)
          | Some c, None, [] =>
              if N.eqb d 61
              then Some [x; byte_of_Z (Z.lor (Z.shiftl (Z.land b 15) 4)
                                             (Z.shiftr c 2))]
              else None
          | None, None, [] =>
              if N.eqb c 61 && N.eqb d 61 then Some [x] else None
          | _, _, _ => None
          end
      | _, _ => None
      end
  | _ => None
  end.

(** UTF-8 decoding restricted to what is unambiguous byte by byte: an
    ASCII byte is its own code point, any other byte becomes U+FFFD. *)
Definition utf8_decode_replace (b : bytes) : str :=
  List.map (fun x => if (Byte.to_N x <? 128)%N then Byte.to_N x else 65533%N)
           b.

Fixpoint every_third (A : Type) (l : list A) : list A :=
  match l with
  | x :: _ :: _ :: rest => x :: every_third rest
  | _ => []
  end.

(** A resampler with the right lengths: three output samples per input
    sample from 8 kHz to 24 kHz, one per three the other way. *)
Definition soxr_resample (pcm : list float32) (from_rate to_rate : Z)
  : list float32 :=
  if to_rate =? 3 * from_rate then flat_map (fun x => [x; x; x]) pcm
  else if from_rate =? 3 * to_rate then every_third pcm
  else pcm.

(** A packet format for the stand-in coder: each 16-bit sample as two
    bytes, most significant first. *)
Definition pack (samples : list Z) : bytes :=
  flat_map (fun v => let u := v mod 65536 in
                     [byte_of_Z (Z.shiftr u 8); byte_of_Z (Z.land u 255)])
           samples.

Fixpoint unpack (b : bytes) : option (list Z) :=
  match b with
  | [] => Some []
  | hi :: lo :: rest =>
      option_map (fun t => as_int16 (Z.lor (Z.shiftl (byte_to_Z hi) 8)
                                           (byte_to_Z lo)) :: t)
                 (unpack rest)
  | _ => None
  end.

Definition opus_encode (enc : unit) (frame : list Z) : unit * Z * bytes :=
  (enc, 2 * Z.of_nat (length frame), pack frame).

(** Error codes of the native library: [OPUS_BAD_ARG] is -1,
    [OPUS_BUFFER_TOO_SMALL] is -2 and [OPUS_INVALID_PACKET] is -4. *)
Definition opus_decode (dec : unit) (packet : bytes) : unit * Z * list Z :=
  match packet, unpack packet with
  | [], _ => (dec, -1, [])
  | _, None => (dec, -4, [])
  | _, Some samples =>
      if Nat.leb (length samples) OPUS_FRAME_SAMPLES
      then (dec, Z.of_nat (length samples), samples)
      else (dec, -2, [])
  end.

#[export] Instance externals : Externals := {|
  Bridge.b64decode := b64decode;
  Bridge.b64encode := b64encode;
  Bridge.utf8_decode_replace := utf8_decode_replace;
  Bridge.soxr_resample := soxr_resample;
  Bridge.Encoder := unit;
  Bridge.Decoder := unit;
  Bridge.opus_encoder_create := tt;
  Bridge.opus_decoder_create := tt;
  Bridge.opus_encode := opus_encode;
  Bridge.opus_decode := opus_decode
|}.

(** Bytes of an ASCII literal. *)
Definition ascii_bytes (s : string) : bytes :=
  List.map byte_of_ascii (list_ascii_of_string s).

(** The carrier's [start] envelope for a stream id. *)
Definition start_envelope (stream_sid : string) : WSMessage :=
  TEXT (Json (JDict [(py "event", JStr (py "start"));
                     (py "start", JDict [(py "streamSid",
                                          JStr (py stream_sid))])])).

(** The carrier's [media] envelope for a Base64 payload. *)
Definition media_frame (payload : string) : WSMessage :=
  TEXT (Json (JDict [(py "event", JStr (py "media"));
                     (py "media", JDict [(py "payload",
                                          JStr (py payload))])])).

End Sample.

(** ** Reading aids for the properties of Part II *)
Module Reading.
Import Py.

(** The texts of the [add_token] calls of a sequence of operations, in
    order. *)
Definition op_tokens (ops : list Transcript.op) : list str :=
  flat_map (fun o => match o with
                     | Transcript.AddToken t => [t]
                     | _ => []
                     end) ops.

(** The two roles a turn can have. *)
Definition known_role (t : Transcript.turn) : Prop :=
  Transcript.role t = py "assistant" \/ Transcript.role t = py "user".

(** *** Codec *)

(** The byte with the sign bit (bit 7) inverted. *)
Definition flip_sign (b : Byte.byte) : Byte.byte :=
  Transcoder.byte_of_Z (Z.lxor (Transcoder.byte_to_Z b) 0x80).

(** The byte the encoder produces for what a byte decodes to: [0x7f]
    decodes to zero like [0xff], and zero is encoded as [0xff]. *)
Definition canonical (b : Byte.byte) : Byte.byte :=
  if Byte.eqb b Byte.x7f then Byte.xff else b.

(** Encoding a 16-bit sample and decoding the byte, on integers. *)
Definition requantise (s : Z) : Z :=
  Transcoder.decode_sample (Transcoder._encode_mulaw_sample s).

Definition quantisation_error (s : Z) : Z := Z.abs (requantise s - s).

Definition decode_flip_ok (b : Byte.byte) : bool :=
  match Transcoder.float_value (Transcoder.decode_byte (flip_sign b)),
        Transcoder.float_value (Transcoder.decode_byte b) with
  | Some q', Some q => Qeq_bool q' (Qopp q)
  | _, _ => false
  end.

Definition error_in_clip_range_ok (s : Z) : bool :=
  (quantisation_error s <=? 512)%Z
  && (32 * quantisation_error s <=? Z.abs s + 132)%Z.

Definition error_int16_ok (s : Z) : bool := (quantisation_error s <=? 644)%Z.

Definition requantise_step_ok (s : Z) : bool :=
  (requantise s <=? requantise (s + 1))%Z.

Definition encode_symmetric_ok (s : Z) : bool :=
  (Transcoder._encode_mulaw_sample (- s)
   =? Z.lxor (Transcoder._encode_mulaw_sample s) 0x80)%Z.

(** *** Bridge *)

(** A binary message sent to the AI: the audio prefix and a non-empty
    packet. *)
Definition audio_message (m : Transcoder.bytes) : Prop :=
  exists b bs, m = Byte.x01 :: b :: bs.

(** Send passes with the AI socket open at each of them. *)
Definition open_passes (chunks : list (list Transcoder.float32))
  : list (list Transcoder.float32 * bool) :=
  List.map (fun c => (c, false)) chunks.

(** The number of samples in a sequence of passes. *)
Definition total_samples (passes : list (list Transcoder.float32 * bool))
  : nat :=
  length (concat (List.map fst passes)).

(** The message types on which both loops end. *)
Definition is_terminator (msg : Bridge.WSMessage) : bool :=
  match msg with
  | Bridge.CLOSE | Bridge.CLOSING | Bridge.CLOSED | Bridge.ERROR => true
  | _ => false
  end.

(** The [event] of a carrier envelope, [None] for what is not a JSON
    object. *)
Definition envelope_event (msg : Bridge.WSMessage) : option Bridge.json :=
  match msg with
  | Bridge.TEXT (Bridge.Json (Bridge.JDict items)) =>
      Some (Bridge.get_or (Bridge.dict_get items (Py.py "event"))
                          Bridge.JNull)
  | _ => None
  end.

(** Carrier messages the loop passes over: envelopes with an event other
    than media, start and stop, and the message types it does not look
    at. *)
Definition carrier_ignored (msg : Bridge.WSMessage) : bool :=
  match msg with
  | Bridge.TEXT (Bridge.Json (Bridge.JDict _)) =>
      match envelope_event msg with
      | Some event =>
          negb (Bridge.json_eq_str event (Py.py "media"))
          && negb (Bridge.json_eq_str event (Py.py "start"))
          && negb (Bridge.json_eq_str event (Py.py "stop"))
      | None => false
      end
  | Bridge.BINARY _ | Bridge.PING | Bridge.PONG => true
  | _ => false
  end.

(** AI messages the loop passes over: empty frames, frames of a kind other
    than audio and text, and the message types it does not look at. *)
Definition ai_ignored (msg : Bridge.WSMessage) : bool :=
  match msg with
  | Bridge.BINARY [] => true
  | Bridge.BINARY (kind :: _) =>
      negb (Byte.eqb kind Byte.x01) && negb (Byte.eqb kind Byte.x02)
  | Bridge.TEXT _ | Bridge.PING | Bridge.PONG => true
  | _ => false
  end.


(** An AI text-token frame. *)
Definition is_token_event (ev : Bridge.event) : bool :=
  match ev with
  | Bridge.FromPersonaplex (Bridge.BINARY (kind :: _)) _ =>
      negb (Byte.eqb kind Byte.x01) && Byte.eqb kind Byte.x02
  | _ => false
  end.

(** A 16-bit signed value. *)
Definition is_int16 (v : Z) : Prop := (-32768 <= v <= 32767)%Z.

(** The check behind the scaling of decoded samples. *)
Definition scale_ok (v : Z) : bool :=
  match Transcoder.float_value
          (SFdiv Transcoder.prec32 Transcoder.emax32
                 (Transcoder.int_to_f32 v) (Transcoder.int_to_f32 32768)) with
  | Some q => Qeq_bool q (Qmake v 32768)
  | None => false
  end.

Section ReadingBridge.
Context {E : Bridge.Externals}.

(** The decoder a call to [_opus_decode] uses. *)
Definition decoder_of (self : Bridge.VoiceBridge) : Bridge.Decoder :=
  match Bridge._decoder self with
  | Some dec => dec
  | None => Bridge.opus_decoder_create
  end.

(** The text tokens an AI message stream delivers before its first
    terminator, decoded, in order. *)
Fixpoint ai_tokens (msgs : list (Bridge.WSMessage * bool)) : list Py.str :=
  match msgs with
  | [] => []
  | (msg, _) :: rest =>
      if is_terminator msg then []
      else match msg with
           | Bridge.BINARY (kind :: payload) =>
               if negb (Byte.eqb kind Byte.x01) && Byte.eqb kind Byte.x02
               then Bridge.utf8_decode_replace payload :: ai_tokens rest
               else ai_tokens rest
           | _ => ai_tokens rest
           end
  end.

(** One whole frame encoded and, when the packet is not empty, sent with
    the audio prefix: what a turn of the drain loop does with the frame it
    has cut. *)
Definition send_frame (self : Bridge.VoiceBridge)
           (frame : list Transcoder.float32) : Bridge.VoiceBridge :=
  let '(self', opus_bytes) := Bridge._opus_encode self frame in
  match opus_bytes with
  | Some (b :: bs) => Bridge.pp_send_bytes self' (Byte.x01 :: b :: bs)
  | _ => self'
  end.

(** The first [n] whole frames of a buffer, in order. *)
Fixpoint frames (n : nat) (buf : list Transcoder.float32)
  : list (list Transcoder.float32) :=
  match n with
  | O => []
  | S k => firstn Bridge.OPUS_FRAME_SAMPLES buf
           :: frames k (skipn Bridge.OPUS_FRAME_SAMPLES buf)
  end.

(** All the whole frames of a buffer, and what is left after them. *)
Definition whole_frames (buf : list Transcoder.float32)
  : list (list Transcoder.float32) :=
  frames (length buf / Bridge.OPUS_FRAME_SAMPLES) buf.

Definition residual (buf : list Transcoder.float32)
  : list Transcoder.float32 :=
  skipn (Bridge.OPUS_FRAME_SAMPLES
         * (length buf / Bridge.OPUS_FRAME_SAMPLES)) buf.

End ReadingBridge.

Section ReadingCapture.
Context {E : Bridge.Externals}.

(** The state of the capture while the loops run: the bridge only ever
    adds tokens, so no turn is closed and nothing is written yet. *)
Definition capture_open (self : Bridge.VoiceBridge) : Prop :=
  Transcript._turns (Bridge._transcript self) = [] /\
  Transcript._assistant_text (Bridge._transcript self)
  = Transcript._tokens (Bridge._transcript self) /\
  Bridge.db_messages self = [].

End ReadingCapture.

End Reading.

(** ** More Python text *)
Module PyText.
Import Py.

(** The line feed. *)
Definition LF : char := 10%N.

(** [sep.join(parts)] *)
Fixpoint join_sep (sep : str) (parts : list str) : str :=
  match parts with
  | [] => []
  | [p] => p
  | p :: rest => p ++ sep ++ join_sep sep rest
  end.

(** [s.split(c)] for a separator of one character. *)
Fixpoint split_on (c : char) (s : str) : list str :=
  match s with
  | [] => [[]]
  | x :: r =>
      if char_eqb x c then [] :: split_on c r
      else match split_on c r with
           | h :: t => (x :: h) :: t
           | [] => [[x]]
           end
  end.

(** A string without line feed. *)
Definition one_line (s : str) : Prop := ~ In LF s.

(** [l[start:]] for a list and an integer [start]: a negative start counts
    from the end, and the start is clamped to the list. *)
Definition slice_from (A : Type) (l : list A) (start : Z) : list A :=
  let len := Z.of_nat (length l) in
  let start := if (start <? 0)%Z
               then (if (start + len <? 0)%Z then 0%Z else (start + len)%Z)
               else (if (len <? start)%Z then len else start) in
  skipn (Z.to_nat start) l.

(** The outcome of a call that can raise. *)
Inductive result (A X : Type) :=
| Ok (value : A)
| Err (exception : X).
Arguments Ok {A X} value.
Arguments Err {A X} exception.

End PyText.

(** ** [gateway/text/conversation.py] *)
Module Conversation.

(** [get_recent_messages], on the rows [get_conversation_messages] has
    returned: [messages[-limit:]]. *)
Definition get_recent_messages (row : Type) (messages : list row)
           (limit : Z) : list row :=
  PyText.slice_from messages (- limit).

End Conversation.

(** ** [gateway/memory/retrieval.py] *)
Module Retrieval.
Import Py PyText.

(** A memory row as the formatter reads it: a dict with text values. *)
Definition memory := list (str * str).

(** [d.get(key)] on such a dict. *)
Fixpoint row_get (items : memory) (key : str) : option str :=
  match items with
  | [] => None
  | (k, v) :: rest => if str_eqb k key then Some v else row_get rest key
  end.

(** The f-string ["- [{mtype}] {content}"]. *)
Definition memory_line (mtype content : str) : str :=
  py "- [" ++ mtype ++ py "] " ++ content.

(** The loop of [format_memories_for_prompt]: the lines appended for the
    memories, [KeyError] at the first one without content. *)
Fixpoint memory_lines (memories : list memory)
  : result (list str) Bridge.exn :=
  match memories with
  | [] => Ok []
  | mem :: rest =>
      let mtype := match row_get mem (py "type") with
                   | Some t => t
                   | None => py "fact"
                   end in
      match row_get mem (py "content") with
      | None => Err Bridge.KeyError
      | Some content =>
          match memory_lines rest with
          | Ok lines => Ok (memory_line mtype content :: lines)
          | Err e => Err e
          end
      end
  end.

Definition format_memories_for_prompt (memories : list memory)
  : result str Bridge.exn :=
  match memories with
  | [] => Ok []
  | _ :: _ =>
      match memory_lines memories with
      | Ok lines =>
          Ok (join_sep [LF] ([py "<memories>"] ++ lines
                             ++ [py "</memories>"]))
      | Err e => Err e
      end
  end.

(** The type and the content the formatter renders for a memory. *)
Definition rendered_type (mem : memory) : str :=
  match row_get mem (py "type") with
  | Some t => t
  | None => py "fact"
  end.

Definition rendered_content (mem : memory) : str :=
  match row_get mem (py "content") with
  | Some c => c
  | None => []
  end.

Definition has_content (mem : memory) : bool :=
  match row_get mem (py "content") with
  | Some _ => true
  | None => false
  end.

End Retrieval.

(** ** [gateway/memory/extraction.py] *)
Module Extraction.
Import Py PyText Bridge.

(** A message row as the transcript builder reads it. *)
Definition message := (str * str)%type.

(** [_build_transcript] *)
Definition _build_transcript (messages : list message) : str :=
  join_sep [LF]
    (List.map (fun msg => fst msg ++ py ": " ++ snd msg) messages).

(** [extract_facts], on the response of the model represented by what
    [json.loads] makes of it: a list is kept, every other value and a
    [JSONDecodeError] give the empty list.  Only [JSONDecodeError] is
    caught: another exception of [json.loads] leaves the function. *)
Definition extract_facts (response : text) : list json + exn :=
  match response with
  | Json (JList facts) => inl facts
  | Json _ => inl []
  | Malformed _ => inl []
  | Unloadable _ e => inr e
  end.

(** [extract_summary], on the response of the model. *)
Definition extract_summary (response : str) : str := strip response.

(** Truthiness of a value built by [json.loads]. *)
Definition json_truthy (v : json) : bool :=
  match v with
  | JNull => false
  | JBool b => b
  | JInt z => negb (Z.eqb z 0)
  | JFloat x => match x with S754_zero _ => false | _ => true end
  | JStr s => truthy s
  | JList l => match l with [] => false | _ :: _ => true end
  | JDict items => match items with [] => false | _ :: _ => true end
  end.

(** What [process_conversation] asks of its collaborators, in order.  The
    user and the conversation are those of the call and are left out;
    every call to the model and to the store is taken to return. *)
Inductive effect :=
| AskFacts (transcript : str)
| AskSummary (transcript : str)
| StoreMemory (memory_type content confidence : json) (source_channel : str)
| EndConversation (summary : str).

(** The default of the [confidence] parameter of [store_memory]. *)
Definition default_confidence : json := JFloat (Transcoder.int_to_f64 1).

(** The loop over the extracted facts: the [store_memory] calls it makes,
    and the [AttributeError] of [fact.get] on a fact that is not an
    object, which ends it. *)
Fixpoint store_facts (facts : list json) (channel : str)
  : list effect * option exn :=
  match facts with
  | [] => ([], None)
  | JDict items :: rest =>
      let content := get_or (dict_get items (py "content")) (JStr []) in
      if json_truthy content
      then
        let call :=
          StoreMemory (get_or (dict_get items (py "type")) (JStr (py "fact")))
                      content
                      (get_or (dict_get items (py "confidence"))
                              default_confidence)
                      channel in
        let '(calls, e) := store_facts rest channel in
        (call :: calls, e)
      else store_facts rest channel
  | _ :: _ => ([], Some AttributeError)
  end.

(** [process_conversation], on the rows of the conversation and the two
    responses of the model: the effects in order, and the exception that
    ended it, if any.  An exception of [extract_facts] ends it before the
    summary is asked for. *)
Definition process_conversation (messages : list message)
           (facts_response : text) (summary_response : str) (channel : str)
  : list effect * option exn :=
  match messages with
  | [] => ([], None)
  | _ :: _ =>
      let transcript := _build_transcript messages in
      match extract_facts facts_response with
      | inr e => ([AskFacts transcript], Some e)
      | inl facts =>
          let summary := extract_summary summary_response in
          let asked := [AskFacts transcript; AskSummary transcript] in
          match store_facts facts channel with
          | (calls, Some e) => (asked ++ calls, Some e)
          | (calls, None) =>
              let summary_call :=
                if truthy summary
                then [StoreMemory (JStr (py "summary")) (JStr summary)
                                  default_confidence channel]
                else [] in
              (asked ++ calls ++ summary_call ++ [EndConversation summary],
               None)
          end
      end
  end.

(** The facts the loop stores: objects whose content is truthy. *)
Definition storable (fact : json) : bool :=
  match fact with
  | JDict items => json_truthy (get_or (dict_get items (py "content"))
                                       (JStr []))
  | _ => false
  end.

Definition is_object (v : json) : bool :=
  match v with
  | JDict _ => true
  | _ => false
  end.

Definition is_store (e : effect) : bool :=
  match e with
  | StoreMemory _ _ _ _ => true
  | _ => false
  end.

Definition is_end (e : effect) : bool :=
  match e with
  | EndConversation _ => true
  | _ => false
  end.

(** The content of a [store_memory] call is truthy. *)
Definition stores_content (e : effect) : Prop :=
  match e with
  | StoreMemory _ content _ _ => json_truthy content = true
  | _ => True
  end.

End Extraction.

(** ** [gateway/text/llm_client.py] *)
Module LlmClient.
Import Py PyText.

Definition message := (str * str)%type.

Section Chat.

(** What a provider call raised. *)
Variable failure : Type.

(** The two settings [chat] reads. *)
Variable default_llm_provider : str.
Variable default_llm_model : str.

(** [_chat_claude] and [_chat_openai], which call the providers. *)
Variable _chat_claude : list message -> str -> str -> result str failure.
Variable _chat_openai : list message -> str -> str -> result str failure.

(** What [chat] can raise: the [ValueError] of an unknown provider, or
    what a provider call raised. *)
Inductive chat_error :=
| ValueError
| ProviderError (f : failure).

(** [_FAILOVER.get(provider)] *)
Definition _FAILOVER (provider : str) : option str :=
  if str_eqb provider (py "claude") then Some (py "openai")
  else if str_eqb provider (py "openai") then Some (py "claude")
  else None.

(** [_DEFAULT_MODELS[provider]] for the two keys it has. *)
Definition _DEFAULT_MODELS (provider : str) : option str :=
  if str_eqb provider (py "claude") then Some (py "claude-sonnet-4-20250514")
  else if str_eqb provider (py "openai") then Some (py "gpt-4o")
  else None.

(** [_get_chat_fn]; [None] stands for the [ValueError]. *)
Definition _get_chat_fn (provider : str)
  : option (list message -> str -> str -> result str failure) :=
  if str_eqb provider (py "claude") then Some _chat_claude
  else if str_eqb provider (py "openai") then Some _chat_openai
  else None.

(** [x or default] for an optional string argument. *)
Definition or_default (x : option str) (default : str) : str :=
  match x with
  | Some (c :: s) => c :: s
  | _ => default
  end.

Definition lift (r : result str failure) : result str chat_error :=
  match r with
  | Ok s => Ok s
  | Err f => Err (ProviderError f)
  end.

Definition chat (messages : list message) (system_prompt : str)
           (provider model : option str) : result str chat_error :=
  let provider := or_default provider default_llm_provider in
  let model := or_default model default_llm_model in
  match _get_chat_fn provider with
  | None => Err ValueError
  | Some chat_fn =>
      match chat_fn messages system_prompt model with
      | Ok s => Ok s
      | Err f =>
          match _FAILOVER provider with
          | None => Err (ProviderError f)
          | Some fallback_provider =>
              match _DEFAULT_MODELS fallback_provider,
                    _get_chat_fn fallback_provider with
              | Some fallback_model, Some fallback_fn =>
                  lift (fallback_fn messages system_prompt fallback_model)
              | None, _ => Err ValueError
              | _, None => Err ValueError
              end
          end
      end
  end.

End Chat.

End LlmClient.

(** ** Proof automation *)

(** Range tests on code points, turned into linear arithmetic. *)
Ltac code_point_ranges H :=
  rewrite ?orb_true_iff, ?andb_true_iff, ?N.leb_le, ?N.eqb_eq in H; lia.

(* ===================================================================== *)
(** * Part II.  Theorems                                                  *)
(* ===================================================================== *)

(** ** Python text *)
Section PyFacts.
Import Py.

Lemma lstrip_suffix (s : str) : exists w, s = w ++ lstrip s.
Proof.
  induction s as [|c r [w Hw]]; simpl.
  - exists []. reflexivity.
  - destruct (isspace c).
    + exists (c :: w). simpl. now f_equal.
    + exists []. reflexivity.
Qed.

Lemma lstrip_head (s : str) c r : lstrip s = c :: r -> isspace c = false.
Proof.
  induction s as [|d t IH]; simpl; [discriminate|].
  destruct (isspace d) eqn:E; [exact IH|].
  intros H. injection H as -> _. exact E.
Qed.

Lemma lstrip_fixed c r : isspace c = false -> lstrip (c :: r) = c :: r.
Proof. intros H. simpl. now rewrite H. Qed.

(** A string whose first and last characters are not white space is left
    alone by [strip]. *)
Lemma strip_fixed (s : str) :
  (forall c r, s = c :: r -> isspace c = false) ->
  (forall c r, rev s = c :: r -> isspace c = false) ->
  strip s = s.
Proof.
  intros Hh Hl. unfold strip, rstrip.
  assert (E1 : lstrip s = s).
  { destruct s as [|c r]; [reflexivity|].
    apply lstrip_fixed. eapply Hh. reflexivity. }
  rewrite E1.
  assert (E2 : lstrip (rev s) = rev s).
  { destruct (rev s) as [|c r] eqn:E; [reflexivity|].
    apply lstrip_fixed. eapply Hl. reflexivity. }
  rewrite E2. apply rev_involutive.
Qed.

Lemma strip_ends (s : str) :
  (forall c r, strip s = c :: r -> isspace c = false) /\
  (forall c r, rev (strip s) = c :: r -> isspace c = false).
Proof.
  unfold strip, rstrip.
  set (t := lstrip s).
  destruct (lstrip_suffix (rev t)) as [w Hw].
  set (u := lstrip (rev t)) in *.
  split.
  - intros c r H.
    assert (Ht : t = rev u ++ rev w).
    { rewrite <- (rev_involutive t), Hw, rev_app_distr. reflexivity. }
    rewrite H in Ht. simpl in Ht.
    apply (@lstrip_head s c (r ++ rev w)). exact Ht.
  - rewrite rev_involutive. intros c r H.
    apply (@lstrip_head (rev t) c r). exact H.
Qed.

Lemma strip_idempotent (s : str) : strip (strip s) = strip s.
Proof.
  destruct (strip_ends s) as [Hh Hl]. now apply strip_fixed.
Qed.

Lemma str_eqb_eq (a b : str) : str_eqb a b = true -> a = b.
Proof.
  revert b. induction a as [|x a IH]; intros [|y b]; simpl;
    try discriminate; [reflexivity|].
  intros H. apply andb_prop in H. destruct H as [Hx Ha].
  unfold char_eqb in Hx. apply N.eqb_eq in Hx. subst y.
  now rewrite (IH b Ha).
Qed.

End PyFacts.

(** ** Phone normalisation *)
Section PhoneFacts.
Import Py Phone.

Lemma range_not_space lo hi c :
  ((lo <=? c) && (c <=? hi))%N = true ->
  (33 <= lo /\ hi <= 132)%N \/ (161 <= lo /\ hi <= 5759)%N ->
  isspace c = false.
Proof.
  intros H Hr. destruct (isspace c) eqn:E; [|reflexivity].
  exfalso. unfold isspace in E.
  rewrite andb_true_iff, !N.leb_le in H. code_point_ranges E.
Qed.

Lemma ascii_digit_not_space c : ascii_digit c = true -> isspace c = false.
Proof. intros H. apply (@range_not_space 48 57 c H). lia. Qed.

Lemma plus_not_space c : char_eqb c 43%N = true -> isspace c = false.
Proof.
  unfold char_eqb. intros H. apply N.eqb_eq in H. subst c. reflexivity.
Qed.

Variable unicode_Nd : char -> bool.
Hypothesis Nd_not_space : forall c, unicode_Nd c = true -> isspace c = false.

Lemma keep_not_space c : keep unicode_Nd c = true -> isspace c = false.
Proof.
  unfold keep, re_digit. intros H.
  apply orb_prop in H. destruct H as [H|H].
  - apply orb_prop in H. destruct H as [H|H].
    + now apply ascii_digit_not_space.
    + now apply Nd_not_space.
  - now apply plus_not_space.
Qed.

Lemma filter_keep_fixed (s : str) :
  Forall (fun c => keep unicode_Nd c = true) s ->
  filter (keep unicode_Nd) s = s.
Proof.
  induction 1 as [|c r Hc _ IH]; simpl; [reflexivity|].
  rewrite Hc. now f_equal.
Qed.

(** A string made of kept characters only and starting with ['+'] is
    already in normal form. *)
Lemma normalize_e164_fixed (r : str) :
  Forall (fun c => keep unicode_Nd c = true) r ->
  startswith r (py "+") = true ->
  normalize_e164 unicode_Nd r = r.
Proof.
  intros Hk Hs. unfold normalize_e164, re_sub_non_digit_plus.
  assert (E : strip r = r).
  { apply strip_fixed.
    - intros c t ->. apply keep_not_space.
      now inversion Hk.
    - intros c t Hr. apply keep_not_space.
      apply Forall_rev in Hk. rewrite Hr in Hk. now inversion Hk. }
  rewrite E, (filter_keep_fixed Hk), Hs. reflexivity.
Qed.

Lemma keep_digits (s : str) :
  Forall (fun c => keep unicode_Nd c = true)
         (re_sub_non_digit_plus unicode_Nd s).
Proof.
  unfold re_sub_non_digit_plus. apply Forall_forall.
  intros c Hc. apply filter_In in Hc. tauto.
Qed.

Lemma normalize_e164_shape (x : str) :
  Forall (fun c => keep unicode_Nd c = true) (normalize_e164 unicode_Nd x) /\
  startswith (normalize_e164 unicode_Nd x) (py "+") = true.
Proof.
  unfold normalize_e164.
  set (d := re_sub_non_digit_plus unicode_Nd (strip x)).
  assert (Hd : Forall (fun c => keep unicode_Nd c = true) d)
    by apply keep_digits.
  assert (Hp : keep unicode_Nd 43%N = true)
    by (unfold keep; apply orb_true_r).
  assert (H1 : keep unicode_Nd 49%N = true) by reflexivity.
  destruct (startswith d (py "+")) eqn:Es; [now split|].
  destruct (Nat.eqb (length d) 10).
  - split; [|reflexivity]. simpl. now repeat constructor.
  - destruct (Nat.eqb (length d) 11 && startswith d (py "1"));
      (split; [|reflexivity]); simpl; now constructor.
Qed.

End PhoneFacts.

(** C9.  E.164 normalisation is idempotent: normalising an already
    normalised number returns it unchanged, for every input string.  The
    digits beyond ASCII that [\d] accepts are those of the interpreter's
    Unicode database, none of which is white space. *)
Theorem normalize_e164_idempotent
  (unicode_Nd : Py.char -> bool)
  (Nd_not_space : forall c, unicode_Nd c = true -> Py.isspace c = false)
  (x : Py.str) :
  Phone.normalize_e164 unicode_Nd (Phone.normalize_e164 unicode_Nd x)
  = Phone.normalize_e164 unicode_Nd x.
Proof.
  destruct (normalize_e164_shape unicode_Nd x) as [Hk Hs].
  now apply normalize_e164_fixed.
Qed.

Lemma arabic_indic_digit_not_space c :
  Phone.arabic_indic_digit c = true -> Py.isspace c = false.
Proof.
  intros H. apply (@range_not_space 1632 1641 c H). lia.
Qed.

Lemma normalize_e164_idempotent_witness :
  Phone.normalize_e164 Phone.arabic_indic_digit
    (Phone.normalize_e164 Phone.arabic_indic_digit (Py.py " (415) 555-0100 "))
  = Phone.normalize_e164 Phone.arabic_indic_digit (Py.py " (415) 555-0100 ").
Proof.
  apply (normalize_e164_idempotent Phone.arabic_indic_digit
           arabic_indic_digit_not_space).
Defined.

(** The literal inputs of the specification's normalisation scenario. *)
Example normalize_e164_scenario :
  let n := Phone.normalize_e164 (fun _ => false) in
  n (Py.py "+1 (415) 555-0100") = Py.py "+14155550100" /\
  n (Py.py "415-555-0100") = Py.py "+14155550100" /\
  n (Py.py "14155550100") = Py.py "+14155550100" /\
  n (Py.py "+14155550100") = Py.py "+14155550100".
Proof. vm_compute. repeat split. Qed.

(** ** Transcript capture *)
Section TranscriptFacts.
Import Py Transcript.

Lemma truthy_nonempty (s : str) : truthy s = true -> s <> [].
Proof. destruct s; [discriminate|]. intros _ H. discriminate. Qed.

Lemma stripped_turn_ok r (s : str) :
  truthy (strip s) = true -> turn_ok (Turn r (strip s)).
Proof.
  intros H. split; simpl.
  - symmetry. apply strip_idempotent.
  - now apply truthy_nonempty.
Qed.

Lemma end_turn_ok (c : TranscriptCapture) :
  Forall turn_ok (_turns c) -> Forall turn_ok (_turns (end_turn c)).
Proof.
  intros H. unfold end_turn.
  destruct (_assistant_text c) as [|t ts]; [exact H|].
  cbn [_turns].
  destruct (truthy (strip (join (t :: ts)))) eqn:E; [|exact H].
  apply Forall_app. split; [exact H|].
  constructor; [|constructor]. now apply stripped_turn_ok.
Qed.

Lemma add_user_note_ok (c : TranscriptCapture) note :
  Forall turn_ok (_turns c) -> Forall turn_ok (_turns (add_user_note c note)).
Proof.
  intros H. unfold add_user_note.
  destruct (truthy (strip note)) eqn:E; [|exact H].
  simpl. apply Forall_app. split; [exact H|].
  constructor; [|constructor]. now apply stripped_turn_ok.
Qed.

Lemma apply_op_ok (c : TranscriptCapture) o :
  Forall turn_ok (_turns c) -> Forall turn_ok (_turns (apply_op c o)).
Proof.
  destruct o; simpl.
  - trivial.
  - apply end_turn_ok.
  - apply add_user_note_ok.
Qed.

Lemma run_ok ops : forall c,
  Forall turn_ok (_turns c) -> Forall turn_ok (_turns (run ops c)).
Proof.
  unfold run. induction ops as [|o ops IH]; intros c H; simpl; [exact H|].
  apply IH. now apply apply_op_ok.
Qed.

End TranscriptFacts.

(** C10.  Whatever sequence of [add_token], [end_turn] and [add_user_note]
    calls a capture has received, every turn returned by [get_transcript]
    has content equal to its own trimmed form and different from the empty
    string. *)
Theorem get_transcript_turns_trimmed_nonempty (ops : list Transcript.op) :
  Forall (fun t => Transcript.content t = Py.strip (Transcript.content t)
                   /\ Transcript.content t <> [])
         (snd (Transcript.get_transcript
                 (Transcript.run ops Transcript.init))).
Proof.
  unfold Transcript.get_transcript. simpl.
  apply end_turn_ok. apply run_ok. constructor.
Qed.

Example get_transcript_example :
  snd (Transcript.get_transcript
         (Transcript.run [Transcript.AddToken (Py.py " Hello,");
                          Transcript.AddToken (Py.py " Alice. ");
                          Transcript.AddUserNote (Py.py "   ");
                          Transcript.AddToken (Py.py " ")]
                         Transcript.init))
  = [Transcript.Turn (Py.py "assistant") (Py.py "Hello, Alice.")].
Proof. reflexivity. Qed.

(** ** Codec *)
Section TranscoderFacts.
Import Transcoder.
Local Open Scope Z_scope.

Lemma range_from_nth (A : Type) (f : Z -> A) (d : A) (len : nat) :
  forall (start : Z) (n : nat),
  (n < len)%nat ->
  nth n (List.map f (range_from start len)) d = f (start + Z.of_nat n).
Proof.
  induction len as [|len IH]; intros start n H; [lia|].
  destruct n as [|n]; simpl.
  - f_equal. lia.
  - rewrite IH by lia. f_equal. lia.
Qed.

Lemma range_nth (A : Type) (f : Z -> A) (n len : nat) (d : A) :
  (n < len)%nat -> nth n (List.map f (range len)) d = f (Z.of_nat n).
Proof. intros H. unfold range. now rewrite range_from_nth. Qed.

Lemma byte_to_nat_lt (b : Byte.byte) : (Byte.to_nat b < 256)%nat.
Proof. pose proof (Byte.to_nat_bounded b). lia. Qed.

Lemma decode_table_lookup (b : Byte.byte) :
  nth (Byte.to_nat b) _MULAW_DECODE_TABLE S754_nan
  = decode_entry (Z.of_nat (Byte.to_nat b)).
Proof. apply range_nth, byte_to_nat_lt. Qed.

Lemma encode_table_lookup (u : Z) :
  0 <= u < 65536 ->
  nth (Z.to_nat u) _MULAW_ENCODE_TABLE 0 = _encode_mulaw_sample (as_int16 u).
Proof.
  intros H. unfold _MULAW_ENCODE_TABLE.
  rewrite range_nth by lia. now rewrite Z2Nat.id by lia.
Qed.

Lemma mulaw_to_pcm_map (data : bytes) :
  mulaw_to_pcm data = List.map decode_byte data.
Proof.
  unfold mulaw_to_pcm. apply map_ext. intros b. apply decode_table_lookup.
Qed.

Lemma pcm_to_mulaw_sample_direct (x : float32) :
  pcm_to_mulaw_sample x = encode_direct x.
Proof.
  unfold pcm_to_mulaw_sample, encode_direct.
  rewrite encode_table_lookup; [reflexivity|].
  unfold view_uint16. apply Z.mod_pos_bound. lia.
Qed.

Lemma pcm_to_mulaw_map (pcm : list float32) :
  pcm_to_mulaw pcm = List.map encode_direct pcm.
Proof.
  unfold pcm_to_mulaw. apply map_ext. exact pcm_to_mulaw_sample_direct.
Qed.

End TranscoderFacts.

Section CodecFacts.
Import Transcoder.
Local Open Scope Z_scope.

Lemma decode_entry_ok_all (b : Byte.byte) : decode_entry_ok b = true.
Proof. destruct b; vm_compute; reflexivity. Qed.

Lemma roundtrip_entry_ok_all (b : Byte.byte) : roundtrip_entry_ok b = true.
Proof. destruct b; vm_compute; reflexivity. Qed.

Lemma decode_byte_value (b : Byte.byte) :
  valid_binary prec32 emax32 (decode_byte b) = true /\
  exists q, float_value (decode_byte b) = Some q /\
            (q == g711_decode_spec b)%Q /\ (-1 <= q <= 1)%Q.
Proof.
  pose proof (decode_entry_ok_all b) as H. unfold decode_entry_ok in H.
  destruct (float_value (decode_byte b)) as [q|]; [|discriminate].
  apply andb_prop in H. destruct H as [H H1].
  apply andb_prop in H. destruct H as [H H0].
  apply andb_prop in H. destruct H as [Hv He].
  split; [exact Hv|].
  exists q. split; [reflexivity|]. split.
  - now apply Qeq_bool_iff.
  - split; now apply Qle_bool_iff.
Qed.

Lemma roundtrip_byte_exact (b : Byte.byte) :
  decode_byte (encode_direct (decode_byte b)) = decode_byte b.
Proof.
  pose proof (roundtrip_entry_ok_all b) as H. unfold roundtrip_entry_ok in H.
  destruct (decode_byte b) as [s1| | |s1 m1 e1];
    destruct (decode_byte (encode_direct _)) as [s2| | |s2 m2 e2];
    try discriminate.
  - apply Bool.eqb_prop in H. now subst.
  - apply andb_prop in H. destruct H as [H He].
    apply andb_prop in H. destruct H as [Hs Hm].
    apply Bool.eqb_prop in Hs. apply Pos.eqb_eq in Hm. apply Z.eqb_eq in He.
    now subst.
Qed.

(** The codec's lossy round trip is exact on decoded samples: every
    decoded value sits inside its own quantisation interval. *)
Lemma mulaw_roundtrip_exact (b : bytes) :
  mulaw_to_pcm (pcm_to_mulaw (mulaw_to_pcm b)) = mulaw_to_pcm b.
Proof.
  rewrite !mulaw_to_pcm_map, pcm_to_mulaw_map, !map_map.
  apply map_ext. exact roundtrip_byte_exact.
Qed.

Lemma Forall2_map_same (A B C : Type) (R : B -> C -> Prop)
      (f : A -> B) (g : A -> C) (l : list A) :
  (forall a, R (f a) (g a)) -> Forall2 R (List.map f l) (List.map g l).
Proof. intros H. induction l; simpl; constructor; auto. Qed.

End CodecFacts.

(** C6.  For every byte sequence, [mulaw_to_pcm] returns as many samples
    as there are bytes; each sample is a binary32 float whose value is the
    G.711 decoding of the byte at the same position, as the specification
    words it, and lies between -1 and 1. *)
Theorem mulaw_to_pcm_length_range_g711 (b : Transcoder.bytes) :
  length (Transcoder.mulaw_to_pcm b) = length b /\
  Forall2 (fun byte x =>
             valid_binary Transcoder.prec32 Transcoder.emax32 x = true /\
             exists q, Transcoder.float_value x = Some q /\
                       (q == Transcoder.g711_decode_spec byte)%Q /\
                       (-1 <= q <= 1)%Q)
          b (Transcoder.mulaw_to_pcm b).
Proof.
  split.
  - unfold Transcoder.mulaw_to_pcm. apply length_map.
  - rewrite mulaw_to_pcm_map. rewrite <- (map_id b) at 1.
    apply Forall2_map_same. exact decode_byte_value.
Qed.

(** C7.  For every byte sequence, decoding, re-encoding and decoding again
    gives samples that differ from the first decoding by at most 0.01,
    element by element. *)
Theorem mulaw_roundtrip_within_tolerance (b : Transcoder.bytes) :
  Forall2 (fun x y =>
             exists qx qy, Transcoder.float_value x = Some qx /\
                           Transcoder.float_value y = Some qy /\
                           (Qabs (qy - qx) <= 1 # 100)%Q)
          (Transcoder.mulaw_to_pcm b)
          (Transcoder.mulaw_to_pcm
             (Transcoder.pcm_to_mulaw (Transcoder.mulaw_to_pcm b))).
Proof.
  rewrite mulaw_roundtrip_exact, mulaw_to_pcm_map.
  apply Forall2_map_same. intros a.
  destruct (decode_byte_value a) as [_ [q [Hq _]]].
  exists q, q. repeat split; try exact Hq.
  setoid_replace (q - q)%Q with 0%Q by ring.
  discriminate.
Qed.

(** C8.  Resampling between equal rates returns its input, whatever the
    external resampler would do. *)
Theorem resample_same_rate
  (soxr_resample : list Transcoder.float32 -> Z -> Z -> list Transcoder.float32)
  (pcm : list Transcoder.float32) (rate : Z) :
  Transcoder.resample soxr_resample pcm rate rate = pcm.
Proof. unfold Transcoder.resample. now rewrite Z.eqb_refl. Qed.

(** ** Bridge: the send pass *)
Section SendPassFacts.
Import Py Transcoder Bridge.
Context {E : Externals}.

Lemma drain_one_buffer (self : VoiceBridge) :
  _pcm_buffer (drain_one self) = skipn OPUS_FRAME_SAMPLES (_pcm_buffer self).
Proof.
  unfold drain_one, _opus_encode.
  destruct (opus_encode _ _) as [[enc' n] out_buf].
  destruct (n <? 0)%Z; [reflexivity|].
  destruct (bytes_truthy _); reflexivity.
Qed.

Lemma OPUS_FRAME_SAMPLES_480 : OPUS_FRAME_SAMPLES = 480%nat.
Proof. reflexivity. Qed.

Lemma drain_one_shrinks (self : VoiceBridge) :
  (OPUS_FRAME_SAMPLES <= length (_pcm_buffer self))%nat ->
  (length (_pcm_buffer (drain_one self)) < length (_pcm_buffer self))%nat.
Proof.
  rewrite drain_one_buffer, length_skipn, OPUS_FRAME_SAMPLES_480. lia.
Qed.


Lemma drain_frames_step (self : VoiceBridge) :
  drain_frames self
  = if le_lt_dec OPUS_FRAME_SAMPLES (length (_pcm_buffer self))
    then drain_frames (drain_one self)
    else self.
Proof.
  rewrite drain_frames_equation_1.
  destruct (le_lt_dec OPUS_FRAME_SAMPLES (length (_pcm_buffer self)));
    reflexivity.
Qed.

(** Induction along the iterations of the drain loop. *)
Lemma drain_frames_rect (P : VoiceBridge -> VoiceBridge -> Prop) :
  (forall self,
     (length (_pcm_buffer self) < OPUS_FRAME_SAMPLES)%nat -> P self self) ->
  (forall self,
     (OPUS_FRAME_SAMPLES <= length (_pcm_buffer self))%nat ->
     P (drain_one self) (drain_frames (drain_one self)) ->
     P self (drain_frames (drain_one self))) ->
  forall self, P self (drain_frames self).
Proof.
  intros Hstop Hloop self.
  remember (length (_pcm_buffer self)) as n eqn:Hn.
  revert self Hn.
  induction n as [n IH] using lt_wf_ind. intros self Hn.
  rewrite drain_frames_step.
  destruct (le_lt_dec OPUS_FRAME_SAMPLES (length (_pcm_buffer self)))
    as [Hge|Hlt].
  - apply Hloop; [exact Hge|].
    apply (IH (length (_pcm_buffer (drain_one self)))); [|reflexivity].
    subst n. now apply drain_one_shrinks.
  - now apply Hstop.
Qed.

Lemma drain_frames_residual (self : VoiceBridge) :
  (length (_pcm_buffer (drain_frames self)) < OPUS_FRAME_SAMPLES)%nat.
Proof.
  apply (drain_frames_rect
           (fun _ out => (length (_pcm_buffer out) < OPUS_FRAME_SAMPLES)%nat));
    auto.
Qed.

(** The residual is what is left of the buffer after whole frames. *)
Lemma drain_frames_residual_length (self : VoiceBridge) :
  length (_pcm_buffer (drain_frames self))
  = (length (_pcm_buffer self) mod OPUS_FRAME_SAMPLES)%nat.
Proof.
  apply (drain_frames_rect
           (fun s out => length (_pcm_buffer out)
                         = (length (_pcm_buffer s) mod OPUS_FRAME_SAMPLES)%nat)).
  - intros s H. now rewrite Nat.mod_small.
  - intros s H IH. rewrite IH, drain_one_buffer, length_skipn.
    rewrite OPUS_FRAME_SAMPLES_480 in *.
    replace (length (_pcm_buffer s))
      with ((length (_pcm_buffer s) - 480) + 1 * 480)%nat at 2 by lia.
    now rewrite Nat.Div0.mod_add.
Qed.

Lemma send_pass_residual (self : VoiceBridge) pcm closed :
  (length (_pcm_buffer self) < 480)%nat ->
  (length (_pcm_buffer (_send_pcm_to_personaplex self pcm closed)) < 480)%nat.
Proof.
  intros H. unfold _send_pcm_to_personaplex. destruct closed; [exact H|].
  apply drain_frames_residual.
Qed.

Lemma send_passes_residual passes : forall self : VoiceBridge,
  (length (_pcm_buffer self) < 480)%nat ->
  (length (_pcm_buffer (send_passes passes self)) < 480)%nat.
Proof.
  unfold send_passes.
  induction passes as [|[pcm closed] rest IH]; intros self H; simpl;
    [exact H|].
  apply IH. now apply send_pass_residual.
Qed.

End SendPassFacts.

(** C5.  A send pass that appends the incoming samples and drains whole
    frames leaves fewer than 480 samples in the residual buffer, whatever
    the buffer held before and whatever the chunk; and so does every
    sequence of passes on a new bridge, for all chunk sizes and whether or
    not the AI socket was open at each pass. *)
Theorem residual_buffer_below_one_frame (E : Bridge.Externals) :
  (forall (self : Bridge.VoiceBridge) (pcm_24k : list Transcoder.float32),
     (length (Bridge._pcm_buffer
                (Bridge._send_pcm_to_personaplex self pcm_24k false))
      < 480)%nat) /\
  (forall passes : list (list Transcoder.float32 * bool),
     (length (Bridge._pcm_buffer (Bridge.send_passes passes Bridge.init))
      < 480)%nat).
Proof.
  split.
  - intros self pcm. unfold Bridge._send_pcm_to_personaplex.
    apply drain_frames_residual.
  - intros passes. apply send_passes_residual. simpl. lia.
Qed.

(** ** Bridge: the loops *)
Section PumpFacts.
Import Py Transcoder Bridge.
Context {E : Externals}.

(** The drain loop touches the buffer, the encoder and the AI wire only. *)
Lemma drain_one_frame (self : VoiceBridge) :
  _stream_sid (drain_one self) = _stream_sid self /\
  twilio_sent (drain_one self) = twilio_sent self.
Proof.
  unfold drain_one, _opus_encode.
  destruct (opus_encode _ _) as [[enc' n] out_buf].
  destruct (n <? 0)%Z; [now split|].
  destruct (bytes_truthy _); now split.
Qed.

Lemma drain_frames_frame (self : VoiceBridge) :
  _stream_sid (drain_frames self) = _stream_sid self /\
  twilio_sent (drain_frames self) = twilio_sent self.
Proof.
  apply (drain_frames_rect
           (fun s out => _stream_sid out = _stream_sid s /\
                         twilio_sent out = twilio_sent s)).
  - now split.
  - intros s _ [H1 H2]. destruct (drain_one_frame s) as [H3 H4].
    split; congruence.
Qed.

Lemma send_pcm_frame (self : VoiceBridge) pcm closed :
  _stream_sid (_send_pcm_to_personaplex self pcm closed) = _stream_sid self /\
  twilio_sent (_send_pcm_to_personaplex self pcm closed) = twilio_sent self.
Proof.
  unfold _send_pcm_to_personaplex. destruct closed; [now split|].
  destruct (drain_frames_frame
              (set_pcm_buffer self (_pcm_buffer self ++ pcm))) as [H1 H2].
  now rewrite H1, H2.
Qed.

(** The stream id has no part in the carrier-to-AI direction. *)
Lemma drain_one_sid (self : VoiceBridge) sid :
  drain_one (set_stream_sid self sid) = set_stream_sid (drain_one self) sid.
Proof.
  unfold drain_one, _opus_encode. simpl.
  destruct (opus_encode _ _) as [[enc' n] out_buf].
  destruct (n <? 0)%Z; [reflexivity|].
  destruct (bytes_truthy _); reflexivity.
Qed.

Lemma drain_frames_sid (self : VoiceBridge) sid :
  drain_frames (set_stream_sid self sid)
  = set_stream_sid (drain_frames self) sid.
Proof.
  apply (drain_frames_rect
           (fun s out => drain_frames (set_stream_sid s sid)
                         = set_stream_sid out sid)).
  - intros s H. rewrite drain_frames_step.
    change (_pcm_buffer (set_stream_sid s sid)) with (_pcm_buffer s).
    destruct (le_lt_dec OPUS_FRAME_SAMPLES (length (_pcm_buffer s)));
      [lia|reflexivity].
  - intros s H IH. rewrite drain_frames_step.
    change (_pcm_buffer (set_stream_sid s sid)) with (_pcm_buffer s).
    destruct (le_lt_dec OPUS_FRAME_SAMPLES (length (_pcm_buffer s)));
      [|lia].
    now rewrite drain_one_sid.
Qed.

Lemma send_pcm_sid (self : VoiceBridge) sid pcm closed :
  _send_pcm_to_personaplex (set_stream_sid self sid) pcm closed
  = set_stream_sid (_send_pcm_to_personaplex self pcm closed) sid.
Proof.
  unfold _send_pcm_to_personaplex. destruct closed; [reflexivity|].
  apply (drain_frames_sid (set_pcm_buffer self (_pcm_buffer self ++ pcm))).
Qed.

Lemma twilio_text_sid (self : VoiceBridge) sid data closed :
  pp_sent (fst (twilio_text (set_stream_sid self sid) data closed))
  = pp_sent (fst (twilio_text self data closed)) /\
  snd (twilio_text (set_stream_sid self sid) data closed)
  = snd (twilio_text self data closed).
Proof.
  unfold twilio_text.
  destruct data as [| | | | |l|items]; try now split.
  destruct (json_eq_str _ (py "media")).
  - destruct (dict_get items (py "media")) as [[| | | | |l|media]|];
      try now split.
    destruct (dict_get media (py "payload")) as [[| | | |payload|l|d]|];
      try now split.
    destruct (b64decode payload); [|now split].
    simpl. now rewrite send_pcm_sid.
  - destruct (json_eq_str _ (py "start")).
    + destruct (get_or _ _); now split.
    + destruct (json_eq_str _ (py "stop")); now split.
Qed.

Lemma twilio_step_sid (self : VoiceBridge) sid msg closed :
  pp_sent (fst (twilio_step (set_stream_sid self sid) msg closed))
  = pp_sent (fst (twilio_step self msg closed)) /\
  snd (twilio_step (set_stream_sid self sid) msg closed)
  = snd (twilio_step self msg closed).
Proof.
  unfold twilio_step. simpl.
  destruct (_close self); [now split|].
  destruct msg as [[raw|data|raw err]| | | | | | |]; try now split.
  apply twilio_text_sid.
Qed.

(** What one event does to the stream id and to the carrier wire when it
    is not a start envelope. *)
Lemma twilio_step_keeps_sid (self : VoiceBridge) msg closed :
  is_start_envelope (FromTwilio msg closed) = false ->
  _stream_sid (fst (twilio_step self msg closed)) = _stream_sid self /\
  twilio_sent (fst (twilio_step self msg closed)) = twilio_sent self.
Proof.
  intros Hs. unfold twilio_step.
  destruct (_close self); [now split|].
  destruct msg as [[raw|data|raw err]| | | | | | |]; try now split.
  unfold twilio_text.
  destruct data as [| | | | |l|items]; try now split.
  simpl in Hs.
  destruct (json_eq_str _ (py "media")).
  - destruct (dict_get items (py "media")) as [[| | | | |l|media]|];
      try now split.
    destruct (dict_get media (py "payload")) as [[| | | |payload|l|d]|];
      try now split.
    destruct (b64decode payload); [|now split].
    apply send_pcm_frame.
  - rewrite Hs. destruct (json_eq_str _ (py "stop")); now split.
Qed.

Lemma personaplex_step_keeps_sid (self : VoiceBridge) msg closed :
  _stream_sid (fst (personaplex_step self msg closed)) = _stream_sid self /\
  exists new,
    twilio_sent (fst (personaplex_step self msg closed))
    = twilio_sent self ++ new /\
    Forall (carries (_stream_sid self)) new.
Proof.
  assert (Hnone : forall (s : VoiceBridge) (o : outcome),
             _stream_sid s = _stream_sid self ->
             twilio_sent s = twilio_sent self ->
             _stream_sid (fst (s, o)) = _stream_sid self /\
             exists new, twilio_sent (fst (s, o)) = twilio_sent self ++ new /\
                         Forall (carries (_stream_sid self)) new).
  { intros s o H1 H2. split; [exact H1|]. exists [].
    simpl. now rewrite app_nil_r. }
  unfold personaplex_step.
  destruct (_close self); [now apply Hnone|].
  destruct msg as [t|[|kind payload]| | | | | |]; try now apply Hnone.
  destruct (Byte.eqb kind Byte.x01).
  - unfold _opus_decode.
    destruct (opus_decode _ _) as [[dec' n] out_buf].
    destruct (n <? 0)%Z; [now apply Hnone|].
    unfold _send_mulaw_to_twilio. destruct closed; [now apply Hnone|].
    simpl. split; [reflexivity|].
    eexists. split; [reflexivity|].
    constructor; [|constructor]. eexists. reflexivity.
  - destruct (Byte.eqb kind Byte.x02); now apply Hnone.
Qed.

Lemma handle_keeps_sid (self : VoiceBridge) ev :
  is_start_envelope ev = false ->
  _stream_sid (fst (handle self ev)) = _stream_sid self /\
  exists new,
    twilio_sent (fst (handle self ev)) = twilio_sent self ++ new /\
    Forall (carries (_stream_sid self)) new.
Proof.
  intros Hs. destruct ev as [msg closed|msg closed]; simpl.
  - destruct (twilio_step_keeps_sid self msg closed Hs) as [H1 H2].
    split; [exact H1|]. exists []. now rewrite app_nil_r.
  - apply personaplex_step_keeps_sid.
Qed.

Lemma keeps_sid_refl (self : VoiceBridge) : keeps_sid self self.
Proof. split; [reflexivity|]. exists []. now rewrite app_nil_r. Qed.

Lemma keeps_sid_trans (a b c : VoiceBridge) :
  keeps_sid a b -> keeps_sid b c -> keeps_sid a c.
Proof.
  intros [H1 [n1 [H2 H3]]] [H4 [n2 [H5 H6]]].
  split; [congruence|].
  exists (n1 ++ n2). rewrite H5, H2, app_assoc. split; [reflexivity|].
  apply Forall_app. split; [exact H3|]. now rewrite <- H1.
Qed.

Lemma wind_down_keeps_sid done evs : forall self : VoiceBridge,
  forallb (fun ev => negb (is_start_envelope ev)) evs = true ->
  keeps_sid self (wind_down done evs self).
Proof.
  induction evs as [|ev rest IH]; intros self Hall; simpl.
  - apply keeps_sid_refl.
  - simpl in Hall. apply andb_prop in Hall. destruct Hall as [Hev Hrest].
    apply negb_true_iff in Hev.
    destruct (task_eqb (task_of ev) done); [now apply IH|].
    pose proof (handle_keeps_sid self ev Hev) as H.
    destruct (handle self ev) as [self' [| |e]]; simpl in H; try exact H.
    apply (keeps_sid_trans H). now apply IH.
Qed.

Lemma run_pumps_keeps_sid evs : forall self : VoiceBridge,
  forallb (fun ev => negb (is_start_envelope ev)) evs = true ->
  _stream_sid (fst (run_pumps evs self)) = _stream_sid self /\
  exists new,
    twilio_sent (fst (run_pumps evs self)) = twilio_sent self ++ new /\
    Forall (carries (_stream_sid self)) new.
Proof.
  induction evs as [|ev rest IH]; intros self Hall; simpl.
  - apply keeps_sid_refl.
  - simpl in Hall. apply andb_prop in Hall. destruct Hall as [Hev Hrest].
    apply negb_true_iff in Hev.
    pose proof (handle_keeps_sid self ev Hev) as H.
    destruct (handle self ev) as [self' [| |e]]; simpl in H |- *.
    + apply (keeps_sid_trans H). now apply IH.
    + apply (keeps_sid_trans H). now apply wind_down_keeps_sid.
    + apply (keeps_sid_trans H). now apply wind_down_keeps_sid.
Qed.

Lemma personaplex_step_ai_side (self : VoiceBridge) msg closed :
  pp_sent (fst (personaplex_step self msg closed)) = pp_sent self /\
  _pcm_buffer (fst (personaplex_step self msg closed)) = _pcm_buffer self /\
  _encoder (fst (personaplex_step self msg closed)) = _encoder self /\
  db_messages (fst (personaplex_step self msg closed)) = db_messages self /\
  _close (fst (personaplex_step self msg closed)) = _close self.
Proof.
  unfold personaplex_step.
  destruct (_close self) eqn:Ec; [now repeat split|].
  destruct msg as [t|[|kind payload]| | | | | |]; try now repeat split.
  destruct (Byte.eqb kind Byte.x01).
  - unfold _opus_decode.
    destruct (opus_decode _ _) as [[dec' n] out_buf].
    destruct (n <? 0)%Z; [now repeat split|].
    unfold _send_mulaw_to_twilio. destruct closed; now repeat split.
  - destruct (Byte.eqb kind Byte.x02); now repeat split.
Qed.

(** While the AI-to-carrier task winds down after the carrier-to-AI task
    is done, the carrier's side of the bridge stays as it is. *)
Lemma wind_down_carrier_side evs : forall self : VoiceBridge,
  pp_sent (wind_down TwilioTask evs self) = pp_sent self /\
  _pcm_buffer (wind_down TwilioTask evs self) = _pcm_buffer self /\
  _encoder (wind_down TwilioTask evs self) = _encoder self /\
  _stream_sid (wind_down TwilioTask evs self) = _stream_sid self.
Proof.
  induction evs as [|[msg closed|msg closed] rest IH]; intros self;
    cbn [wind_down task_of task_eqb handle]; [now repeat split|apply IH|].
  destruct (personaplex_step_ai_side self msg closed) as [H1 [H2 [H3 _]]].
  destruct (personaplex_step_keeps_sid self msg closed) as [H4 _].
  destruct (personaplex_step self msg closed) as [self' [| |e]];
    cbn [fst] in *; try (now repeat split).
  destruct (IH self') as [G1 [G2 [G3 G4]]].
  repeat split; congruence.
Qed.


(** A start envelope is not a media envelope. *)
Lemma start_event_not_media (event : json) :
  json_eq_str event (py "start") = true ->
  json_eq_str event (py "media") = false.
Proof.
  destruct event as [| | | |s| |]; try discriminate. simpl.
  intros H. apply str_eqb_eq in H. now subst s.
Qed.

End PumpFacts.

(** ** Bridge: what a send pass forwards *)
Section ForwardFacts.
Import Py Transcoder Bridge Reading.
Context {E : Externals}.

Lemma set_pcm_buffer_same (self : VoiceBridge) :
  set_pcm_buffer self (_pcm_buffer self) = self.
Proof. now destruct self. Qed.

Lemma send_frame_buffer (self : VoiceBridge) buf frame :
  send_frame (set_pcm_buffer self buf) frame
  = set_pcm_buffer (send_frame self frame) buf.
Proof.
  unfold send_frame, _opus_encode. cbn [_encoder set_pcm_buffer].
  destruct (opus_encode _ _) as [[enc' n] out_buf].
  destruct (n <? 0)%Z; [reflexivity|].
  destruct (firstn (Z.to_nat n) out_buf) as [|b bs]; reflexivity.
Qed.

Lemma send_frames_buffer fs : forall (self : VoiceBridge) buf,
  fold_left send_frame fs (set_pcm_buffer self buf)
  = set_pcm_buffer (fold_left send_frame fs self) buf.
Proof.
  induction fs as [|f rest IH]; intros self buf; cbn [fold_left];
    [reflexivity|].
  now rewrite send_frame_buffer, IH.
Qed.

(** One turn of the drain loop cuts a frame and sends it. *)
Lemma drain_one_send_frame (self : VoiceBridge) :
  drain_one self
  = set_pcm_buffer
      (send_frame self (firstn OPUS_FRAME_SAMPLES (_pcm_buffer self)))
      (skipn OPUS_FRAME_SAMPLES (_pcm_buffer self)).
Proof.
  rewrite <- send_frame_buffer. unfold drain_one, send_frame.
  destruct (_opus_encode _ _) as [self' [[|b bs]|]]; reflexivity.
Qed.

Lemma whole_frames_step (buf : list float32) :
  (OPUS_FRAME_SAMPLES <= length buf)%nat ->
  whole_frames buf
  = firstn OPUS_FRAME_SAMPLES buf
    :: whole_frames (skipn OPUS_FRAME_SAMPLES buf).
Proof.
  intros H. unfold whole_frames. rewrite length_skipn.
  assert (Hd : (length buf / OPUS_FRAME_SAMPLES
                = S ((length buf - OPUS_FRAME_SAMPLES) / OPUS_FRAME_SAMPLES))%nat).
  { rewrite OPUS_FRAME_SAMPLES_480 in *.
    replace (length buf) with (1 * 480 + (length buf - 480))%nat at 1 by lia.
    rewrite Nat.div_add_l by lia. lia. }
  rewrite Hd. reflexivity.
Qed.

Lemma residual_step (buf : list float32) :
  (OPUS_FRAME_SAMPLES <= length buf)%nat ->
  residual (skipn OPUS_FRAME_SAMPLES buf) = residual buf.
Proof.
  intros H. unfold residual. rewrite skipn_skipn, length_skipn. f_equal.
  rewrite OPUS_FRAME_SAMPLES_480 in *.
  replace (length buf) with (1 * 480 + (length buf - 480))%nat at 2 by lia.
  rewrite Nat.div_add_l by lia. lia.
Qed.

(** The drain loop sends the whole frames of the buffer in order, each
    through the encoder, and keeps what is left after them. *)
Lemma drain_frames_send_frames (self : VoiceBridge) :
  drain_frames self
  = set_pcm_buffer
      (fold_left send_frame (whole_frames (_pcm_buffer self)) self)
      (residual (_pcm_buffer self)).
Proof.
  apply (drain_frames_rect
           (fun s out =>
              out = set_pcm_buffer
                      (fold_left send_frame (whole_frames (_pcm_buffer s)) s)
                      (residual (_pcm_buffer s)))).
  - intros s H. unfold whole_frames, residual.
    rewrite (Nat.div_small _ _ H), Nat.mul_0_r.
    cbn [frames fold_left skipn]. symmetry. apply set_pcm_buffer_same.
  - intros s H IH. rewrite IH, drain_one_buffer.
    rewrite (whole_frames_step _ H), (residual_step _ H).
    cbn [fold_left]. rewrite drain_one_send_frame, send_frames_buffer.
    reflexivity.
Qed.

(** [_send_pcm_to_personaplex] on an open AI socket. *)
Lemma send_pcm_send_frames (self : VoiceBridge) (pcm_24k : list float32) :
  _send_pcm_to_personaplex self pcm_24k false
  = set_pcm_buffer
      (fold_left send_frame (whole_frames (_pcm_buffer self ++ pcm_24k)) self)
      (residual (_pcm_buffer self ++ pcm_24k)).
Proof.
  unfold _send_pcm_to_personaplex. rewrite drain_frames_send_frames.
  cbn [_pcm_buffer set_pcm_buffer]. now rewrite send_frames_buffer.
Qed.

End ForwardFacts.

Section CallFacts.
Import Py Transcoder Bridge.
Context {E : Externals}.

Lemma opus_decode_keeps_sid (self self' : VoiceBridge) payload pcm :
  _opus_decode self payload = (self', pcm) ->
  _stream_sid self' = _stream_sid self /\ twilio_sent self' = twilio_sent self.
Proof.
  unfold _opus_decode.
  destruct (opus_decode _ _) as [[dec' n] out_buf].
  destruct (n <? 0)%Z; intros H; injection H as <- _; now split.
Qed.

(** A start from a first message that is not a binary frame. *)
Lemma start_not_binary msg evs :
  (forall data, msg <> BINARY data) ->
  pumps_spawned (start msg evs) = false /\
  raised (start msg evs) = None /\
  on_disconnect_ran (start msg evs) = false /\
  cleanup_ran (start msg evs) = true /\
  db_messages (bridge (start msg evs)) = [].
Proof.
  intros H. destruct msg as [t|data| | | | | |];
    try (now repeat split).
  now destruct (H data).
Qed.

(** A start from a non-empty binary frame does not look at its first byte
    beyond choosing the log record. *)
Lemma start_binary kind rest evs :
  pumps_spawned (start (BINARY (kind :: rest)) evs) = true /\
  raised (start (BINARY (kind :: rest)) evs) = None /\
  bridge (start (BINARY (kind :: rest)) evs)
  = bridge (start (BINARY (Byte.x00 :: rest)) evs) /\
  pumps_end (start (BINARY (kind :: rest)) evs)
  = pumps_end (start (BINARY (Byte.x00 :: rest)) evs).
Proof.
  unfold start. destruct (run_pumps evs init) as [self e].
  now repeat split.
Qed.

End CallFacts.

(** C1, as the code has it.  When the first message from the AI socket is
    not a binary frame, [start] cleans up and returns before the two loops
    are created, and nothing is written to the message table.  A non-empty
    binary frame whose first byte is not 0x00 is logged and otherwise
    treated as the handshake: the loops are created and the call ends in
    the same state as after a 0x00 first byte. *)
Theorem handshake_gate (E : Bridge.Externals) :
  (forall (msg : Bridge.WSMessage) (evs : list Bridge.event),
     (forall data, msg <> Bridge.BINARY data) ->
     Bridge.pumps_spawned (Bridge.start msg evs) = false /\
     Bridge.raised (Bridge.start msg evs) = None /\
     Bridge.on_disconnect_ran (Bridge.start msg evs) = false /\
     Bridge.cleanup_ran (Bridge.start msg evs) = true /\
     Bridge.db_messages (Bridge.bridge (Bridge.start msg evs)) = []) /\
  (forall (kind : Byte.byte) (rest : Transcoder.bytes)
          (evs : list Bridge.event),
     Bridge.pumps_spawned (Bridge.start (Bridge.BINARY (kind :: rest)) evs)
     = true /\
     Bridge.raised (Bridge.start (Bridge.BINARY (kind :: rest)) evs) = None /\
     Bridge.bridge (Bridge.start (Bridge.BINARY (kind :: rest)) evs)
     = Bridge.bridge (Bridge.start (Bridge.BINARY (Byte.x00 :: rest)) evs) /\
     Bridge.pumps_end (Bridge.start (Bridge.BINARY (kind :: rest)) evs)
     = Bridge.pumps_end
         (Bridge.start (Bridge.BINARY (Byte.x00 :: rest)) evs)).
Proof.
  split.
  - intros msg evs H. now apply start_not_binary.
  - intros kind rest evs. apply start_binary.
Qed.

Lemma handshake_gate_witness :
  let c := Bridge.start (E := Sample.externals)
             (Bridge.TEXT (Bridge.Json (Bridge.JStr (Py.py "ready"))))
             [Bridge.FromPersonaplex
                (Bridge.BINARY (Byte.x02 :: Sample.ascii_bytes "hi")) false] in
  Bridge.pumps_spawned c = false /\
  Bridge.raised c = None /\
  Bridge.on_disconnect_ran c = false /\
  Bridge.cleanup_ran c = true /\
  Bridge.db_messages (Bridge.bridge c) = [].
Proof.
  apply (proj1 (handshake_gate Sample.externals)).
  intros data H. discriminate H.
Defined.

(** C1 as stated fails: after a first binary message [0x01], the loops are
    created, a text token is captured and it is written to the message
    table when the AI socket closes. *)
Lemma handshake_other_kind_still_bridges :
  let c := Bridge.start (E := Sample.externals)
             (Bridge.BINARY [Byte.x01])
             [Bridge.FromPersonaplex
                (Bridge.BINARY (Byte.x02 :: Sample.ascii_bytes "hi")) false;
              Bridge.FromPersonaplex Bridge.CLOSE false] in
  Bridge.handshake_log c = [Py.py "unexpected_first_message"] /\
  Bridge.pumps_spawned c = true /\
  Bridge.raised c = None /\
  Bridge.db_messages (Bridge.bridge c) = [(Py.py "assistant", Py.py "hi")].
Proof. vm_compute. repeat split. Qed.

(** C2, as the code has it.  While the stream id is unset, an AI audio
    frame that decodes is still sent to the carrier, in an envelope whose
    stream id is null.  In the other direction a carrier media envelope is
    forwarded whatever the stream id, unset or not: its payload is
    decoded, appended to the residual buffer, and every whole frame the
    buffer then holds is encoded and sent to the AI in order, the rest
    staying in the buffer.  What that loop sends to the AI, and how its
    body ends, does not depend on the stream id. *)
Theorem audio_before_start_sent_with_null_sid (E : Bridge.Externals) :
  (forall (self self' : Bridge.VoiceBridge) (payload : Transcoder.bytes)
          (pcm_24k : list Transcoder.float32),
     Bridge._close self = false ->
     Bridge._stream_sid self = Bridge.JNull ->
     Bridge._opus_decode self payload = (self', Some pcm_24k) ->
     Bridge.personaplex_step self (Bridge.BINARY (Byte.x01 :: payload)) false
     = (Bridge.twilio_send_str self'
          (Bridge.media_envelope Bridge.JNull
             (Bridge.b64encode
                (Transcoder.pcm_24k_to_mulaw_8k Bridge.soxr_resample
                                                pcm_24k))),
        Bridge.Continue)) /\
  (forall (self : Bridge.VoiceBridge) (items media : list (Py.str * Bridge.json))
          (payload_b64 : Py.str) (mulaw_bytes : Transcoder.bytes),
     Bridge._close self = false ->
     Bridge.json_eq_str
       (Bridge.get_or (Bridge.dict_get items (Py.py "event")) Bridge.JNull)
       (Py.py "media") = true ->
     Bridge.dict_get items (Py.py "media") = Some (Bridge.JDict media) ->
     Bridge.dict_get media (Py.py "payload")
     = Some (Bridge.JStr payload_b64) ->
     Bridge.b64decode payload_b64 = Some mulaw_bytes ->
     let buf := Bridge._pcm_buffer self
                ++ Transcoder.mulaw_8k_to_pcm_24k Bridge.soxr_resample
                                                  mulaw_bytes in
     Bridge.twilio_step self
       (Bridge.TEXT (Bridge.Json (Bridge.JDict items))) false
     = (Bridge.set_pcm_buffer
          (fold_left Reading.send_frame (Reading.whole_frames buf) self)
          (Reading.residual buf),
        Bridge.Continue)) /\
  (forall (self : Bridge.VoiceBridge) (sid : Bridge.json)
          (msg : Bridge.WSMessage) (pp_closed : bool),
     Bridge.pp_sent
       (fst (Bridge.twilio_step (Bridge.set_stream_sid self sid)
                                msg pp_closed))
     = Bridge.pp_sent (fst (Bridge.twilio_step self msg pp_closed)) /\
     snd (Bridge.twilio_step (Bridge.set_stream_sid self sid) msg pp_closed)
     = snd (Bridge.twilio_step self msg pp_closed)).
Proof.
  split; [|split].
  - intros self self' payload pcm Hc Hs Hd.
    destruct (opus_decode_keeps_sid _ _ Hd) as [Hs' _].
    unfold Bridge.personaplex_step. rewrite Hc.
    change (Byte.eqb Byte.x01 Byte.x01) with true. cbv iota.
    rewrite Hd. unfold Bridge._send_mulaw_to_twilio.
    now rewrite Hs', Hs.
  - intros self items media payload_b64 mulaw_bytes Hc He Hm Hp Hb buf.
    unfold Bridge.twilio_step. rewrite Hc.
    unfold Bridge.twilio_text. rewrite He, Hm, Hp, Hb.
    now rewrite send_pcm_send_frames.
  - intros self sid msg pp_closed. apply twilio_step_sid.
Qed.

Lemma audio_before_start_sent_with_null_sid_witness :
  let payload := [Byte.x00; Byte.x05; Byte.x00; Byte.x05; Byte.x00; Byte.x05] in
  let self := Bridge.init (E := Sample.externals) in
  let self' := Bridge.set_decoder self tt in
  let pcm_24k :=
    List.map (fun v => SFdiv Transcoder.prec32 Transcoder.emax32
                             (Transcoder.int_to_f32 v)
                             (Transcoder.int_to_f32 32768))
             [5%Z; 5%Z; 5%Z] in
  let quiet := repeat Byte.xff 160 in
  let envelope :=
    Bridge.TEXT (Bridge.Json (Bridge.JDict
      [(Py.py "event", Bridge.JStr (Py.py "media"));
       (Py.py "media",
        Bridge.JDict [(Py.py "payload",
                       Bridge.JStr (Sample.b64encode quiet))])])) in
  let buf := Bridge._pcm_buffer self
             ++ Transcoder.mulaw_8k_to_pcm_24k Sample.soxr_resample quiet in
  Bridge.personaplex_step self (Bridge.BINARY (Byte.x01 :: payload)) false
  = (Bridge.twilio_send_str self'
       (Bridge.media_envelope Bridge.JNull
          (Sample.b64encode
             (Transcoder.pcm_24k_to_mulaw_8k Sample.soxr_resample pcm_24k))),
     Bridge.Continue) /\
  Bridge.twilio_step self envelope false
  = (Bridge.set_pcm_buffer
       (fold_left Reading.send_frame (Reading.whole_frames buf) self)
       (Reading.residual buf),
     Bridge.Continue).
Proof.
  split.
  - apply (proj1 (audio_before_start_sent_with_null_sid Sample.externals));
      reflexivity.
  - apply (proj1 (proj2 (audio_before_start_sent_with_null_sid
                           Sample.externals))
             Bridge.init _
             [(Py.py "payload",
               Bridge.JStr (Sample.b64encode (repeat Byte.xff 160)))]
             (Sample.b64encode (repeat Byte.xff 160))
             (repeat Byte.xff 160));
      vm_compute; reflexivity.
Defined.

(** On a new bridge, before any start envelope, a carrier media envelope
    of 160 bytes, 20 ms of audio, puts one audio message on the AI
    wire. *)
Lemma media_before_start_reaches_ai :
  let envelope :=
    Bridge.TEXT (Bridge.Json (Bridge.JDict
      [(Py.py "event", Bridge.JStr (Py.py "media"));
       (Py.py "media",
        Bridge.JDict [(Py.py "payload",
                       Bridge.JStr (Sample.b64encode
                                      (repeat Byte.xff 160)))])])) in
  Bridge.pp_sent
    (fst (Bridge.twilio_step (E := Sample.externals) Bridge.init envelope
                             false))
  = [Byte.x01 :: repeat Byte.x00 960].
Proof. vm_compute. reflexivity. Qed.

(** C2 as stated fails: an AI audio frame handled on a new bridge, before
    any start envelope, puts a media envelope on the carrier wire. *)
Lemma media_sent_before_start :
  Bridge.twilio_sent
    (fst (Bridge.run_pumps (E := Sample.externals)
            [Bridge.FromPersonaplex
               (Bridge.BINARY [Byte.x01; Byte.x00; Byte.x05; Byte.x00;
                               Byte.x05; Byte.x00; Byte.x05]) false]
            Bridge.init))
  = [Bridge.media_envelope Bridge.JNull (Py.py "/g==")].
Proof. vm_compute. reflexivity. Qed.

(** C3, as the code has it.  A carrier text frame that [json.loads]
    rejects ends the carrier-to-AI loop: the exception leaves the
    coroutine at that frame, the bridge is as it was, and none of the
    frames behind it is handled.  For the call the loop counts as the
    first one done; the AI-to-carrier task winds down on its own messages,
    which leaves the carrier's side of the bridge (the AI wire, the
    residual buffer, the stream id) as it was at that frame. *)
Theorem json_parse_failure_ends_pump
  (E : Bridge.Externals) (self : Bridge.VoiceBridge) (raw : Py.str)
  (pp_closed : bool) :
  Bridge._close self = false ->
  (forall rest : list (Bridge.WSMessage * bool),
     Bridge._twilio_to_personaplex
       ((Bridge.TEXT (Bridge.Malformed raw), pp_closed) :: rest) self
     = (self, Bridge.Raised Bridge.JSONDecodeError)) /\
  (forall evs : list Bridge.event,
     Bridge.run_pumps
       (Bridge.FromTwilio (Bridge.TEXT (Bridge.Malformed raw)) pp_closed
        :: evs) self
     = (Bridge.wind_down Bridge.TwilioTask evs self,
        Bridge.Raised Bridge.JSONDecodeError) /\
     Bridge.pp_sent (Bridge.wind_down Bridge.TwilioTask evs self)
     = Bridge.pp_sent self /\
     Bridge._pcm_buffer (Bridge.wind_down Bridge.TwilioTask evs self)
     = Bridge._pcm_buffer self /\
     Bridge._stream_sid (Bridge.wind_down Bridge.TwilioTask evs self)
     = Bridge._stream_sid self).
Proof.
  intros Hc. split.
  - intros rest. simpl. unfold Bridge.twilio_step. now rewrite Hc.
  - intros evs.
    destruct (wind_down_carrier_side evs self) as [H1 [H2 [_ H4]]].
    split; [|now repeat split].
    cbn [Bridge.run_pumps Bridge.handle Bridge.task_of].
    unfold Bridge.twilio_step. now rewrite Hc.
Qed.

Lemma json_parse_failure_ends_pump_witness :
  let self := Bridge.init (E := Sample.externals) in
  (forall rest : list (Bridge.WSMessage * bool),
     Bridge._twilio_to_personaplex
       ((Bridge.TEXT (Bridge.Malformed (Py.py "{")), false) :: rest) self
     = (self, Bridge.Raised Bridge.JSONDecodeError)) /\
  (forall evs : list Bridge.event,
     Bridge.run_pumps
       (Bridge.FromTwilio (Bridge.TEXT (Bridge.Malformed (Py.py "{"))) false
        :: evs) self
     = (Bridge.wind_down Bridge.TwilioTask evs self,
        Bridge.Raised Bridge.JSONDecodeError) /\
     Bridge.pp_sent (Bridge.wind_down Bridge.TwilioTask evs self)
     = Bridge.pp_sent self /\
     Bridge._pcm_buffer (Bridge.wind_down Bridge.TwilioTask evs self)
     = Bridge._pcm_buffer self /\
     Bridge._stream_sid (Bridge.wind_down Bridge.TwilioTask evs self)
     = Bridge._stream_sid self).
Proof.
  apply (@json_parse_failure_ends_pump Sample.externals Bridge.init
           (Py.py "{") false).
  reflexivity.
Defined.

(** C3 as stated fails: a start envelope that follows a malformed text
    frame is never handled, though the same envelope alone sets the stream
    id. *)
Lemma frame_after_malformed_json_not_handled :
  Bridge._twilio_to_personaplex (E := Sample.externals)
    [(Bridge.TEXT (Bridge.Malformed (Py.py "{")), false);
     (Sample.start_envelope "S1", false)]
    Bridge.init
  = (Bridge.init, Bridge.Raised Bridge.JSONDecodeError) /\
  Bridge._twilio_to_personaplex (E := Sample.externals)
    [(Sample.start_envelope "S1", false)] Bridge.init
  = (Bridge.set_stream_sid Bridge.init (Bridge.JStr (Py.py "S1")),
     Bridge.Exhausted).
Proof. split; reflexivity. Qed.

(** C4, as the code has it.  Over any stretch of a call that holds no
    start envelope the stream id stays what it was, and every envelope
    sent to the carrier in that stretch is a media envelope carrying it.
    Every start envelope whose [start] field is an object, or is absent,
    sets the stream id to the [streamSid] of that object, null when it has
    none, whether or not an id was set before.  A start envelope whose
    [start] field is not an object raises [AttributeError] and leaves the
    stream id as it was. *)
Theorem stream_sid_changed_only_by_start (E : Bridge.Externals) :
  (forall (evs : list Bridge.event) (self : Bridge.VoiceBridge),
     forallb (fun ev => negb (Bridge.is_start_envelope ev)) evs = true ->
     Bridge._stream_sid (fst (Bridge.run_pumps evs self))
     = Bridge._stream_sid self /\
     exists new,
       Bridge.twilio_sent (fst (Bridge.run_pumps evs self))
       = Bridge.twilio_sent self ++ new /\
       Forall (Bridge.carries (Bridge._stream_sid self)) new) /\
  (forall (self : Bridge.VoiceBridge)
          (items start : list (Py.str * Bridge.json)) (pp_closed : bool),
     Bridge._close self = false ->
     Bridge.is_start_envelope
       (Bridge.FromTwilio (Bridge.TEXT (Bridge.Json (Bridge.JDict items)))
                          pp_closed) = true ->
     Bridge.get_or (Bridge.dict_get items (Py.py "start")) (Bridge.JDict [])
     = Bridge.JDict start ->
     Bridge.twilio_step self
       (Bridge.TEXT (Bridge.Json (Bridge.JDict items))) pp_closed
     = (Bridge.set_stream_sid self
          (Bridge.get_or (Bridge.dict_get start (Py.py "streamSid"))
                         Bridge.JNull),
        Bridge.Continue)) /\
  (forall (self : Bridge.VoiceBridge) (items : list (Py.str * Bridge.json))
          (pp_closed : bool),
     Bridge._close self = false ->
     Bridge.is_start_envelope
       (Bridge.FromTwilio (Bridge.TEXT (Bridge.Json (Bridge.JDict items)))
                          pp_closed) = true ->
     (forall start,
        Bridge.get_or (Bridge.dict_get items (Py.py "start"))
                      (Bridge.JDict [])
        <> Bridge.JDict start) ->
     Bridge.twilio_step self
       (Bridge.TEXT (Bridge.Json (Bridge.JDict items))) pp_closed
     = (self, Bridge.Raise Bridge.AttributeError)).
Proof.
  split; [|split].
  - intros evs self H. now apply run_pumps_keeps_sid.
  - intros self items start pp_closed Hc He Hs.
    cbn [Bridge.is_start_envelope] in He.
    unfold Bridge.twilio_step. rewrite Hc.
    unfold Bridge.twilio_text.
    now rewrite (start_event_not_media _ He), He, Hs.
  - intros self items pp_closed Hc He Hs.
    cbn [Bridge.is_start_envelope] in He.
    unfold Bridge.twilio_step. rewrite Hc.
    unfold Bridge.twilio_text.
    rewrite (start_event_not_media _ He), He.
    destruct (Bridge.get_or (Bridge.dict_get items (Py.py "start"))
                            (Bridge.JDict []))
      as [|b|z|x|s|l|start]; try reflexivity.
    now destruct (Hs start).
Qed.

Lemma stream_sid_changed_only_by_start_witness :
  let self := Bridge.set_stream_sid (Bridge.init (E := Sample.externals))
                                    (Bridge.JStr (Py.py "S1")) in
  let evs := [Bridge.FromPersonaplex
                (Bridge.BINARY [Byte.x01; Byte.x00; Byte.x05; Byte.x00;
                                Byte.x05; Byte.x00; Byte.x05]) false;
              Bridge.FromTwilio (Sample.media_frame "/////w==") false;
              Bridge.FromPersonaplex
                (Bridge.BINARY (Byte.x02 :: Sample.ascii_bytes "hi")) false] in
  let no_sid :=
    Bridge.TEXT (Bridge.Json (Bridge.JDict
      [(Py.py "event", Bridge.JStr (Py.py "start"));
       (Py.py "start", Bridge.JDict [(Py.py "callSid",
                                      Bridge.JStr (Py.py "CA1"))])])) in
  let null_start :=
    Bridge.TEXT (Bridge.Json (Bridge.JDict
      [(Py.py "event", Bridge.JStr (Py.py "start"));
       (Py.py "start", Bridge.JNull)])) in
  (Bridge._stream_sid (fst (Bridge.run_pumps evs self))
   = Bridge._stream_sid self /\
   exists new,
     Bridge.twilio_sent (fst (Bridge.run_pumps evs self))
     = Bridge.twilio_sent self ++ new /\
     Forall (Bridge.carries (Bridge._stream_sid self)) new) /\
  Bridge.twilio_step self (Sample.start_envelope "S2") false
  = (Bridge.set_stream_sid self (Bridge.JStr (Py.py "S2")),
     Bridge.Continue) /\
  Bridge.twilio_step self no_sid false
  = (Bridge.set_stream_sid self Bridge.JNull, Bridge.Continue) /\
  Bridge.twilio_step self null_start false
  = (self, Bridge.Raise Bridge.AttributeError).
Proof.
  pose proof (stream_sid_changed_only_by_start Sample.externals)
    as [Hkeep [Hset Hraise]].
  split; [|split; [|split]].
  - apply Hkeep. reflexivity.
  - apply (Hset (Bridge.set_stream_sid Bridge.init (Bridge.JStr (Py.py "S1")))
                _ [(Py.py "streamSid", Bridge.JStr (Py.py "S2"))] false);
      reflexivity.
  - apply (Hset (Bridge.set_stream_sid Bridge.init (Bridge.JStr (Py.py "S1")))
                _ [(Py.py "callSid", Bridge.JStr (Py.py "CA1"))] false);
      reflexivity.
  - apply (Hraise
             (Bridge.set_stream_sid Bridge.init (Bridge.JStr (Py.py "S1")))
             _ false); try reflexivity.
    intros start H. discriminate H.
Defined.

(** C4 as stated fails: a second start envelope replaces the stream id
    set by the first, and the media envelope sent afterwards carries the
    second one. *)
Lemma second_start_replaces_stream_sid :
  let first := Bridge.FromTwilio (Sample.start_envelope "S1") false in
  let second := Bridge.FromTwilio (Sample.start_envelope "S2") false in
  let audio := Bridge.FromPersonaplex
                 (Bridge.BINARY [Byte.x01; Byte.x00; Byte.x05; Byte.x00;
                                 Byte.x05; Byte.x00; Byte.x05]) false in
  Bridge._stream_sid
    (fst (Bridge.run_pumps (E := Sample.externals) [first] Bridge.init))
  = Bridge.JStr (Py.py "S1") /\
  Bridge._stream_sid
    (fst (Bridge.run_pumps (E := Sample.externals) [first; second]
                           Bridge.init))
  = Bridge.JStr (Py.py "S2") /\
  Bridge.twilio_sent
    (fst (Bridge.run_pumps (E := Sample.externals) [first; second; audio]
                           Bridge.init))
  = [Bridge.media_envelope (Bridge.JStr (Py.py "S2")) (Py.py "/g==")].
Proof. vm_compute. repeat split. Qed.

(* ===================================================================== *)
(** * Part III.  Further properties of the code                           *)
(* ===================================================================== *)

(** ** Phone normalisation, continued *)
Section PhoneMore.
Import Py Phone.
Variable unicode_Nd : char -> bool.

Lemma filter_keep_lstrip (s : str) :
  (forall c, keep unicode_Nd c = true -> isspace c = false) ->
  filter (keep unicode_Nd) (lstrip s) = filter (keep unicode_Nd) s.
Proof.
  intros Hk. induction s as [|c r IH]; simpl; [reflexivity|].
  destruct (isspace c) eqn:Es; [|reflexivity].
  destruct (keep unicode_Nd c) eqn:Ek; [|exact IH].
  apply Hk in Ek. congruence.
Qed.

Lemma filter_keep_strip (s : str) :
  (forall c, keep unicode_Nd c = true -> isspace c = false) ->
  filter (keep unicode_Nd) (strip s) = filter (keep unicode_Nd) s.
Proof.
  intros Hk. unfold strip, rstrip.
  rewrite filter_rev, (filter_keep_lstrip _ Hk), <- filter_rev,
    rev_involutive.
  now apply filter_keep_lstrip.
Qed.

Lemma ascii_digits_kept (d : str) :
  Forall (fun c => ascii_digit c = true) d ->
  Forall (fun c => keep unicode_Nd c = true) d.
Proof.
  apply Forall_impl. intros c H. unfold keep, re_digit. now rewrite H.
Qed.

Lemma ascii_digits_strip (d : str) :
  Forall (fun c => ascii_digit c = true) d -> strip d = d.
Proof.
  intros H. apply strip_fixed.
  - intros c r ->. apply ascii_digit_not_space. now inversion H.
  - intros c r Hr. apply ascii_digit_not_space.
    apply Forall_rev in H. rewrite Hr in H. now inversion H.
Qed.

Lemma ascii_digits_no_plus (d : str) :
  Forall (fun c => ascii_digit c = true) d -> startswith d (py "+") = false.
Proof.
  intros H. destruct d as [|c r]; [reflexivity|].
  inversion H as [|? ? Hc _]; subst.
  change (startswith (c :: r) (py "+")) with (N.eqb 43 c && true).
  destruct (N.eqb_spec 43 c) as [<-|]; [discriminate Hc|reflexivity].
Qed.

End PhoneMore.

(** X1.  Whatever the input, the normalised number begins with ['+'] and
    holds nothing but digits and ['+'] signs. *)
Theorem normalize_e164_well_formed
  (unicode_Nd : Py.char -> bool) (x : Py.str) :
  Py.startswith (Phone.normalize_e164 unicode_Nd x) (Py.py "+") = true /\
  Forall (fun c => Phone.re_digit unicode_Nd c = true \/ c = 43%N)
         (Phone.normalize_e164 unicode_Nd x).
Proof.
  destruct (normalize_e164_shape unicode_Nd x) as [Hk Hs].
  split; [exact Hs|].
  revert Hk. apply Forall_impl. intros c H. unfold Phone.keep in H.
  apply orb_prop in H. destruct H as [H|H]; [now left|right].
  unfold Py.char_eqb in H. now apply N.eqb_eq in H.
Qed.

(** X2.  Characters that are neither digits nor ['+'] never matter: two
    inputs with the same digits and ['+'] signs, in the same order, have
    the same normal form. *)
Theorem normalize_e164_ignores_formatting
  (unicode_Nd : Py.char -> bool)
  (Nd_not_space : forall c, unicode_Nd c = true -> Py.isspace c = false)
  (x y : Py.str) :
  filter (Phone.keep unicode_Nd) x = filter (Phone.keep unicode_Nd) y ->
  Phone.normalize_e164 unicode_Nd x = Phone.normalize_e164 unicode_Nd y.
Proof.
  intros H. unfold Phone.normalize_e164, Phone.re_sub_non_digit_plus.
  rewrite !filter_keep_strip by (now apply keep_not_space).
  now rewrite H.
Qed.

Lemma normalize_e164_ignores_formatting_witness :
  Phone.normalize_e164 Phone.arabic_indic_digit (Py.py "+1 (415) 555-0100")
  = Phone.normalize_e164 Phone.arabic_indic_digit (Py.py "+1.415.555.0100 ").
Proof.
  apply (normalize_e164_ignores_formatting Phone.arabic_indic_digit
           arabic_indic_digit_not_space).
  vm_compute. reflexivity.
Defined.

(** X3.  A number of ten ASCII digits is taken to be a US number: alone,
    with a leading [1], or with a leading [+1], it normalises to [+1]
    followed by the ten digits. *)
Theorem normalize_e164_us_number
  (unicode_Nd : Py.char -> bool) (d : Py.str) :
  length d = 10 ->
  Forall (fun c => Phone.ascii_digit c = true) d ->
  Phone.normalize_e164 unicode_Nd d = Py.py "+1" ++ d /\
  Phone.normalize_e164 unicode_Nd (Py.py "1" ++ d) = Py.py "+1" ++ d /\
  Phone.normalize_e164 unicode_Nd (Py.py "+1" ++ d) = Py.py "+1" ++ d.
Proof.
  intros Hl Hd.
  assert (H1 : Forall (fun c => Phone.ascii_digit c = true) (Py.py "1" ++ d))
    by (constructor; [reflexivity|exact Hd]).
  pose proof (ascii_digits_kept unicode_Nd Hd) as Hk.
  pose proof (ascii_digits_kept unicode_Nd H1) as Hk1.
  unfold Phone.normalize_e164, Phone.re_sub_non_digit_plus.
  repeat split.
  - rewrite (ascii_digits_strip Hd), (filter_keep_fixed _ Hk),
      (ascii_digits_no_plus Hd), Hl. reflexivity.
  - rewrite (ascii_digits_strip H1), (filter_keep_fixed _ Hk1),
      (ascii_digits_no_plus H1).
    change (length (Py.py "1" ++ d)) with (S (length d)). rewrite Hl.
    reflexivity.
  - assert (Hp : Forall (fun c => Phone.keep unicode_Nd c = true)
                        (Py.py "+1" ++ d)).
    { constructor; [unfold Phone.keep; apply orb_true_r|exact Hk1]. }
    assert (Hs : Py.strip (Py.py "+1" ++ d) = Py.py "+1" ++ d).
    { apply strip_fixed.
      - intros c r H. injection H as <- _. reflexivity.
      - intros c r Hr. apply ascii_digit_not_space.
        assert (Hrev : rev (Py.py "+1" ++ d) = rev (Py.py "1" ++ d) ++ [43%N])
          by reflexivity.
        rewrite Hrev in Hr. apply Forall_rev in H1.
        destruct (rev (Py.py "1" ++ d)) as [|c' r'] eqn:E.
        + apply (f_equal (@length _)) in E. rewrite length_rev in E.
          discriminate E.
        + injection Hr as <- _. now inversion H1. }
    rewrite Hs, (filter_keep_fixed _ Hp). reflexivity.
Qed.

Lemma normalize_e164_us_number_witness :
  Phone.normalize_e164 (fun _ => false) (Py.py "4155550100")
  = Py.py "+1" ++ Py.py "4155550100" /\
  Phone.normalize_e164 (fun _ => false) (Py.py "1" ++ Py.py "4155550100")
  = Py.py "+1" ++ Py.py "4155550100" /\
  Phone.normalize_e164 (fun _ => false) (Py.py "+1" ++ Py.py "4155550100")
  = Py.py "+1" ++ Py.py "4155550100".
Proof.
  apply (@normalize_e164_us_number (fun _ => false) (Py.py "4155550100")).
  - reflexivity.
  - repeat constructor.
Defined.

(** ** Transcript capture, continued *)
Section TranscriptMore.
Import Py Transcript Reading.

Lemma apply_op_tokens (c : TranscriptCapture) o :
  _tokens (apply_op c o) = _tokens c ++ op_tokens [o].
Proof.
  destruct o as [t| |n]; simpl.
  - reflexivity.
  - unfold end_turn. destruct (_assistant_text c); simpl;
      now rewrite app_nil_r.
  - unfold add_user_note. destruct (truthy (strip n)); simpl;
      now rewrite app_nil_r.
Qed.

Lemma run_tokens ops : forall c : TranscriptCapture,
  _tokens (run ops c) = _tokens c ++ op_tokens ops.
Proof.
  unfold run. induction ops as [|o ops IH]; intros c; simpl.
  - now rewrite app_nil_r.
  - rewrite IH, apply_op_tokens. simpl. rewrite app_nil_r.
    now rewrite <- app_assoc.
Qed.

Lemma end_turn_tokens (c : TranscriptCapture) :
  _tokens (end_turn c) = _tokens c.
Proof. unfold end_turn. now destruct (_assistant_text c). Qed.

Lemma end_turn_idempotent (c : TranscriptCapture) :
  end_turn (end_turn c) = end_turn c.
Proof.
  unfold end_turn. destruct (_assistant_text c) eqn:E.
  - now rewrite E.
  - reflexivity.
Qed.

Lemma apply_op_turns (c : TranscriptCapture) o :
  exists new, _turns (apply_op c o) = _turns c ++ new /\
              (length new <= 1)%nat /\ Forall known_role new /\
              Forall turn_ok new.
Proof.
  assert (Hnil : exists new, _turns c = _turns c ++ new /\
                             (length new <= 1)%nat /\ Forall known_role new /\
                             Forall turn_ok new).
  { exists []. rewrite app_nil_r. repeat split; auto. }
  destruct o as [t| |n]; simpl.
  - exact Hnil.
  - unfold end_turn. destruct (_assistant_text c) as [|a l]; [exact Hnil|].
    cbn [_turns].
    destruct (truthy (strip (join (a :: l)))) eqn:E; [|exact Hnil].
    eexists. split; [reflexivity|]. repeat split; auto.
    + constructor; [now left|constructor].
    + constructor; [now apply stripped_turn_ok|constructor].
  - unfold add_user_note. destruct (truthy (strip n)) eqn:E; [|exact Hnil].
    eexists. split; [reflexivity|]. repeat split; auto.
    + constructor; [now right|constructor].
    + constructor; [now apply stripped_turn_ok|constructor].
Qed.

Lemma add_tokens_state ts : forall c : TranscriptCapture,
  run (List.map AddToken ts) c
  = Capture (_tokens c ++ ts) (_assistant_text c ++ ts) (_turns c).
Proof.
  unfold run. induction ts as [|t ts IH]; intros c; simpl.
  - rewrite !app_nil_r. now destruct c.
  - rewrite IH. simpl. now rewrite <- !app_assoc.
Qed.

End TranscriptMore.

(** X4.  The raw text is the concatenation of every token ever added, in
    order of arrival; ending turns, adding user notes and extracting the
    transcript do not change it. *)
Theorem full_text_is_all_tokens (ops : list Transcript.op) :
  Transcript.get_full_text (Transcript.run ops Transcript.init)
  = Py.join (Reading.op_tokens ops) /\
  Transcript.get_full_text
    (fst (Transcript.get_transcript (Transcript.run ops Transcript.init)))
  = Py.join (Reading.op_tokens ops).
Proof.
  unfold Transcript.get_full_text, Transcript.get_transcript. simpl.
  now rewrite end_turn_tokens, run_tokens.
Qed.

(** X5.  Extracting the transcript a second time changes nothing and
    returns the same turns: the flush of the open turn happens once. *)
Theorem get_transcript_idempotent (c : Transcript.TranscriptCapture) :
  Transcript.get_transcript (fst (Transcript.get_transcript c))
  = Transcript.get_transcript c.
Proof.
  unfold Transcript.get_transcript. simpl.
  now rewrite end_turn_idempotent.
Qed.

(** X6.  The turn list is append-only: a sequence of operations leaves the
    turns already there in place and adds at most one turn per operation
    behind them, each with role assistant or user. *)
Theorem turns_append_only
  (ops : list Transcript.op) (c : Transcript.TranscriptCapture) :
  exists new,
    Transcript._turns (Transcript.run ops c) = Transcript._turns c ++ new /\
    (length new <= length ops)%nat /\
    Forall Reading.known_role new.
Proof.
  revert c. unfold Transcript.run.
  induction ops as [|o ops IH]; intros c; simpl.
  - exists []. rewrite app_nil_r. repeat split; auto.
  - destruct (apply_op_turns c o) as [n1 [H1 [L1 [R1 _]]]].
    destruct (IH (Transcript.apply_op c o)) as [n2 [H2 [L2 R2]]].
    exists (n1 ++ n2). rewrite H2, H1, app_assoc.
    repeat split; [rewrite length_app; lia|].
    apply Forall_app. now split.
Qed.

(** X7.  A capture that has only received tokens yields a single
    assistant turn holding their trimmed concatenation, or no turn at all
    when that is empty. *)
Theorem tokens_only_transcript (ts : list Py.str) :
  snd (Transcript.get_transcript
         (Transcript.run (List.map Transcript.AddToken ts) Transcript.init))
  = if Py.truthy (Py.strip (Py.join ts))
    then [Transcript.Turn (Py.py "assistant") (Py.strip (Py.join ts))]
    else [].
Proof.
  rewrite add_tokens_state. unfold Transcript.get_transcript,
    Transcript.end_turn. simpl.
  destruct ts as [|t ts]; [reflexivity|]. cbn [Transcript._turns].
  now destruct (Py.truthy _).
Qed.

(** ** Codec, continued *)
Section CodecMore.
Import Transcoder Reading.
Local Open Scope Z_scope.

(** A check run over a range of integers holds at each of them. *)
Lemma range_from_forallb (P : Z -> bool) (n : nat) : forall start : Z,
  forallb P (range_from start n) = true ->
  forall z, start <= z < start + Z.of_nat n -> P z = true.
Proof.
  induction n as [|n IH]; intros start H z Hz; [lia|].
  simpl in H. apply andb_prop in H. destruct H as [H0 H1].
  destruct (Z.eq_dec z start) as [->|Hne]; [exact H0|].
  apply (IH (start + 1) H1). lia.
Qed.

Lemma encode_decode_byte (b : Byte.byte) :
  encode_direct (decode_byte b) = canonical b.
Proof. destruct b; vm_compute; reflexivity. Qed.

Lemma decode_flip_ok_all (b : Byte.byte) : decode_flip_ok b = true.
Proof. destruct b; vm_compute; reflexivity. Qed.

Lemma error_in_clip_range_all :
  forallb error_in_clip_range_ok
          (range_from (-32635) (Z.to_nat 65271)) = true.
Proof. vm_compute. reflexivity. Qed.

Lemma error_int16_all :
  forallb error_int16_ok (range_from (-32768) (Z.to_nat 65536)) = true.
Proof. vm_compute. reflexivity. Qed.

Lemma requantise_step_all :
  forallb requantise_step_ok (range_from (-32768) (Z.to_nat 65535)) = true.
Proof. vm_compute. reflexivity. Qed.

Lemma encode_symmetric_all :
  forallb encode_symmetric_ok (range_from 1 (Z.to_nat 32767)) = true.
Proof. vm_compute. reflexivity. Qed.

Lemma encode_saturates_high (s : Z) :
  32635 <= s -> _encode_mulaw_sample s = 0x80.
Proof.
  intros H. unfold _encode_mulaw_sample, _MULAW_CLIP.
  destruct (Z.ltb_spec s 0); [lia|].
  destruct (Z.gtb_spec s 32635); [reflexivity|].
  replace s with 32635 by lia. reflexivity.
Qed.

Lemma encode_saturates_low (s : Z) :
  s <= -32635 -> _encode_mulaw_sample s = 0.
Proof.
  intros H. unfold _encode_mulaw_sample, _MULAW_CLIP.
  destruct (Z.ltb_spec s 0); [|lia].
  destruct (Z.gtb_spec (- s) 32635); [reflexivity|].
  replace (- s) with 32635 by lia. reflexivity.
Qed.

Lemma requantise_monotone_steps (n : nat) : forall s : Z,
  -32768 <= s -> s + Z.of_nat n <= 32767 ->
  requantise s <= requantise (s + Z.of_nat n).
Proof.
  induction n as [|n IH]; intros s Hlo Hhi.
  - rewrite Z.add_0_r. lia.
  - assert (Hstep : requantise (s + Z.of_nat n)
                    <= requantise (s + Z.of_nat n + 1)).
    { apply Z.leb_le.
      apply (@range_from_forallb requantise_step_ok _ _ requantise_step_all).
      lia. }
    specialize (IH s Hlo ltac:(lia)).
    replace (s + Z.of_nat (S n)) with (s + Z.of_nat n + 1) by lia. lia.
Qed.

Lemma f32_one : int_to_f32 1 = S754_finite false 8388608 (-23).
Proof. reflexivity. Qed.

Lemma f32_minus_one : int_to_f32 (-1) = S754_finite true 8388608 (-23).
Proof. reflexivity. Qed.

Lemma clip_above (x : float32) :
  SFltb (int_to_f32 1) x = true -> clip x = int_to_f32 1.
Proof.
  unfold clip. rewrite f32_one, f32_minus_one.
  destruct x as [s|s| |s m e]; try destruct s; try discriminate;
    intros H; [reflexivity|].
  unfold SFltb in *. simpl SFcompare at 1. cbv iota. now rewrite H.
Qed.

Lemma clip_below (x : float32) :
  SFltb x (int_to_f32 (-1)) = true -> clip x = int_to_f32 (-1).
Proof.
  unfold clip. rewrite f32_minus_one.
  destruct x as [s|s| |s m e]; try destruct s; try discriminate;
    intros H; now rewrite ?H.
Qed.

End CodecMore.

(** X8.  Encoding what a byte sequence decodes to gives the sequence back,
    byte for byte, except that [0x7f] (negative zero) comes back as
    [0xff]. *)
Theorem pcm_to_mulaw_inverts_mulaw_to_pcm (b : Transcoder.bytes) :
  Transcoder.pcm_to_mulaw (Transcoder.mulaw_to_pcm b)
  = List.map Reading.canonical b.
Proof.
  rewrite mulaw_to_pcm_map, pcm_to_mulaw_map, map_map.
  apply map_ext. exact encode_decode_byte.
Qed.

(** X9.  The decoder is odd in the sign bit: inverting bit 7 of every byte
    negates every decoded sample. *)
Theorem mulaw_to_pcm_sign_bit (b : Transcoder.bytes) :
  Forall2 (fun x' x =>
             exists q' q, Transcoder.float_value x' = Some q' /\
                          Transcoder.float_value x = Some q /\
                          (q' == - q)%Q)
          (Transcoder.mulaw_to_pcm (List.map Reading.flip_sign b))
          (Transcoder.mulaw_to_pcm b).
Proof.
  rewrite !mulaw_to_pcm_map, map_map.
  apply Forall2_map_same. intros a.
  pose proof (decode_flip_ok_all a) as H. unfold Reading.decode_flip_ok in H.
  destruct (Transcoder.float_value (Transcoder.decode_byte
                                      (Reading.flip_sign a))) as [q'|];
    [|discriminate].
  destruct (Transcoder.float_value (Transcoder.decode_byte a)) as [q|];
    [|discriminate].
  exists q', q. repeat split. now apply Qeq_bool_iff.
Qed.

(** X10.  The encoder saturates: every sample above 1, the positive
    infinity included, is encoded as [0x80], and every sample below -1 as
    [0x00]. *)
Theorem pcm_to_mulaw_saturates (x : Transcoder.float32) :
  (SFltb (Transcoder.int_to_f32 1) x = true ->
   Transcoder.pcm_to_mulaw [x] = [Byte.x80]) /\
  (SFltb x (Transcoder.int_to_f32 (-1)) = true ->
   Transcoder.pcm_to_mulaw [x] = [Byte.x00]).
Proof.
  split; intros H; rewrite pcm_to_mulaw_map; simpl;
    unfold Transcoder.encode_direct.
  - now rewrite (clip_above _ H).
  - now rewrite (clip_below _ H).
Qed.

Lemma pcm_to_mulaw_saturates_witness :
  Transcoder.pcm_to_mulaw [S754_infinity false] = [Byte.x80] /\
  Transcoder.pcm_to_mulaw [S754_infinity true] = [Byte.x00].
Proof.
  split.
  - apply (proj1 (pcm_to_mulaw_saturates (S754_infinity false))).
    reflexivity.
  - apply (proj2 (pcm_to_mulaw_saturates (S754_infinity true))).
    reflexivity.
Defined.

(** X11.  Encoding a 16-bit sample and decoding it again moves it by at
    most 644; within the clipping range of the encoder, by at most 512 and
    by at most a thirty-second of its biased magnitude. *)
Theorem requantise_error_bound (s : Z) :
  (-32768 <= s <= 32767)%Z ->
  (Reading.quantisation_error s <= 644)%Z /\
  ((-32635 <= s <= 32635)%Z ->
   (Reading.quantisation_error s <= 512)%Z /\
   (32 * Reading.quantisation_error s <= Z.abs s + 132)%Z).
Proof.
  intros Hs. split.
  - apply Z.leb_le.
    apply (@range_from_forallb Reading.error_int16_ok _ _ error_int16_all).
    lia.
  - intros Hc.
    assert (H : Reading.error_in_clip_range_ok s = true).
    { apply (@range_from_forallb Reading.error_in_clip_range_ok _ _
               error_in_clip_range_all). lia. }
    unfold Reading.error_in_clip_range_ok in H.
    apply andb_prop in H. destruct H as [H1 H2].
    split; now apply Z.leb_le.
Qed.

Lemma requantise_error_bound_witness :
  (Reading.quantisation_error 1000 <= 644)%Z /\
  ((-32635 <= 1000 <= 32635)%Z ->
   (Reading.quantisation_error 1000 <= 512)%Z /\
   (32 * Reading.quantisation_error 1000 <= Z.abs 1000 + 132)%Z).
Proof. apply (@requantise_error_bound 1000%Z). lia. Defined.

(** X12.  Encoding followed by decoding preserves order on 16-bit
    samples: a larger sample never comes back smaller. *)
Theorem requantise_monotone (s t : Z) :
  (-32768 <= s)%Z -> (s <= t)%Z -> (t <= 32767)%Z ->
  (Reading.requantise s <= Reading.requantise t)%Z.
Proof.
  intros Hlo Hst Hhi.
  replace t with (s + Z.of_nat (Z.to_nat (t - s)))%Z by lia.
  apply requantise_monotone_steps; lia.
Qed.

Lemma requantise_monotone_witness :
  (Reading.requantise (-5) <= Reading.requantise 7)%Z.
Proof. apply (@requantise_monotone (-5)%Z 7%Z); lia. Defined.

(** X13.  The sample encoder is symmetric and saturating on all integers:
    negating a positive sample only inverts bit 7 of the byte, and every
    sample of magnitude 32635 or more is encoded as the extreme byte of
    its sign. *)
Theorem encode_mulaw_sample_symmetric (s : Z) :
  (0 < s)%Z ->
  Transcoder._encode_mulaw_sample (- s)
  = Z.lxor (Transcoder._encode_mulaw_sample s) 0x80 /\
  ((32635 <= s)%Z ->
   Transcoder._encode_mulaw_sample s = 0x80%Z /\
   Transcoder._encode_mulaw_sample (- s) = 0%Z).
Proof.
  intros Hs. split.
  - destruct (Z_le_gt_dec s 32767) as [Hle|Hgt].
    + apply Z.eqb_eq.
      apply (@range_from_forallb Reading.encode_symmetric_ok _ _
               encode_symmetric_all). lia.
    + rewrite (@encode_saturates_high s), (@encode_saturates_low (- s)) by lia.
      reflexivity.
  - intros H. split.
    + now apply encode_saturates_high.
    + apply encode_saturates_low. lia.
Qed.

Lemma encode_mulaw_sample_symmetric_witness :
  Transcoder._encode_mulaw_sample (- 40000)
  = Z.lxor (Transcoder._encode_mulaw_sample 40000) 0x80 /\
  ((32635 <= 40000)%Z ->
   Transcoder._encode_mulaw_sample 40000 = 0x80%Z /\
   Transcoder._encode_mulaw_sample (- 40000) = 0%Z).
Proof. apply (@encode_mulaw_sample_symmetric 40000%Z). lia. Defined.

(** ** Bridge, continued: the send pass *)
Section SendPassMore.
Import Py Transcoder Bridge Reading.
Context {E : Externals}.

Lemma frames_arith (n r : nat) :
  (480 * ((n - 480 * (n / 480) + r) / 480) + 480 * (n / 480)
   = 480 * ((n + r) / 480))%nat.
Proof.
  pose proof (Nat.div_mod_eq n 480) as Hn.
  replace (n - 480 * (n / 480))%nat with (n mod 480)%nat by lia.
  assert (H : ((n + r) / 480 = n / 480 + (n mod 480 + r) / 480)%nat).
  { rewrite <- Nat.div_add_l by lia. f_equal. lia. }
  rewrite H. lia.
Qed.

Lemma skipn_app_le (A : Type) (k : nat) (l r : list A) :
  (k <= length l)%nat -> skipn k l ++ r = skipn k (l ++ r).
Proof.
  intros H. rewrite skipn_app.
  replace (k - length l)%nat with 0%nat by lia. reflexivity.
Qed.

Lemma drain_frames_buffer (self : VoiceBridge) :
  _pcm_buffer (drain_frames self)
  = skipn (480 * (length (_pcm_buffer self) / 480)) (_pcm_buffer self).
Proof.
  apply (drain_frames_rect
           (fun s out => _pcm_buffer out
                         = skipn (480 * (length (_pcm_buffer s) / 480))
                                 (_pcm_buffer s))).
  - intros s H. rewrite OPUS_FRAME_SAMPLES_480 in H.
    now rewrite Nat.div_small.
  - intros s H IH. rewrite OPUS_FRAME_SAMPLES_480 in H.
    rewrite IH, drain_one_buffer, OPUS_FRAME_SAMPLES_480.
    rewrite skipn_skipn, length_skipn. f_equal.
    replace (length (_pcm_buffer s))
      with (1 * 480 + (length (_pcm_buffer s) - 480))%nat at 2 by lia.
    rewrite Nat.div_add_l by lia. lia.
Qed.

Lemma send_passes_buffer chunks : forall self : VoiceBridge,
  (length (_pcm_buffer self) < 480)%nat ->
  _pcm_buffer (send_passes (open_passes chunks) self)
  = skipn (480 * (length (_pcm_buffer self ++ concat chunks) / 480))
          (_pcm_buffer self ++ concat chunks).
Proof.
  unfold send_passes, open_passes.
  induction chunks as [|c rest IH]; intros self Hlt;
    cbn [List.map fold_left concat fst snd].
  - rewrite app_nil_r, Nat.div_small by exact Hlt. reflexivity.
  - unfold _send_pcm_to_personaplex at 2. cbv iota.
    set (self0 := set_pcm_buffer self (_pcm_buffer self ++ c)).
    pose proof (drain_frames_buffer self0) as Hb.
    pose proof (drain_frames_residual self0) as Hr.
    rewrite OPUS_FRAME_SAMPLES_480 in Hr.
    rewrite (IH (drain_frames self0) Hr), Hb.
    change (_pcm_buffer self0) with (_pcm_buffer self ++ c).
    set (L := _pcm_buffer self ++ c).
    assert (Hk : (480 * (length L / 480) <= length L)%nat)
      by (apply Nat.Div0.mul_div_le).
    rewrite (@skipn_app_le _ _ _ (concat rest) Hk).
    rewrite skipn_skipn.
    replace (_pcm_buffer self ++ c ++ concat rest) with (L ++ concat rest)
      by (unfold L; now rewrite app_assoc).
    f_equal.
    rewrite <- (@skipn_app_le _ _ _ (concat rest) Hk).
    rewrite !length_app, length_skipn.
    apply frames_arith.
Qed.

(** What one turn of the loop, and the whole loop, puts on the AI wire. *)
Lemma drain_one_sent (self : VoiceBridge) :
  exists new, pp_sent (drain_one self) = pp_sent self ++ new /\
              (length new <= 1)%nat /\ Forall audio_message new.
Proof.
  unfold drain_one, _opus_encode.
  destruct (opus_encode _ _) as [[enc' n] out_buf].
  destruct (n <? 0)%Z.
  - exists []. simpl. rewrite app_nil_r. repeat split; auto.
  - destruct (firstn (Z.to_nat n) out_buf) as [|b bs] eqn:Ef; simpl.
    + exists []. rewrite app_nil_r. repeat split; auto.
    + eexists. split; [reflexivity|]. split; [simpl; lia|].
      constructor; [|constructor]. now exists b, bs.
Qed.

Lemma drain_frames_sent (self : VoiceBridge) :
  exists new,
    pp_sent (drain_frames self) = pp_sent self ++ new /\
    (480 * length new + length (_pcm_buffer (drain_frames self))
     <= length (_pcm_buffer self))%nat /\
    Forall audio_message new.
Proof.
  apply (drain_frames_rect
           (fun s out =>
              exists new,
                pp_sent out = pp_sent s ++ new /\
                (480 * length new + length (_pcm_buffer out)
                 <= length (_pcm_buffer s))%nat /\
                Forall audio_message new)).
  - intros s _. exists []. rewrite app_nil_r. simpl. repeat split; auto.
  - intros s H [n2 [H2 [L2 F2]]].
    destruct (drain_one_sent s) as [n1 [H1 [L1 F1]]].
    rewrite OPUS_FRAME_SAMPLES_480 in H.
    rewrite drain_one_buffer, length_skipn, OPUS_FRAME_SAMPLES_480 in L2.
    exists (n1 ++ n2). rewrite H2, H1, app_assoc, length_app.
    repeat split; [lia|]. apply Forall_app. now split.
Qed.

Lemma send_pass_sent (self : VoiceBridge) pcm closed :
  exists new,
    pp_sent (_send_pcm_to_personaplex self pcm closed) = pp_sent self ++ new /\
    (480 * length new
     + length (_pcm_buffer (_send_pcm_to_personaplex self pcm closed))
     <= length (_pcm_buffer self) + length pcm)%nat /\
    Forall audio_message new.
Proof.
  unfold _send_pcm_to_personaplex. destruct closed.
  - exists []. rewrite app_nil_r. simpl. repeat split; auto. lia.
  - destruct (drain_frames_sent
                (set_pcm_buffer self (_pcm_buffer self ++ pcm)))
      as [new [H1 [H2 H3]]].
    exists new. simpl in H1, H2. rewrite length_app in H2. now repeat split.
Qed.

Lemma send_passes_sent passes : forall self : VoiceBridge,
  exists new,
    pp_sent (send_passes passes self) = pp_sent self ++ new /\
    (480 * length new + length (_pcm_buffer (send_passes passes self))
     <= length (_pcm_buffer self) + total_samples passes)%nat /\
    Forall audio_message new.
Proof.
  unfold send_passes, total_samples.
  induction passes as [|[pcm closed] rest IH]; intros self; simpl.
  - exists []. rewrite app_nil_r. simpl. repeat split; auto. lia.
  - destruct (send_pass_sent self pcm closed) as [n1 [H1 [L1 F1]]].
    destruct (IH (_send_pcm_to_personaplex self pcm closed))
      as [n2 [H2 [L2 F2]]].
    exists (n1 ++ n2). rewrite H2, H1, app_assoc, !length_app.
    repeat split; [lia|]. apply Forall_app. now split.
Qed.

End SendPassMore.

(** X14.  However the incoming samples are cut into chunks, what is left
    in the residual buffer after the passes of a new bridge is the tail of
    the whole stream behind its last whole frame: no sample is lost,
    repeated or reordered on the way through the buffer. *)
Theorem residual_is_stream_tail
  (E : Bridge.Externals) (chunks : list (list Transcoder.float32)) :
  Bridge._pcm_buffer
    (Bridge.send_passes (Reading.open_passes chunks) Bridge.init)
  = skipn (480 * (length (concat chunks) / 480)) (concat chunks).
Proof.
  rewrite send_passes_buffer by (simpl; lia). reflexivity.
Qed.

(** X15.  The passes of a new bridge send at most one message per whole
    frame of samples received, and every message they send is the audio
    prefix [0x01] followed by a non-empty packet. *)
Theorem sent_frames_bounded_by_samples
  (E : Bridge.Externals) (passes : list (list Transcoder.float32 * bool)) :
  (length (Bridge.pp_sent (Bridge.send_passes passes Bridge.init))
   <= Reading.total_samples passes / 480)%nat /\
  Forall Reading.audio_message
         (Bridge.pp_sent (Bridge.send_passes passes Bridge.init)).
Proof.
  destruct (send_passes_sent passes Bridge.init) as [new [H1 [H2 H3]]].
  simpl in H1, H2. rewrite H1. split; [|exact H3].
  apply Nat.div_le_lower_bound; lia.
Qed.

(** ** Bridge, continued: the loops and the call *)
Section PumpMore.
Import Py Transcoder Bridge Reading.
Context {E : Externals}.

(** The parts of the bridge the carrier-to-AI direction leaves alone. *)
Lemma drain_one_carrier_side (self : VoiceBridge) :
  twilio_sent (drain_one self) = twilio_sent self /\
  _transcript (drain_one self) = _transcript self /\
  _decoder (drain_one self) = _decoder self /\
  db_messages (drain_one self) = db_messages self /\
  _close (drain_one self) = _close self.
Proof.
  unfold drain_one, _opus_encode.
  destruct (opus_encode _ _) as [[enc' n] out_buf].
  destruct (n <? 0)%Z; [now repeat split|].
  destruct (bytes_truthy _); now repeat split.
Qed.

Lemma drain_frames_carrier_side (self : VoiceBridge) :
  twilio_sent (drain_frames self) = twilio_sent self /\
  _transcript (drain_frames self) = _transcript self /\
  _decoder (drain_frames self) = _decoder self /\
  db_messages (drain_frames self) = db_messages self /\
  _close (drain_frames self) = _close self.
Proof.
  apply (drain_frames_rect
           (fun s out => twilio_sent out = twilio_sent s /\
                         _transcript out = _transcript s /\
                         _decoder out = _decoder s /\
                         db_messages out = db_messages s /\
                         _close out = _close s)).
  - now repeat split.
  - intros s _ [H1 [H2 [H3 [H4 H5]]]].
    destruct (drain_one_carrier_side s) as [G1 [G2 [G3 [G4 G5]]]].
    repeat split; congruence.
Qed.

Lemma twilio_step_carrier_side (self : VoiceBridge) msg closed :
  twilio_sent (fst (twilio_step self msg closed)) = twilio_sent self /\
  _transcript (fst (twilio_step self msg closed)) = _transcript self /\
  _decoder (fst (twilio_step self msg closed)) = _decoder self /\
  db_messages (fst (twilio_step self msg closed)) = db_messages self /\
  _close (fst (twilio_step self msg closed)) = _close self.
Proof.
  unfold twilio_step.
  destruct (_close self) eqn:Ec; [now repeat split|].
  destruct msg as [[raw|data|raw err]| | | | | | |]; try now repeat split.
  unfold twilio_text.
  destruct data as [| | | | |l|items]; try now repeat split.
  destruct (json_eq_str _ (py "media")).
  - destruct (dict_get items (py "media")) as [[| | | | |l|media]|];
      try now repeat split.
    destruct (dict_get media (py "payload")) as [[| | | |payload|l|d]|];
      try now repeat split.
    destruct (b64decode payload) as [mulaw|]; [|now repeat split].
    unfold _send_pcm_to_personaplex. cbn [fst].
    destruct closed; [now repeat split|].
    destruct (drain_frames_carrier_side
                (set_pcm_buffer self (_pcm_buffer self ++
                   mulaw_8k_to_pcm_24k soxr_resample mulaw)))
      as [G1 [G2 [G3 [G4 G5]]]].
    rewrite G1, G2, G3, G4, G5. now repeat split.
  - destruct (json_eq_str _ (py "start")).
    + destruct (get_or _ _); now repeat split.
    + destruct (json_eq_str _ (py "stop")); now repeat split.
Qed.

(** Token capture by the AI-to-carrier loop. *)
Lemma personaplex_pump_tokens msgs : forall self : VoiceBridge,
  _close self = false ->
  Transcript._tokens (_transcript (fst (_personaplex_to_twilio msgs self)))
  = Transcript._tokens (_transcript self) ++ ai_tokens msgs.
Proof.
  induction msgs as [|[msg closed] rest IH]; intros self Hc; simpl.
  - now rewrite app_nil_r.
  - pose proof (personaplex_step_ai_side self msg closed)
      as [_ [_ [_ [_ Hc']]]].
    rewrite Hc in Hc'.
    unfold personaplex_step in *. rewrite Hc in *.
    destruct msg as [t|[|kind payload]| | | | | |]; simpl;
      try (now rewrite app_nil_r); try (now apply IH).
    destruct (Byte.eqb kind Byte.x01); simpl.
    + unfold _opus_decode in *.
      destruct (opus_decode _ _) as [[dec' n] out_buf].
      destruct (n <? 0)%Z; simpl in *; [now rewrite IH|].
      unfold _send_mulaw_to_twilio in *.
      destruct closed; simpl in *; now rewrite IH.
    + destruct (Byte.eqb kind Byte.x02); simpl in *; [|now apply IH].
      rewrite IH by exact Hc'. simpl. now rewrite <- app_assoc.
Qed.

Lemma handle_capture_open (self : VoiceBridge) ev :
  capture_open self -> capture_open (fst (handle self ev)).
Proof.
  intros [H1 [H2 H3]]. destruct ev as [msg closed|msg closed]; simpl.
  - destruct (twilio_step_carrier_side self msg closed)
      as [_ [G2 [_ [G4 _]]]].
    unfold capture_open. rewrite G2, G4. now repeat split.
  - destruct (personaplex_step_ai_side self msg closed)
      as [_ [_ [_ [G4 _]]]].
    unfold capture_open. rewrite G4. split; [|split; [|exact H3]];
      unfold personaplex_step;
      destruct (_close self); try assumption;
      destruct msg as [t|[|kind payload]| | | | | |]; try assumption;
      (destruct (Byte.eqb kind Byte.x01);
       [unfold _opus_decode;
        destruct (opus_decode _ _) as [[dec' n] out_buf];
        destruct (n <? 0)%Z; [assumption|];
        unfold _send_mulaw_to_twilio; destruct closed; assumption
       |destruct (Byte.eqb kind Byte.x02); [|assumption]]);
      simpl; [exact H1|now rewrite H2].
Qed.

Lemma wind_down_capture_open done evs : forall self : VoiceBridge,
  capture_open self -> capture_open (wind_down done evs self).
Proof.
  induction evs as [|ev rest IH]; intros self H; simpl; [exact H|].
  destruct (task_eqb (task_of ev) done); [now apply IH|].
  pose proof (@handle_capture_open self ev H) as H'.
  destruct (handle self ev) as [self' [| |e]]; simpl in *; auto.
Qed.

Lemma run_pumps_capture_open evs : forall self : VoiceBridge,
  capture_open self -> capture_open (fst (run_pumps evs self)).
Proof.
  induction evs as [|ev rest IH]; intros self H; simpl; [exact H|].
  pose proof (@handle_capture_open self ev H) as H'.
  destruct (handle self ev) as [self' [| |e]]; simpl in *; auto;
    now apply wind_down_capture_open.
Qed.

Lemma handle_no_token (self : VoiceBridge) ev :
  is_token_event ev = false ->
  _transcript (fst (handle self ev)) = _transcript self.
Proof.
  intros Ht. destruct ev as [msg closed|msg closed]; simpl.
  - now destruct (twilio_step_carrier_side self msg closed) as [_ [G2 _]].
  - unfold personaplex_step. destruct (_close self); [reflexivity|].
    destruct msg as [t|[|kind payload]| | | | | |]; try reflexivity.
    simpl in Ht.
    destruct (Byte.eqb kind Byte.x01).
    + unfold _opus_decode.
      destruct (opus_decode _ _) as [[dec' n] out_buf].
      destruct (n <? 0)%Z; [reflexivity|].
      unfold _send_mulaw_to_twilio. now destruct closed.
    + simpl in Ht. now rewrite Ht.
Qed.

Lemma wind_down_no_token done evs : forall self : VoiceBridge,
  forallb (fun ev => negb (is_token_event ev)) evs = true ->
  _transcript (wind_down done evs self) = _transcript self.
Proof.
  induction evs as [|ev rest IH]; intros self H; simpl; [reflexivity|].
  simpl in H. apply andb_prop in H. destruct H as [Hev Hrest].
  apply negb_true_iff in Hev.
  destruct (task_eqb (task_of ev) done); [now apply IH|].
  pose proof (@handle_no_token self ev Hev) as Ht.
  destruct (handle self ev) as [self' [| |e]]; simpl in *; auto.
  now rewrite IH.
Qed.

Lemma run_pumps_no_token evs : forall self : VoiceBridge,
  forallb (fun ev => negb (is_token_event ev)) evs = true ->
  _transcript (fst (run_pumps evs self)) = _transcript self.
Proof.
  induction evs as [|ev rest IH]; intros self H; simpl; [reflexivity|].
  simpl in H. apply andb_prop in H. destruct H as [Hev Hrest].
  apply negb_true_iff in Hev.
  pose proof (@handle_no_token self ev Hev) as Ht.
  destruct (handle self ev) as [self' [| |e]]; simpl in *.
  - now rewrite IH.
  - now rewrite wind_down_no_token.
  - now rewrite wind_down_no_token.
Qed.


(** A carrier message whose handling raises leaves the bridge as it
    was. *)
Lemma twilio_step_raise (self self' : VoiceBridge) msg closed e :
  twilio_step self msg closed = (self', Raise e) -> self' = self.
Proof.
  unfold twilio_step.
  destruct (_close self); [discriminate|].
  destruct msg as [[raw|data|raw err]| | | | | | |]; try discriminate;
    try (intros H; now injection H as <- _).
  unfold twilio_text.
  destruct data as [| | | | |l|items];
    try (intros H; now injection H as <- _).
  destruct (json_eq_str _ (py "media")).
  - destruct (dict_get items (py "media")) as [[| | | | |l|media]|];
      try (intros H; now injection H as <- _).
    destruct (dict_get media (py "payload")) as [[| | | |payload|l|d]|];
      try (intros H; now injection H as <- _).
    destruct (b64decode payload) as [mulaw|];
      [discriminate|intros H; now injection H as <- _].
  - destruct (json_eq_str _ (py "start")).
    + destruct (get_or _ _);
        try discriminate; intros H; now injection H as <- _.
    + destruct (json_eq_str _ (py "stop")); discriminate.
Qed.

Lemma truthy_strip (s : str) : truthy (strip s) = true -> truthy s = true.
Proof.
  destruct s as [|c r]; [|reflexivity]. intros H. exact H.
Qed.

(** What [_on_disconnect] writes for a capture that only holds tokens. *)
Lemma on_disconnect_open (self : VoiceBridge) :
  capture_open self ->
  db_messages (_on_disconnect self)
  = (if truthy (join (Transcript._tokens (_transcript self)))
     then [(py "assistant",
            strip (join (Transcript._tokens (_transcript self))))]
     else []) /\
  Transcript._tokens (_transcript (_on_disconnect self))
  = Transcript._tokens (_transcript self).
Proof.
  intros [H1 [H2 H3]].
  unfold _on_disconnect, Transcript.get_transcript, Transcript.end_turn,
    Transcript.get_full_text.
  rewrite H2.
  destruct (Transcript._tokens (_transcript self)) as [|t ts] eqn:Et.
  - rewrite !H1, !Et. cbn. rewrite H3, Et. now split.
  - cbn [Transcript._turns Transcript._tokens]. rewrite H1.
    destruct (truthy (strip (join (t :: ts)))) eqn:Es.
    + rewrite (truthy_strip _ Es). cbn. rewrite H3. now split.
    + destruct (truthy (join (t :: ts))); cbn; rewrite H3; now split.
Qed.

Lemma scale_ok_all :
  forallb scale_ok (range_from (-32768) (Z.to_nat 65536)) = true.
Proof. vm_compute. reflexivity. Qed.

Lemma scaled_sample (v : Z) :
  is_int16 v ->
  exists q,
    float_value (SFdiv prec32 emax32 (int_to_f32 v) (int_to_f32 32768))
    = Some q /\
    (q == Qmake v 32768)%Q /\ (-1 <= q)%Q /\ (q < 1)%Q.
Proof.
  intros Hv. unfold is_int16 in Hv.
  assert (H : scale_ok v = true).
  { apply (@range_from_forallb scale_ok _ _ scale_ok_all). lia. }
  unfold scale_ok in H.
  destruct (float_value _) as [q|]; [|discriminate].
  apply Qeq_bool_iff in H. exists q. split; [reflexivity|].
  split; [exact H|]. rewrite H. unfold Qle, Qlt. simpl. lia.
Qed.

End PumpMore.

(** X16.  Each loop writes its own side of the bridge only.  The
    carrier-to-AI body never touches the carrier wire, the transcript or
    the decoder; the AI-to-carrier body never touches the AI wire, the
    residual buffer, the encoder or the stream id. *)
Theorem loops_keep_to_their_side
  (E : Bridge.Externals) (self : Bridge.VoiceBridge)
  (msg : Bridge.WSMessage) (closed : bool) :
  (Bridge.twilio_sent (fst (Bridge.twilio_step self msg closed))
   = Bridge.twilio_sent self /\
   Bridge._transcript (fst (Bridge.twilio_step self msg closed))
   = Bridge._transcript self /\
   Bridge._decoder (fst (Bridge.twilio_step self msg closed))
   = Bridge._decoder self) /\
  (Bridge.pp_sent (fst (Bridge.personaplex_step self msg closed))
   = Bridge.pp_sent self /\
   Bridge._pcm_buffer (fst (Bridge.personaplex_step self msg closed))
   = Bridge._pcm_buffer self /\
   Bridge._encoder (fst (Bridge.personaplex_step self msg closed))
   = Bridge._encoder self /\
   Bridge._stream_sid (fst (Bridge.personaplex_step self msg closed))
   = Bridge._stream_sid self).
Proof.
  destruct (twilio_step_carrier_side self msg closed) as [H1 [H2 [H3 _]]].
  destruct (personaplex_step_ai_side self msg closed) as [G1 [G2 [G3 _]]].
  destruct (personaplex_step_keeps_sid self msg closed) as [G4 _].
  now repeat split.
Qed.

(** X17.  While the call is not closing, messages outside the protocol
    are passed over without any effect: carrier envelopes with an event
    other than media, start and stop, empty AI frames and AI frames of an
    unknown kind (the duplicate handshake [0x00] among them), and the
    message types the bodies do not look at: binary frames and pings and
    pongs from the carrier, text frames and pings and pongs from the AI.
    A [CLOSING] message is not among them: it ends the loop. *)
Theorem ignored_messages_have_no_effect
  (E : Bridge.Externals) (self : Bridge.VoiceBridge)
  (msg : Bridge.WSMessage) (closed : bool) :
  Bridge._close self = false ->
  (Reading.carrier_ignored msg = true ->
   Bridge.twilio_step self msg closed = (self, Bridge.Continue)) /\
  (Reading.ai_ignored msg = true ->
   Bridge.personaplex_step self msg closed = (self, Bridge.Continue)).
Proof.
  intros Hc. split; intros H.
  - unfold Bridge.twilio_step. rewrite Hc.
    destruct msg as [[raw|data|raw err]| | | | | | |]; try discriminate H;
      try reflexivity.
    destruct data as [| | | | |l|items]; try discriminate H.
    unfold Bridge.twilio_text. simpl in H.
    apply andb_prop in H. destruct H as [H H3].
    apply andb_prop in H. destruct H as [H1 H2].
    apply negb_true_iff in H1, H2, H3. now rewrite H1, H2, H3.
  - unfold Bridge.personaplex_step. rewrite Hc.
    destruct msg as [t|[|kind payload]| | | | | |]; try discriminate H;
      try reflexivity.
    simpl in H. apply andb_prop in H. destruct H as [H1 H2].
    apply negb_true_iff in H1, H2. now rewrite H1, H2.
Qed.

Lemma ignored_messages_have_no_effect_witness :
  (Reading.carrier_ignored
     (Bridge.TEXT (Bridge.Json (Bridge.JDict
        [(Py.py "event", Bridge.JStr (Py.py "mark"))]))) = true ->
   Bridge.twilio_step (E := Sample.externals) Bridge.init
     (Bridge.TEXT (Bridge.Json (Bridge.JDict
        [(Py.py "event", Bridge.JStr (Py.py "mark"))]))) false
   = (Bridge.init, Bridge.Continue)) /\
  (Reading.ai_ignored
     (Bridge.TEXT (Bridge.Json (Bridge.JDict
        [(Py.py "event", Bridge.JStr (Py.py "mark"))]))) = true ->
   Bridge.personaplex_step (E := Sample.externals) Bridge.init
     (Bridge.TEXT (Bridge.Json (Bridge.JDict
        [(Py.py "event", Bridge.JStr (Py.py "mark"))]))) false
   = (Bridge.init, Bridge.Continue)).
Proof.
  apply (@ignored_messages_have_no_effect Sample.externals Bridge.init).
  reflexivity.
Defined.

(** X18.  An AI audio frame the Opus decoder rejects is dropped and
    nothing else: no envelope is sent for it, only the decoder state moves
    on, and the loop handles the frames behind it as if it had not been
    there. *)
Theorem opus_decode_failure_drops_one_frame
  (E : Bridge.Externals) (self : Bridge.VoiceBridge)
  (payload : Transcoder.bytes) (closed : bool)
  (rest : list (Bridge.WSMessage * bool))
  (dec' : Bridge.Decoder) (n : Z) (out_buf : list Z) :
  Bridge._close self = false ->
  Bridge.opus_decode (Reading.decoder_of self) payload = (dec', n, out_buf) ->
  (n < 0)%Z ->
  Bridge._personaplex_to_twilio
    ((Bridge.BINARY (Byte.x01 :: payload), closed) :: rest) self
  = Bridge._personaplex_to_twilio rest (Bridge.set_decoder self dec').
Proof.
  intros Hc Hd Hn. simpl. unfold Bridge.personaplex_step. rewrite Hc.
  change (Byte.eqb Byte.x01 Byte.x01) with true. cbv iota.
  unfold Bridge._opus_decode. unfold Reading.decoder_of in Hd. rewrite Hd.
  apply Z.ltb_lt in Hn. now rewrite Hn.
Qed.

Lemma opus_decode_failure_drops_one_frame_witness :
  Bridge._personaplex_to_twilio (E := Sample.externals)
    [(Bridge.BINARY [Byte.x01], false);
     (Bridge.BINARY [Byte.x01; Byte.x00; Byte.x05; Byte.x00; Byte.x05;
                     Byte.x00; Byte.x05], false)]
    Bridge.init
  = Bridge._personaplex_to_twilio (E := Sample.externals)
      [(Bridge.BINARY [Byte.x01; Byte.x00; Byte.x05; Byte.x00; Byte.x05;
                       Byte.x00; Byte.x05], false)]
      (Bridge.set_decoder (E := Sample.externals) Bridge.init tt).
Proof.
  apply (@opus_decode_failure_drops_one_frame Sample.externals Bridge.init
           [] false _ (tt : @Bridge.Decoder Sample.externals) (-1)%Z []);
    reflexivity.
Defined.



(** X20.  When handling a carrier message raises (text that [json.loads]
    does not load, a JSON value that is not an object, a media envelope
    without its media or payload key, a payload that is not a string or
    not Base64, a start that is not an object), nothing has been buffered,
    sent or recorded: the body ends in the exception on the bridge exactly
    as it was before the message. *)
Theorem carrier_exception_before_any_effect
  (E : Bridge.Externals) (self : Bridge.VoiceBridge)
  (msg : Bridge.WSMessage) (closed : bool) (e : Bridge.exn) :
  snd (Bridge.twilio_step self msg closed) = Bridge.Raise e ->
  Bridge.twilio_step self msg closed = (self, Bridge.Raise e).
Proof.
  intros H.
  destruct (Bridge.twilio_step self msg closed) as [self' o] eqn:Es.
  cbn [snd] in H. subst o.
  now rewrite (twilio_step_raise _ _ _ Es).
Qed.

Lemma carrier_exception_before_any_effect_witness :
  let self := Bridge.set_pcm_buffer
                (Bridge.set_stream_sid (Bridge.init (E := Sample.externals))
                                       (Bridge.JStr (Py.py "S1")))
                [Transcoder.int_to_f32 0] in
  let no_payload :=
    Bridge.TEXT (Bridge.Json (Bridge.JDict
      [(Py.py "event", Bridge.JStr (Py.py "media"));
       (Py.py "media", Bridge.JDict [])])) in
  Bridge.twilio_step self no_payload false
  = (self, Bridge.Raise Bridge.KeyError).
Proof.
  apply (@carrier_exception_before_any_effect Sample.externals
           (Bridge.set_pcm_buffer
              (Bridge.set_stream_sid Bridge.init (Bridge.JStr (Py.py "S1")))
              [Transcoder.int_to_f32 0])).
  reflexivity.
Defined.

(** X21.  The capture receives the text tokens of the AI stream in order
    of arrival: after the AI-to-carrier loop has run, the token list is
    the one before followed by the decoded payloads of the [0x02] frames
    that precede the first terminator (close, closing, closed or
    error). *)
Theorem ai_tokens_captured_in_order
  (E : Bridge.Externals) (msgs : list (Bridge.WSMessage * bool))
  (self : Bridge.VoiceBridge) :
  Bridge._close self = false ->
  Transcript._tokens
    (Bridge._transcript (fst (Bridge._personaplex_to_twilio msgs self)))
  = Transcript._tokens (Bridge._transcript self) ++ Reading.ai_tokens msgs.
Proof. intros Hc. now apply personaplex_pump_tokens. Qed.

Lemma ai_tokens_captured_in_order_witness :
  let msgs := [(Bridge.BINARY (Byte.x02 :: Sample.ascii_bytes "Hello, "), false);
               (Bridge.BINARY [Byte.x00], false);
               (Bridge.BINARY (Byte.x02 :: Sample.ascii_bytes "Alice."), false);
               (Bridge.CLOSE, false);
               (Bridge.BINARY (Byte.x02 :: Sample.ascii_bytes "late"), false)] in
  Transcript._tokens
    (Bridge._transcript
       (fst (Bridge._personaplex_to_twilio (E := Sample.externals) msgs
                                           Bridge.init)))
  = Transcript._tokens (Bridge._transcript
                          (Bridge.init (E := Sample.externals)))
    ++ Reading.ai_tokens (E := Sample.externals) msgs.
Proof.
  apply (@ai_tokens_captured_in_order Sample.externals). reflexivity.
Defined.

(** X22.  A call that got past the handshake writes at most one message:
    an assistant message holding the trimmed concatenation of all text
    tokens captured, written exactly when that concatenation, before
    trimming, is not empty. *)
Theorem call_writes_trimmed_token_text
  (E : Bridge.Externals) (kind : Byte.byte) (rest : Transcoder.bytes)
  (evs : list Bridge.event) :
  let c := Bridge.start (Bridge.BINARY (kind :: rest)) evs in
  let tokens := Transcript._tokens (Bridge._transcript (Bridge.bridge c)) in
  Bridge.db_messages (Bridge.bridge c)
  = if Py.truthy (Py.join tokens)
    then [(Py.py "assistant", Py.strip (Py.join tokens))]
    else [].
Proof.
  unfold Bridge.start.
  pose proof (@run_pumps_capture_open E evs Bridge.init) as Ho.
  destruct (Bridge.run_pumps evs Bridge.init) as [self e].
  cbn [Bridge.bridge]. simpl in Ho.
  assert (Hopen : Reading.capture_open (Bridge.set_close self true)).
  { apply Ho. now repeat split. }
  destruct (@on_disconnect_open E _ Hopen) as [H1 H2].
  now rewrite H2, H1.
Qed.

(** X23.  A call in which the AI sends no text token writes no message at
    all, whatever audio went through and however the call ended. *)
Theorem call_without_tokens_writes_nothing
  (E : Bridge.Externals) (kind : Byte.byte) (rest : Transcoder.bytes)
  (evs : list Bridge.event) :
  forallb (fun ev => negb (Reading.is_token_event ev)) evs = true ->
  Bridge.db_messages
    (Bridge.bridge (Bridge.start (Bridge.BINARY (kind :: rest)) evs)) = [].
Proof.
  intros H. unfold Bridge.start.
  pose proof (@run_pumps_capture_open E evs Bridge.init) as Ho.
  pose proof (@run_pumps_no_token E evs Bridge.init H) as Ht.
  destruct (Bridge.run_pumps evs Bridge.init) as [self e].
  cbn [Bridge.bridge]. simpl in Ho, Ht.
  assert (Hopen : Reading.capture_open (Bridge.set_close self true)).
  { apply Ho. now repeat split. }
  destruct (@on_disconnect_open E _ Hopen) as [H1 _].
  rewrite H1. simpl. now rewrite Ht.
Qed.

Lemma call_without_tokens_writes_nothing_witness :
  Bridge.db_messages
    (Bridge.bridge
       (Bridge.start (E := Sample.externals) (Bridge.BINARY [Byte.x00])
          [Bridge.FromTwilio (Sample.start_envelope "S1") false;
           Bridge.FromPersonaplex
             (Bridge.BINARY [Byte.x01; Byte.x00; Byte.x05; Byte.x00;
                             Byte.x05; Byte.x00; Byte.x05]) false;
           Bridge.FromPersonaplex Bridge.CLOSE false])) = [].
Proof.
  apply (@call_without_tokens_writes_nothing Sample.externals).
  reflexivity.
Defined.

(** X24.  When the Opus decoder succeeds, the PCM handed on holds the
    first [n] samples of its 16-bit output, each divided by 32768 without
    rounding: every sample is exactly [v / 32768] and lies in [-1, 1). *)
Theorem opus_decode_samples_scaled
  (E : Bridge.Externals) (self : Bridge.VoiceBridge)
  (payload : Transcoder.bytes)
  (dec' : Bridge.Decoder) (n : Z) (out_buf : list Z) :
  Bridge.opus_decode (Reading.decoder_of self) payload = (dec', n, out_buf) ->
  (0 <= n)%Z ->
  Forall Reading.is_int16 out_buf ->
  exists pcm_24k,
    snd (Bridge._opus_decode self payload) = Some pcm_24k /\
    Forall2 (fun v x =>
               exists q, Transcoder.float_value x = Some q /\
                         (q == Qmake v 32768)%Q /\
                         (-1 <= q)%Q /\ (q < 1)%Q)
            (firstn (Z.to_nat n) out_buf) pcm_24k.
Proof.
  intros Hd Hn Hv. unfold Bridge._opus_decode.
  unfold Reading.decoder_of in Hd. rewrite Hd.
  destruct (Z.ltb_spec n 0) as [Hneg|_]; [lia|].
  eexists. split; [reflexivity|].
  assert (Hf : Forall Reading.is_int16 (firstn (Z.to_nat n) out_buf)).
  { rewrite <- (firstn_skipn (Z.to_nat n) out_buf) in Hv.
    now apply Forall_app in Hv. }
  induction Hf as [|v l Hv0 _ IH]; simpl; constructor; auto.
  now apply scaled_sample.
Qed.

Lemma opus_decode_samples_scaled_witness :
  exists pcm_24k,
    snd (Bridge._opus_decode (E := Sample.externals) Bridge.init
           [Byte.xff; Byte.xfb; Byte.x00; Byte.x05])
    = Some pcm_24k /\
    Forall2 (fun v x =>
               exists q, Transcoder.float_value x = Some q /\
                         (q == Qmake v 32768)%Q /\
                         (-1 <= q)%Q /\ (q < 1)%Q)
            (firstn (Z.to_nat 2) [(-5)%Z; 5%Z]) pcm_24k.
Proof.
  apply (@opus_decode_samples_scaled Sample.externals Bridge.init
           [Byte.xff; Byte.xfb; Byte.x00; Byte.x05]
           (tt : @Bridge.Decoder Sample.externals) 2%Z [(-5)%Z; 5%Z]).
  - reflexivity.
  - lia.
  - repeat constructor; unfold Reading.is_int16; lia.
Defined.

(** ** Recent messages *)
Section ConversationFacts.
Import PyText.

Lemma skipn_is_suffix (A : Type) (k : nat) (l : list A) :
  exists older, l = older ++ skipn k l /\
                length (skipn k l) = (length l - k)%nat.
Proof.
  exists (firstn k l). split.
  - symmetry. apply firstn_skipn.
  - apply length_skipn.
Qed.

End ConversationFacts.

(** X25.  [get_recent_messages] returns the last [limit] messages, in
    order, or all of them when there are fewer, for a positive limit.  A
    limit of 0 does not give an empty list but every message, and a
    negative limit drops that many messages from the front. *)
Theorem get_recent_messages_window
  (row : Type) (messages : list row) (limit : Z) :
  ((0 < limit)%Z ->
   exists older,
     messages = older ++ Conversation.get_recent_messages messages limit /\
     length (Conversation.get_recent_messages messages limit)
     = Nat.min (Z.to_nat limit) (length messages)) /\
  Conversation.get_recent_messages messages 0 = messages /\
  ((limit < 0)%Z ->
   Conversation.get_recent_messages messages limit
   = skipn (Z.to_nat (- limit)) messages).
Proof.
  unfold Conversation.get_recent_messages, PyText.slice_from.
  repeat split.
  - intros Hl.
    destruct (Z.ltb_spec (- limit) 0) as [_|H]; [|lia].
    destruct (Z.ltb_spec (- limit + Z.of_nat (length messages)) 0) as [H|H].
    + exists []. simpl. split; [reflexivity|]. lia.
    + destruct (skipn_is_suffix
                  (Z.to_nat (- limit + Z.of_nat (length messages))) messages)
        as [older [H1 H2]].
      exists older. split; [exact H1|]. rewrite H2. lia.
  - simpl. destruct (Z.ltb_spec (Z.of_nat (length messages)) 0); [lia|].
    reflexivity.
  - intros Hl.
    destruct (Z.ltb_spec (- limit) 0) as [H|_]; [lia|].
    destruct (Z.ltb_spec (Z.of_nat (length messages)) (- limit)) as [H|H];
      [|reflexivity].
    rewrite Nat2Z.id, !skipn_all2 by lia. reflexivity.
Qed.

Lemma get_recent_messages_window_witness :
  exists older,
    [1%nat; 2%nat; 3%nat]
    = older ++ Conversation.get_recent_messages [1%nat; 2%nat; 3%nat] 2 /\
    length (Conversation.get_recent_messages [1%nat; 2%nat; 3%nat] 2)
    = Nat.min (Z.to_nat 2) (length [1%nat; 2%nat; 3%nat]).
Proof.
  apply (proj1 (get_recent_messages_window [1%nat; 2%nat; 3%nat] 2)). lia.
Defined.

(** ** Memory formatting *)
Section RetrievalFacts.
Import Py PyText Retrieval.

Lemma split_on_nonempty (c : char) (s : str) : split_on c s <> [].
Proof.
  induction s as [|x r IH]; simpl; [discriminate|].
  destruct (char_eqb x c); [discriminate|].
  destruct (split_on c r); [contradiction|discriminate].
Qed.

Lemma split_on_app (c : char) (p s : str) :
  ~ In c p -> split_on c (p ++ c :: s) = p :: split_on c s.
Proof.
  induction p as [|x r IH]; intros Hp; simpl.
  - unfold char_eqb. now rewrite N.eqb_refl.
  - destruct (N.eqb_spec x c) as [->|Hne].
    + exfalso. apply Hp. now left.
    + unfold char_eqb. rewrite (proj2 (N.eqb_neq x c) Hne).
      rewrite IH; [reflexivity|]. intros Hin. apply Hp. now right.
Qed.

Lemma split_on_one (c : char) (p : str) :
  ~ In c p -> split_on c p = [p].
Proof.
  induction p as [|x r IH]; intros Hp; simpl; [reflexivity|].
  destruct (N.eqb_spec x c) as [->|Hne].
  - exfalso. apply Hp. now left.
  - unfold char_eqb. rewrite (proj2 (N.eqb_neq x c) Hne).
    rewrite IH; [reflexivity|]. intros Hin. apply Hp. now right.
Qed.

(** Joining lines with line feeds and splitting again gives the lines
    back. *)
Lemma split_join_lines (ls : list str) :
  ls <> [] -> Forall one_line ls ->
  split_on LF (join_sep [LF] ls) = ls.
Proof.
  induction ls as [|p rest IH]; intros Hne Hall; [contradiction|].
  inversion Hall as [|? ? Hp Hrest]; subst.
  destruct rest as [|q rest'].
  - simpl. now apply split_on_one.
  - change (join_sep [LF] (p :: q :: rest'))
      with (p ++ LF :: join_sep [LF] (q :: rest')).
    rewrite split_on_app by exact Hp.
    rewrite IH; [reflexivity|discriminate|exact Hrest].
Qed.

Lemma memory_line_one_line (mtype content : str) :
  one_line mtype -> one_line content -> one_line (memory_line mtype content).
Proof.
  unfold one_line, memory_line. intros Ht Hc Hin.
  apply in_app_or in Hin. destruct Hin as [Hin|Hin].
  - simpl in Hin. unfold LF in Hin.
    repeat (destruct Hin as [Hin|Hin]; [discriminate Hin|]). exact Hin.
  - apply in_app_or in Hin. destruct Hin as [Hin|Hin]; [now apply Ht|].
    apply in_app_or in Hin. destruct Hin as [Hin|Hin]; [|now apply Hc].
    simpl in Hin. unfold LF in Hin.
    repeat (destruct Hin as [Hin|Hin]; [discriminate Hin|]). exact Hin.
Qed.

Lemma memory_lines_ok (memories : list memory) :
  forallb has_content memories = true ->
  memory_lines memories
  = Ok (List.map (fun m => memory_line (rendered_type m) (rendered_content m))
                 memories).
Proof.
  induction memories as [|m rest IH]; intros H; simpl; [reflexivity|].
  simpl in H. apply andb_prop in H. destruct H as [Hm Hrest].
  unfold has_content in Hm. unfold rendered_type, rendered_content.
  destruct (row_get m (py "content")); [|discriminate].
  now rewrite (IH Hrest).
Qed.

Lemma memory_lines_err (memories : list memory) :
  forallb has_content memories = false ->
  memory_lines memories = Err Bridge.KeyError.
Proof.
  induction memories as [|m rest IH]; intros H; simpl; [discriminate|].
  simpl in H. unfold has_content in H at 1.
  destruct (row_get m (py "content")); [|reflexivity].
  simpl in H. now rewrite (IH H).
Qed.

End RetrievalFacts.

(** X26.  [format_memories_for_prompt] raises [KeyError] exactly when
    some memory has no content, and gives the empty string for no memory.
    Otherwise, when no rendered type or content holds a line feed, its
    result splits into the opening tag, one line per memory in the order
    given (with type [fact] where a memory has none), and the closing
    tag. *)
Theorem format_memories_for_prompt_lines (memories : list Retrieval.memory) :
  Retrieval.format_memories_for_prompt [] = PyText.Ok [] /\
  (forallb Retrieval.has_content memories = false ->
   Retrieval.format_memories_for_prompt memories
   = PyText.Err Bridge.KeyError) /\
  (forallb Retrieval.has_content memories = true ->
   memories <> [] ->
   Forall (fun m => PyText.one_line (Retrieval.rendered_type m) /\
                    PyText.one_line (Retrieval.rendered_content m))
          memories ->
   exists s,
     Retrieval.format_memories_for_prompt memories = PyText.Ok s /\
     PyText.split_on PyText.LF s
     = [Py.py "<memories>"]
       ++ List.map (fun m => Retrieval.memory_line
                               (Retrieval.rendered_type m)
                               (Retrieval.rendered_content m))
                   memories
       ++ [Py.py "</memories>"]).
Proof.
  split; [reflexivity|]. split.
  - intros H. destruct memories as [|m rest]; [discriminate H|].
    unfold Retrieval.format_memories_for_prompt.
    now rewrite (memory_lines_err _ H).
  - intros H Hne Hall. destruct memories as [|m rest]; [contradiction|].
    unfold Retrieval.format_memories_for_prompt.
    rewrite (memory_lines_ok _ H).
    eexists. split; [reflexivity|].
    apply split_join_lines; [discriminate|].
    apply Forall_app. split.
    + constructor; [|constructor]. unfold PyText.one_line, PyText.LF.
      simpl. intros Hin.
      repeat (destruct Hin as [Hin|Hin]; [discriminate Hin|]). exact Hin.
    + apply Forall_app. split.
      * apply Forall_map. revert Hall. apply Forall_impl.
        intros a [Ht Hc]. now apply memory_line_one_line.
      * constructor; [|constructor]. unfold PyText.one_line, PyText.LF.
        simpl. intros Hin.
        repeat (destruct Hin as [Hin|Hin]; [discriminate Hin|]). exact Hin.
Qed.

Lemma format_memories_for_prompt_lines_witness :
  let memories :=
    [[(Py.py "type", Py.py "fact");
      (Py.py "content", Py.py "User's name is Alice")];
     [(Py.py "content", Py.py "Prefers short replies")]] in
  exists s,
    Retrieval.format_memories_for_prompt memories = PyText.Ok s /\
    PyText.split_on PyText.LF s
    = [Py.py "<memories>"]
      ++ List.map (fun m => Retrieval.memory_line
                              (Retrieval.rendered_type m)
                              (Retrieval.rendered_content m))
                  memories
      ++ [Py.py "</memories>"].
Proof.
  apply (proj2 (proj2 (format_memories_for_prompt_lines
                         [[(Py.py "type", Py.py "fact");
                           (Py.py "content", Py.py "User's name is Alice")];
                          [(Py.py "content",
                            Py.py "Prefers short replies")]]))).
  - reflexivity.
  - discriminate.
  - repeat constructor; unfold PyText.one_line, PyText.LF; simpl;
      intros Hin;
      repeat (destruct Hin as [Hin|Hin]; [discriminate Hin|]); exact Hin.
Defined.

(** ** Post-conversation processing *)
Section ExtractionFacts.
Import Py PyText Bridge Extraction.

Lemma store_facts_content facts channel :
  Forall stores_content (fst (store_facts facts channel)).
Proof.
  induction facts as [|f rest IH]; simpl; [constructor|].
  destruct f as [| | | | |l|items]; try constructor.
  destruct (json_truthy (get_or (dict_get items (py "content")) (JStr [])))
    eqn:Ec; [|exact IH].
  destruct (store_facts rest channel) as [calls e]. simpl in *.
  constructor; [exact Ec|exact IH].
Qed.


Lemma store_facts_abort pre bad post channel :
  forallb is_object pre = true ->
  is_object bad = false ->
  snd (store_facts (pre ++ bad :: post) channel) = Some AttributeError /\
  Forall (fun e => is_store e = true)
         (fst (store_facts (pre ++ bad :: post) channel)) /\
  length (fst (store_facts (pre ++ bad :: post) channel))
  = length (filter storable pre).
Proof.
  intros Hpre Hbad.
  induction pre as [|f rest IH]; simpl.
  - destruct bad as [| | | | |l|items]; try discriminate Hbad;
      now repeat split.
  - simpl in Hpre. apply andb_prop in Hpre. destruct Hpre as [Hf Hrest].
    destruct f as [| | | | |l|items]; try discriminate Hf.
    destruct (IH Hrest) as [H1 [H2 H3]].
    change (storable (JDict items))
      with (json_truthy (get_or (dict_get items (py "content")) (JStr []))).
    destruct (json_truthy (get_or (dict_get items (py "content")) (JStr [])));
      [|now repeat split].
    destruct (store_facts (rest ++ bad :: post) channel) as [calls e].
    simpl in *. repeat split; [exact H1|now constructor|now f_equal].
Qed.

End ExtractionFacts.

(** X27.  Whatever the model answers, [process_conversation] never asks
    the store for a memory whose content is falsy: facts without content,
    or with an empty one, are skipped, and an empty summary is not
    stored. *)
Theorem process_conversation_never_stores_empty
  (messages : list Extraction.message) (facts_response : Bridge.text)
  (summary_response : Py.str) (channel : Py.str) :
  Forall Extraction.stores_content
         (fst (Extraction.process_conversation messages facts_response
                                               summary_response channel)).
Proof.
  unfold Extraction.process_conversation.
  destruct messages as [|m rest]; [constructor|].
  destruct (Extraction.extract_facts facts_response) as [facts|e];
    [|repeat constructor].
  pose proof (store_facts_content facts channel) as Hs.
  destruct (Extraction.store_facts _ channel) as [calls [e|]]; simpl in *.
  - repeat constructor. exact Hs.
  - repeat constructor. apply Forall_app. split; [exact Hs|].
    apply Forall_app. split; [|repeat constructor].
    destruct (Py.truthy (Extraction.extract_summary summary_response)) eqn:Et;
      repeat constructor. exact Et.
Qed.



(** X29.  An element of the extracted array that is not an object aborts
    the processing with [AttributeError]: the facts before it have been
    stored, but the summary is not stored and the conversation is never
    ended. *)
Theorem process_conversation_aborts_on_non_object
  (messages : list Extraction.message) (pre post : list Bridge.json)
  (bad : Bridge.json) (summary_response : Py.str) (channel : Py.str) :
  messages <> [] ->
  forallb Extraction.is_object pre = true ->
  Extraction.is_object bad = false ->
  let transcript := Extraction._build_transcript messages in
  exists stored,
    Extraction.process_conversation messages
      (Bridge.Json (Bridge.JList (pre ++ bad :: post)))
      summary_response channel
    = ([Extraction.AskFacts transcript; Extraction.AskSummary transcript]
       ++ stored, Some Bridge.AttributeError) /\
    Forall (fun e => Extraction.is_store e = true) stored /\
    length stored = length (filter Extraction.storable pre).
Proof.
  intros Hne Hpre Hbad. unfold Extraction.process_conversation.
  destruct messages as [|m rest]; [contradiction|].
  cbn [Extraction.extract_facts].
  destruct (store_facts_abort pre bad post channel Hpre Hbad)
    as [H1 [H2 H3]].
  destruct (Extraction.store_facts _ channel) as [calls e]. simpl in *.
  subst e. exists calls. now repeat split.
Qed.

Lemma process_conversation_aborts_on_non_object_witness :
  let messages := [(Py.py "assistant", Py.py "Hello, Alice.")] in
  let fact := Bridge.JDict [(Py.py "content", Bridge.JStr (Py.py "Alice"))] in
  let transcript := Extraction._build_transcript messages in
  exists stored,
    Extraction.process_conversation messages
      (Bridge.Json (Bridge.JList ([fact] ++ Bridge.JStr (Py.py "oops")
                                         :: [fact])))
      (Py.py "A greeting.") (Py.py "voice")
    = ([Extraction.AskFacts transcript; Extraction.AskSummary transcript]
       ++ stored, Some Bridge.AttributeError) /\
    Forall (fun e => Extraction.is_store e = true) stored /\
    length stored = length (filter Extraction.storable [fact]).
Proof.
  apply (@process_conversation_aborts_on_non_object
           [(Py.py "assistant", Py.py "Hello, Alice.")]
           [Bridge.JDict [(Py.py "content", Bridge.JStr (Py.py "Alice"))]]
           [Bridge.JDict [(Py.py "content", Bridge.JStr (Py.py "Alice"))]]
           (Bridge.JStr (Py.py "oops")) (Py.py "A greeting.")
           (Py.py "voice")); try reflexivity.
  discriminate.
Defined.

(** ** Provider failover *)
(** X30.  With one of the two known providers, [chat] fails only when
    both provider calls fail, and then with the error of the second call.
    It answers with the first provider's text when that call succeeds, and
    otherwise with the text of the other provider, which is asked the same
    messages with its own default model, not the model requested.  An
    unknown provider gives [ValueError]. *)
Theorem chat_failover
  (failure : Type) (default_llm_provider default_llm_model : Py.str)
  (_chat_claude _chat_openai :
     list LlmClient.message -> Py.str -> Py.str
     -> PyText.result Py.str failure)
  (messages : list LlmClient.message) (system_prompt : Py.str)
  (provider model : option Py.str) :
  let chat := LlmClient.chat default_llm_provider default_llm_model
                             _chat_claude _chat_openai
                             messages system_prompt provider model in
  let p := LlmClient.or_default provider default_llm_provider in
  let m := LlmClient.or_default model default_llm_model in
  (forall first second,
     (p = Py.py "claude" /\
      first = _chat_claude messages system_prompt m /\
      second = _chat_openai messages system_prompt (Py.py "gpt-4o")) \/
     (p = Py.py "openai" /\
      first = _chat_openai messages system_prompt m /\
      second = _chat_claude messages system_prompt
                            (Py.py "claude-sonnet-4-20250514")) ->
     (forall e, chat = PyText.Err e ->
                exists f1 f2, first = PyText.Err f1 /\
                              second = PyText.Err f2 /\
                              e = LlmClient.ProviderError f2) /\
     (forall s, chat = PyText.Ok s <->
                first = PyText.Ok s \/
                (exists f1, first = PyText.Err f1 /\
                            second = PyText.Ok s))) /\
  (p <> Py.py "claude" -> p <> Py.py "openai" ->
   chat = PyText.Err (LlmClient.ValueError failure)).
Proof.
  cbv zeta. unfold LlmClient.chat. split.
  - intros first second [[-> [-> ->]]|[-> [-> ->]]]; cbn.
    + destruct (_chat_claude messages system_prompt _) as [a|f1];
        destruct (_chat_openai messages system_prompt _) as [b|f2];
        cbn; (split; [intros e He|intros s; split; [intros Hs|intros Hs]]);
        try discriminate;
        try (injection He as <-; now exists f1, f2);
        try (injection Hs as <-; (now left) || (right; now exists f1));
        try (destruct Hs as [Hs|[f [Hs Hs']]]; try discriminate;
             try (now injection Hs as <-); try (now injection Hs' as <-)).
    + destruct (_chat_openai messages system_prompt _) as [a|f1];
        destruct (_chat_claude messages system_prompt _) as [b|f2];
        cbn; (split; [intros e He|intros s; split; [intros Hs|intros Hs]]);
        try discriminate;
        try (injection He as <-; now exists f1, f2);
        try (injection Hs as <-; (now left) || (right; now exists f1));
        try (destruct Hs as [Hs|[f [Hs Hs']]]; try discriminate;
             try (now injection Hs as <-); try (now injection Hs' as <-)).
  - intros H1 H2. unfold LlmClient._get_chat_fn.
    destruct (Py.str_eqb _ (Py.py "claude")) eqn:E1.
    + exfalso. apply H1. now apply str_eqb_eq.
    + destruct (Py.str_eqb _ (Py.py "openai")) eqn:E2; [|reflexivity].
      exfalso. apply H2. now apply str_eqb_eq.
Qed.

Lemma chat_failover_witness :
  let first : PyText.result Py.str unit := PyText.Err tt in
  let second : PyText.result Py.str unit := PyText.Ok (Py.py "gpt-4o") in
  let chat :=
    LlmClient.chat (Py.py "claude") (Py.py "claude-sonnet-4-20250514")
      (fun _ _ _ => PyText.Err tt) (fun _ _ model => PyText.Ok model)
      [(Py.py "user", Py.py "Hi")] (Py.py "Be helpful") None None in
  (forall e, chat = PyText.Err e ->
             exists f1 f2, first = PyText.Err f1 /\
                           second = PyText.Err f2 /\
                           e = LlmClient.ProviderError f2) /\
  (forall s, chat = PyText.Ok s <->
             first = PyText.Ok s \/
             (exists f1, first = PyText.Err f1 /\ second = PyText.Ok s)).
Proof.
  apply (proj1 (@chat_failover unit (Py.py "claude")
                  (Py.py "claude-sonnet-4-20250514")
                  (fun _ _ _ => PyText.Err tt)
                  (fun _ _ model => PyText.Ok model)
                  [(Py.py "user", Py.py "Hi")] (Py.py "Be helpful")
                  None None)).
  left. repeat split.
Defined.
